(** * AI code review bot: the review pipeline of [src/reviewBot.ts]

    A shallow embedding of class [AICodeReviewBot] and of the properties
    its specification states about it.

    Modelling conventions.
    - A JavaScript string is a [jsstring]: the list of its UTF-16 code
      units, each an [N]; a code unit is below 2^16, and no statement
      depends on that bound.  [length], [slice], [split], [includes] and the
      regular expressions work on code units; [trim] removes the
      WhiteSpace and LineTerminator code units of ECMAScript;
      [toLowerCase] decodes surrogate pairs, lowers every code point by
      the default case conversion of Unicode (the tables are those of
      the Unicode Character Database 14.0.0, with the Final_Sigma rule
      and the one expanding mapping of SpecialCasing.txt that does not
      depend on the language) and encodes the result.  The emoji
      prefixes of the source's literals are kept as the characters the
      file stores.
    - A JavaScript number that holds a line number, a severity, a PR
      number or a length is a [Z]; [NaN] is [None].  Doubles are exact
      on integers up to 2^53; [parseInt] is modelled on [Z], so it
      coincides with the source on digit runs that denote less than
      2^53, and statements that give its value carry that bound.  A
      non-zero integer never rounds to zero and a double is never
      negative unless the integer is, so truthiness and sign tests are
      exact everywhere.
    - Everything outside the process (environment variables, the file
      system, ESLint, the completion service, the GitHub API, the
      console) is an oracle of a [World]: it answers a request from the
      history of all earlier requests, or throws.  Every request is
      appended to the trace, so "is attempted" means "is in the trace". *)

From Stdlib Require Import String Ascii List ZArith NArith Lia Bool QArith.
From Stdlib Require Import DecimalString.
From Stdlib.Strings Require Import Byte.
Import ListNotations.

Local Open Scope Z_scope.
Local Open Scope list_scope.

(** ** JavaScript strings *)

#[local] Set Warnings "-notation-for-abbreviation".
#[local] Set Warnings "-via-type-remapping,-via-type-mismatch".

(** A string is the list of its UTF-16 code units. *)
Notation jsstring := (list N).

(** Literals: a text of ASCII characters between double quotes is the
    list of its code units; a single character between quotes in scope
    [unit] is its code unit.  [quoted] is the type the notation of
    texts is declared for. *)
Definition quoted : Set := jsstring.

Inductive literal : Set :=
| LitEnd
| LitUnit (c : N) (s : literal).

Fixpoint literal_of_bytes (l : list byte) : option literal :=
  match l with
  | [] => Some LitEnd
  | b :: l' =>
      let n := Byte.to_N b in
      if (n <? 128)%N
      then match literal_of_bytes l' with
           | Some s => Some (LitUnit n s)
           | None => None
           end
      else None
  end.

Fixpoint bytes_of_literal (s : literal) : option (list byte) :=
  match s with
  | LitEnd => Some []
  | LitUnit c s' =>
      match Byte.of_N c, bytes_of_literal s' with
      | Some b, Some l => if (c <? 128)%N then Some (b :: l) else None
      | _, _ => None
      end
  end.

Definition unit_of_bytes (l : list byte) : option N :=
  match l with
  | [b] => if (Byte.to_N b <? 128)%N then Some (Byte.to_N b) else None
  | _ => None
  end.

Definition bytes_of_unit (c : N) : option (list byte) :=
  if (32 <=? c)%N && (c <? 127)%N
  then match Byte.of_N c with Some b => Some [b] | None => None end
  else None.

Declare Scope jsstring_scope.
Delimit Scope jsstring_scope with str.
Declare Scope unit_scope.
Delimit Scope unit_scope with unit.
String Notation quoted literal_of_bytes bytes_of_literal
  (via literal mapping [[nil] => LitEnd, [cons] => LitUnit]) : jsstring_scope.
String Notation N unit_of_bytes bytes_of_unit : unit_scope.
Local Open Scope jsstring_scope.


(** ** Unicode case data

    The data [toLowerCase] needs, from the Unicode Character Database
    14.0.0: the simple lower-case mappings of UnicodeData.txt, and the
    properties Cased and Case_Ignorable of DerivedCoreProperties.txt. *)

Module Unicode.

Local Open Scope N_scope.

(** Runs of code points that lower case by a shift: first, last, and the
    lower case of the first. *)
Definition lowerShift : list (N * N * N) :=
  [ (65, 90, 97); (192, 214, 224); (216, 222, 248); (376, 376, 255); (385, 385,
    595); (390, 390, 596); (391, 391, 392); (393, 394, 598); (395, 395, 396);
    (398, 398, 477); (399, 399, 601); (400, 400, 603); (401, 401, 402); (403,
    403, 608); (404, 404, 611); (406, 406, 617); (407, 407, 616); (408, 408,
    409); (412, 412, 623); (413, 413, 626); (415, 415, 629); (422, 422, 640);
    (423, 423, 424); (425, 425, 643); (428, 428, 429); (430, 430, 648); (431,
    431, 432); (433, 434, 650); (439, 439, 658); (440, 440, 441); (444, 444,
    445); (452, 452, 454); (453, 453, 454); (455, 455, 457); (456, 456, 457);
    (458, 458, 460); (497, 497, 499); (502, 502, 405); (503, 503, 447); (544,
    544, 414); (570, 570, 11365); (571, 571, 572); (573, 573, 410); (574, 574,
    11366); (577, 577, 578); (579, 579, 384); (580, 580, 649); (581, 581, 652);
    (886, 886, 887); (895, 895, 1011); (902, 902, 940); (904, 906, 941); (908,
    908, 972); (910, 911, 973); (913, 929, 945); (931, 939, 963); (975, 975,
    983); (1012, 1012, 952); (1015, 1015, 1016); (1017, 1017, 1010); (1018,
    1018, 1019); (1021, 1023, 891); (1024, 1039, 1104); (1040, 1071, 1072);
    (1216, 1216, 1231); (1329, 1366, 1377); (4256, 4293, 11520); (4295, 4295,
    11559); (4301, 4301, 11565); (5024, 5103, 43888); (5104, 5109, 5112); (7312,
    7354, 4304); (7357, 7359, 4349); (7838, 7838, 223); (7944, 7951, 7936);
    (7960, 7965, 7952); (7976, 7983, 7968); (7992, 7999, 7984); (8008, 8013,
    8000); (8025, 8025, 8017); (8027, 8027, 8019); (8029, 8029, 8021); (8031,
    8031, 8023); (8040, 8047, 8032); (8072, 8079, 8064); (8088, 8095, 8080);
    (8104, 8111, 8096); (8120, 8121, 8112); (8122, 8123, 8048); (8124, 8124,
    8115); (8136, 8139, 8050); (8140, 8140, 8131); (8152, 8153, 8144); (8154,
    8155, 8054); (8168, 8169, 8160); (8170, 8171, 8058); (8172, 8172, 8165);
    (8184, 8185, 8056); (8186, 8187, 8060); (8188, 8188, 8179); (8486, 8486,
    969); (8490, 8490, 107); (8491, 8491, 229); (8498, 8498, 8526); (8544, 8559,
    8560); (8579, 8579, 8580); (9398, 9423, 9424); (11264, 11311, 11312);
    (11360, 11360, 11361); (11362, 11362, 619); (11363, 11363, 7549); (11364,
    11364, 637); (11373, 11373, 593); (11374, 11374, 625); (11375, 11375, 592);
    (11376, 11376, 594); (11378, 11378, 11379); (11381, 11381, 11382); (11390,
    11391, 575); (11506, 11506, 11507); (42877, 42877, 7545); (42891, 42891,
    42892); (42893, 42893, 613); (42922, 42922, 614); (42923, 42923, 604);
    (42924, 42924, 609); (42925, 42925, 620); (42926, 42926, 618); (42928,
    42928, 670); (42929, 42929, 647); (42930, 42930, 669); (42931, 42931,
    43859); (42948, 42948, 42900); (42949, 42949, 642); (42950, 42950, 7566);
    (42960, 42960, 42961); (42997, 42997, 42998); (65313, 65338, 65345); (66560,
    66599, 66600); (66736, 66771, 66776); (66928, 66938, 66967); (66940, 66954,
    66979); (66956, 66962, 66995); (66964, 66965, 67003); (68736, 68786, 68800);
    (71840, 71871, 71872); (93760, 93791, 93792); (125184, 125217, 125218) ].

(** Runs in which capital and small letters alternate: from the first to
    the last capital, every second code point lowers to its successor. *)
Definition lowerAlternate : list (N * N) :=
  [ (256, 302); (306, 310); (313, 327); (330, 374); (377, 381); (386, 388);
    (416, 420); (435, 437); (459, 475); (478, 494); (498, 500); (504, 542);
    (546, 562); (582, 590); (880, 882); (984, 1006); (1120, 1152); (1162, 1214);
    (1217, 1229); (1232, 1326); (7680, 7828); (7840, 7934); (11367, 11371);
    (11392, 11490); (11499, 11501); (42560, 42604); (42624, 42650); (42786,
    42798); (42802, 42862); (42873, 42875); (42878, 42886); (42896, 42898);
    (42902, 42920); (42932, 42946); (42951, 42953); (42966, 42968) ].

(** The code points that are Cased and not Case_Ignorable: first and last
    of each run. *)
Definition casedLetter : list (N * N) :=
  [ (65, 90); (97, 122); (170, 170); (181, 181); (186, 186); (192, 214); (216,
    246); (248, 442); (444, 447); (452, 659); (661, 687); (880, 883); (886,
    887); (891, 893); (895, 895); (902, 902); (904, 906); (908, 908); (910,
    929); (931, 1013); (1015, 1153); (1162, 1327); (1329, 1366); (1376, 1416);
    (4256, 4293); (4295, 4295); (4301, 4301); (4304, 4346); (4349, 4351); (5024,
    5109); (5112, 5117); (7296, 7304); (7312, 7354); (7357, 7359); (7424, 7467);
    (7531, 7543); (7545, 7578); (7680, 7957); (7960, 7965); (7968, 8005); (8008,
    8013); (8016, 8023); (8025, 8025); (8027, 8027); (8029, 8029); (8031, 8061);
    (8064, 8116); (8118, 8124); (8126, 8126); (8130, 8132); (8134, 8140); (8144,
    8147); (8150, 8155); (8160, 8172); (8178, 8180); (8182, 8188); (8450, 8450);
    (8455, 8455); (8458, 8467); (8469, 8469); (8473, 8477); (8484, 8484); (8486,
    8486); (8488, 8488); (8490, 8493); (8495, 8500); (8505, 8505); (8508, 8511);
    (8517, 8521); (8526, 8526); (8544, 8575); (8579, 8580); (9398, 9449);
    (11264, 11387); (11390, 11492); (11499, 11502); (11506, 11507); (11520,
    11557); (11559, 11559); (11565, 11565); (42560, 42605); (42624, 42651);
    (42786, 42863); (42865, 42887); (42891, 42894); (42896, 42954); (42960,
    42961); (42963, 42963); (42965, 42969); (42997, 42998); (43002, 43002);
    (43824, 43866); (43872, 43880); (43888, 43967); (64256, 64262); (64275,
    64279); (65313, 65338); (65345, 65370); (66560, 66639); (66736, 66771);
    (66776, 66811); (66928, 66938); (66940, 66954); (66956, 66962); (66964,
    66965); (66967, 66977); (66979, 66993); (66995, 67001); (67003, 67004);
    (68736, 68786); (68800, 68850); (71840, 71903); (93760, 93823); (119808,
    119892); (119894, 119964); (119966, 119967); (119970, 119970); (119973,
    119974); (119977, 119980); (119982, 119993); (119995, 119995); (119997,
    120003); (120005, 120069); (120071, 120074); (120077, 120084); (120086,
    120092); (120094, 120121); (120123, 120126); (120128, 120132); (120134,
    120134); (120138, 120144); (120146, 120485); (120488, 120512); (120514,
    120538); (120540, 120570); (120572, 120596); (120598, 120628); (120630,
    120654); (120656, 120686); (120688, 120712); (120714, 120744); (120746,
    120770); (120772, 120779); (122624, 122633); (122635, 122654); (125184,
    125251); (127280, 127305); (127312, 127337); (127344, 127369) ].

(** The code points that are Case_Ignorable. *)
Definition caseIgnorable : list (N * N) :=
  [ (39, 39); (46, 46); (58, 58); (94, 94); (96, 96); (168, 168); (173, 173);
    (175, 175); (180, 180); (183, 184); (688, 879); (884, 885); (890, 890);
    (900, 901); (903, 903); (1155, 1161); (1369, 1369); (1375, 1375); (1425,
    1469); (1471, 1471); (1473, 1474); (1476, 1477); (1479, 1479); (1524, 1524);
    (1536, 1541); (1552, 1562); (1564, 1564); (1600, 1600); (1611, 1631); (1648,
    1648); (1750, 1757); (1759, 1768); (1770, 1773); (1807, 1807); (1809, 1809);
    (1840, 1866); (1958, 1968); (2027, 2037); (2042, 2042); (2045, 2045); (2070,
    2093); (2137, 2139); (2184, 2184); (2192, 2193); (2200, 2207); (2249, 2306);
    (2362, 2362); (2364, 2364); (2369, 2376); (2381, 2381); (2385, 2391); (2402,
    2403); (2417, 2417); (2433, 2433); (2492, 2492); (2497, 2500); (2509, 2509);
    (2530, 2531); (2558, 2558); (2561, 2562); (2620, 2620); (2625, 2626); (2631,
    2632); (2635, 2637); (2641, 2641); (2672, 2673); (2677, 2677); (2689, 2690);
    (2748, 2748); (2753, 2757); (2759, 2760); (2765, 2765); (2786, 2787); (2810,
    2815); (2817, 2817); (2876, 2876); (2879, 2879); (2881, 2884); (2893, 2893);
    (2901, 2902); (2914, 2915); (2946, 2946); (3008, 3008); (3021, 3021); (3072,
    3072); (3076, 3076); (3132, 3132); (3134, 3136); (3142, 3144); (3146, 3149);
    (3157, 3158); (3170, 3171); (3201, 3201); (3260, 3260); (3263, 3263); (3270,
    3270); (3276, 3277); (3298, 3299); (3328, 3329); (3387, 3388); (3393, 3396);
    (3405, 3405); (3426, 3427); (3457, 3457); (3530, 3530); (3538, 3540); (3542,
    3542); (3633, 3633); (3636, 3642); (3654, 3662); (3761, 3761); (3764, 3772);
    (3782, 3782); (3784, 3789); (3864, 3865); (3893, 3893); (3895, 3895); (3897,
    3897); (3953, 3966); (3968, 3972); (3974, 3975); (3981, 3991); (3993, 4028);
    (4038, 4038); (4141, 4144); (4146, 4151); (4153, 4154); (4157, 4158); (4184,
    4185); (4190, 4192); (4209, 4212); (4226, 4226); (4229, 4230); (4237, 4237);
    (4253, 4253); (4348, 4348); (4957, 4959); (5906, 5908); (5938, 5939); (5970,
    5971); (6002, 6003); (6068, 6069); (6071, 6077); (6086, 6086); (6089, 6099);
    (6103, 6103); (6109, 6109); (6155, 6159); (6211, 6211); (6277, 6278); (6313,
    6313); (6432, 6434); (6439, 6440); (6450, 6450); (6457, 6459); (6679, 6680);
    (6683, 6683); (6742, 6742); (6744, 6750); (6752, 6752); (6754, 6754); (6757,
    6764); (6771, 6780); (6783, 6783); (6823, 6823); (6832, 6862); (6912, 6915);
    (6964, 6964); (6966, 6970); (6972, 6972); (6978, 6978); (7019, 7027); (7040,
    7041); (7074, 7077); (7080, 7081); (7083, 7085); (7142, 7142); (7144, 7145);
    (7149, 7149); (7151, 7153); (7212, 7219); (7222, 7223); (7288, 7293); (7376,
    7378); (7380, 7392); (7394, 7400); (7405, 7405); (7412, 7412); (7416, 7417);
    (7468, 7530); (7544, 7544); (7579, 7679); (8125, 8125); (8127, 8129); (8141,
    8143); (8157, 8159); (8173, 8175); (8189, 8190); (8203, 8207); (8216, 8217);
    (8228, 8228); (8231, 8231); (8234, 8238); (8288, 8292); (8294, 8303); (8305,
    8305); (8319, 8319); (8336, 8348); (8400, 8432); (11388, 11389); (11503,
    11505); (11631, 11631); (11647, 11647); (11744, 11775); (11823, 11823);
    (12293, 12293); (12330, 12333); (12337, 12341); (12347, 12347); (12441,
    12446); (12540, 12542); (40981, 40981); (42232, 42237); (42508, 42508);
    (42607, 42610); (42612, 42621); (42623, 42623); (42652, 42655); (42736,
    42737); (42752, 42785); (42864, 42864); (42888, 42890); (42994, 42996);
    (43000, 43001); (43010, 43010); (43014, 43014); (43019, 43019); (43045,
    43046); (43052, 43052); (43204, 43205); (43232, 43249); (43263, 43263);
    (43302, 43309); (43335, 43345); (43392, 43394); (43443, 43443); (43446,
    43449); (43452, 43453); (43471, 43471); (43493, 43494); (43561, 43566);
    (43569, 43570); (43573, 43574); (43587, 43587); (43596, 43596); (43632,
    43632); (43644, 43644); (43696, 43696); (43698, 43700); (43703, 43704);
    (43710, 43711); (43713, 43713); (43741, 43741); (43756, 43757); (43763,
    43764); (43766, 43766); (43867, 43871); (43881, 43883); (44005, 44005);
    (44008, 44008); (44013, 44013); (64286, 64286); (64434, 64450); (65024,
    65039); (65043, 65043); (65056, 65071); (65106, 65106); (65109, 65109);
    (65279, 65279); (65287, 65287); (65294, 65294); (65306, 65306); (65342,
    65342); (65344, 65344); (65392, 65392); (65438, 65439); (65507, 65507);
    (65529, 65531); (66045, 66045); (66272, 66272); (66422, 66426); (67456,
    67461); (67463, 67504); (67506, 67514); (68097, 68099); (68101, 68102);
    (68108, 68111); (68152, 68154); (68159, 68159); (68325, 68326); (68900,
    68903); (69291, 69292); (69446, 69456); (69506, 69509); (69633, 69633);
    (69688, 69702); (69744, 69744); (69747, 69748); (69759, 69761); (69811,
    69814); (69817, 69818); (69821, 69821); (69826, 69826); (69837, 69837);
    (69888, 69890); (69927, 69931); (69933, 69940); (70003, 70003); (70016,
    70017); (70070, 70078); (70089, 70092); (70095, 70095); (70191, 70193);
    (70196, 70196); (70198, 70199); (70206, 70206); (70367, 70367); (70371,
    70378); (70400, 70401); (70459, 70460); (70464, 70464); (70502, 70508);
    (70512, 70516); (70712, 70719); (70722, 70724); (70726, 70726); (70750,
    70750); (70835, 70840); (70842, 70842); (70847, 70848); (70850, 70851);
    (71090, 71093); (71100, 71101); (71103, 71104); (71132, 71133); (71219,
    71226); (71229, 71229); (71231, 71232); (71339, 71339); (71341, 71341);
    (71344, 71349); (71351, 71351); (71453, 71455); (71458, 71461); (71463,
    71467); (71727, 71735); (71737, 71738); (71995, 71996); (71998, 71998);
    (72003, 72003); (72148, 72151); (72154, 72155); (72160, 72160); (72193,
    72202); (72243, 72248); (72251, 72254); (72263, 72263); (72273, 72278);
    (72281, 72283); (72330, 72342); (72344, 72345); (72752, 72758); (72760,
    72765); (72767, 72767); (72850, 72871); (72874, 72880); (72882, 72883);
    (72885, 72886); (73009, 73014); (73018, 73018); (73020, 73021); (73023,
    73029); (73031, 73031); (73104, 73105); (73109, 73109); (73111, 73111);
    (73459, 73460); (78896, 78904); (92912, 92916); (92976, 92982); (92992,
    92995); (94031, 94031); (94095, 94111); (94176, 94177); (94179, 94180);
    (110576, 110579); (110581, 110587); (110589, 110590); (113821, 113822);
    (113824, 113827); (118528, 118573); (118576, 118598); (119143, 119145);
    (119155, 119170); (119173, 119179); (119210, 119213); (119362, 119364);
    (121344, 121398); (121403, 121452); (121461, 121461); (121476, 121476);
    (121499, 121503); (121505, 121519); (122880, 122886); (122888, 122904);
    (122907, 122913); (122915, 122916); (122918, 122922); (123184, 123197);
    (123566, 123566); (123628, 123631); (125136, 125142); (125252, 125259);
    (127995, 127999); (917505, 917505); (917536, 917631); (917760, 917999) ].

Definition inRange (p : N) (r : N * N) : bool :=
  (fst r <=? p) && (p <=? snd r).

Definition inRanges (rs : list (N * N)) (p : N) : bool :=
  existsb (inRange p) rs.

Definition inShift (p : N) (e : N * N * N) : bool :=
  (fst (fst e) <=? p) && (p <=? snd (fst e)).

(** The simple lower-case mapping of a code point. *)
Definition simpleLower (p : N) : N :=
  match find (inShift p) lowerShift with
  | Some (lo, _, target) => target + (p - lo)
  | None =>
      match find (inRange p) lowerAlternate with
      | Some (lo, _) => if N.even (p - lo) then p + 1 else p
      | None => p
      end
  end.

(** The lower case of a code point out of context: U+0130, capital I
    with dot above, becomes i followed by a combining dot. *)
Definition lowerPoint (p : N) : list N :=
  if p =? 304 then [105; 775] else [simpleLower p].

Definition isCaseIgnorable (p : N) : bool := inRanges caseIgnorable p.

(** Tested on a code point that is not Case_Ignorable. *)
Definition isCased (p : N) : bool := inRanges casedLetter p.

(** Is the first code point that is not Case_Ignorable a cased letter? *)
Fixpoint casedNext (ps : list N) : bool :=
  match ps with
  | [] => false
  | p :: ps' => if isCaseIgnorable p then casedNext ps' else isCased p
  end.

(** Final_Sigma: a cased letter comes before, a cased letter does not
    come after; [before] is given nearest code point first. *)
Definition finalSigma (before after : list N) : bool :=
  casedNext before && negb (casedNext after).

(** The lower case of a code point in its context: capital sigma in
    final position becomes the final small sigma. *)
Definition lowerAt (before : list N) (p : N) (after : list N) : list N :=
  if (p =? 931) && finalSigma before after then [962] else lowerPoint p.

Fixpoint lowerPoints (before ps : list N) : list N :=
  match ps with
  | [] => []
  | p :: rest => lowerAt before p rest ++ lowerPoints (p :: before) rest
  end.

(** *** UTF-16 *)

Definition isHighSurrogate (c : N) : bool := (55296 <=? c) && (c <=? 56319).
Definition isLowSurrogate (c : N) : bool := (56320 <=? c) && (c <=? 57343).

(** The code points of a sequence of code units; a surrogate that is not
    part of a pair stands for itself. *)
Fixpoint decode (s : list N) : list N :=
  match s with
  | [] => []
  | hi :: rest =>
      match rest with
      | lo :: rest' =>
          if isHighSurrogate hi && isLowSurrogate lo
          then (65536 + (hi - 55296) * 1024 + (lo - 56320)) :: decode rest'
          else hi :: decode rest
      | [] => [hi]
      end
  end.

Definition encodePoint (p : N) : list N :=
  if p <? 65536 then [p]
  else [55296 + (p - 65536) / 1024; 56320 + (p - 65536) mod 1024].

Definition encode (ps : list N) : list N := flat_map encodePoint ps.

End Unicode.

Module Js.

(** A text of the Standard Library as a JavaScript string. *)
Fixpoint ofString (s : String.string) : jsstring :=
  match s with
  | String c s' => N_of_ascii c :: ofString s'
  | EmptyString => []
  end.

(** [n.toString()] of an integer, as used by template literals. *)
Definition numberToString (n : Z) : jsstring :=
  ofString (NilZero.string_of_int (Z.to_int n)).

(** WhiteSpace and LineTerminator: TAB, LF, VT, FF, CR, SP, NBSP,
    U+1680, U+2000 to U+200A, LS, PS, U+202F, U+205F, U+3000 and the
    byte order mark U+FEFF. *)
Definition isWhiteSpace (c : N) : bool :=
  ((9 <=? c) && (c <=? 13) || (c =? 32) || (c =? 160) || (c =? 5760)
   || (8192 <=? c) && (c <=? 8202) || (c =? 8232) || (c =? 8233)
   || (c =? 8239) || (c =? 8287) || (c =? 12288) || (c =? 65279))%N.

Definition isDigit (c : N) : bool := ((48 <=? c) && (c <=? 57))%N.

Definition isEmpty (s : jsstring) : bool :=
  match s with [] => true | _ :: _ => false end.

(** [a === b] on strings *)
Fixpoint eqb (a b : jsstring) : bool :=
  match a, b with
  | [], [] => true
  | x :: a', y :: b' => N.eqb x y && eqb a' b'
  | _, _ => false
  end.

Fixpoint trimStart (s : jsstring) : jsstring :=
  match s with
  | c :: s' => if isWhiteSpace c then trimStart s' else s
  | [] => []
  end.

Fixpoint trimEnd (s : jsstring) : jsstring :=
  match s with
  | c :: s' =>
      let t := trimEnd s' in
      if isWhiteSpace c && isEmpty t then [] else c :: t
  | [] => []
  end.

(** [s.trim()] *)
Definition trim (s : jsstring) : jsstring := trimEnd (trimStart s).

(** [s.toLowerCase()] *)
Definition toLowerCase (s : jsstring) : jsstring :=
  Unicode.encode (Unicode.lowerPoints [] (Unicode.decode s)).

(** [s.startsWith(p)] *)
Fixpoint startsWith (p s : jsstring) : bool :=
  match p, s with
  | [], _ => true
  | a :: p', b :: s' => N.eqb a b && startsWith p' s'
  | _ :: _, [] => false
  end.

(** [s.includes(sub)] *)
Fixpoint includes (sub s : jsstring) : bool :=
  if startsWith sub s then true
  else match s with
       | _ :: s' => includes sub s'
       | [] => false
       end.

(** [s.length] *)
Definition length (s : jsstring) : Z := Z.of_nat (List.length s).

(** [s.slice(0, n)] for [n >= 0] *)
Fixpoint slice0 (n : nat) (s : jsstring) : jsstring :=
  match n, s with
  | S n', c :: s' => c :: slice0 n' s'
  | _, _ => []
  end.

(** [s.slice(1)] *)
Definition slice1 (s : jsstring) : jsstring :=
  match s with _ :: s' => s' | [] => [] end.

(** [s.split(sep)] for a one-character separator: never the empty list. *)
Fixpoint split (sep : N) (s : jsstring) : list jsstring :=
  match s with
  | [] => [[]]
  | c :: s' =>
      if N.eqb c sep then [] :: split sep s'
      else match split sep s' with
           | hd :: tl => (c :: hd) :: tl
           | [] => [[c]]
           end
  end.

(** [`${x}`] of [string | undefined] and of a number or [NaN]. *)
Definition toStr (s : option jsstring) : jsstring :=
  match s with Some s => s | None => "undefined" end.

Definition toNum (n : option Z) : Z :=
  match n with Some n => n | None => 0 end.

(** Truthiness of [string | undefined]. *)
Definition truthy (s : option jsstring) : bool :=
  match s with
  | Some s => negb (isEmpty s)
  | None => false
  end.

(** *** [parseInt(s)] without a radix

    Leading white space is skipped, one sign is read, a [0x]/[0X] prefix
    selects radix 16, and the longest prefix of digits of the radix is
    converted; with no digit the result is [NaN], here [None]. *)

Definition digitValue (c : N) : option Z :=
  if ((48 <=? c) && (c <=? 57))%N then Some (Z.of_N c - 48)
  else if ((97 <=? c) && (c <=? 122))%N then Some (Z.of_N c - 87)
  else if ((65 <=? c) && (c <=? 90))%N then Some (Z.of_N c - 55)
  else None.

Fixpoint parseDigits (radix : Z) (s : jsstring) (acc : option Z) : option Z :=
  match s with
  | c :: s' =>
      match digitValue c with
      | Some d =>
          if d <? radix
          then parseDigits radix s'
                 (Some (match acc with Some a => a * radix + d | None => d end))
          else acc
      | None => acc
      end
  | [] => acc
  end.

(** The sign of the number and the text after it. *)
Definition readSign (s : jsstring) : Z * jsstring :=
  match s with
  | c :: s' =>
      if N.eqb c "-"%unit then (-1, s')
      else if N.eqb c "+"%unit then (1, s')
      else (1, s)
  | [] => (1, s)
  end.

(** The radix and the text after its prefix. *)
Definition readRadix (s : jsstring) : Z * jsstring :=
  match s with
  | c :: x :: s' =>
      if N.eqb c "0"%unit && (N.eqb x "x"%unit || N.eqb x "X"%unit)
      then (16, s')
      else (10, s)
  | _ => (10, s)
  end.

Definition parseInt (input : jsstring) : option Z :=
  let s := trimStart input in
  let '(sign, s) := readSign s in
  let '(radix, s) := readRadix s in
  match parseDigits radix s None with
  | Some n => Some (sign * n)
  | None => None
  end.

(** Truthiness of a number: neither [0] nor [NaN]. *)
Definition truthyNumber (n : option Z) : bool :=
  match n with
  | Some n => negb (n =? 0)
  | None => false
  end.

End Js.

(** ** Regular expressions

    The two patterns of the source, written with backtracking matchers
    in continuation-passing style: a matcher takes the continuation that
    matches the rest of the pattern and the remaining input.  Greedy
    quantifiers try the longer match first and fall back, as the
    ECMAScript matcher does. *)

Module Regex.

Section Matchers.
Context {A : Type}.

Definition Cont := jsstring -> option A.
Definition Matcher := Cont -> Cont.

Definition orElse (x y : option A) : option A :=
  match x with Some _ => x | None => y end.

(** a literal run of characters *)
Fixpoint lit (p : jsstring) (k : Cont) (s : jsstring) : option A :=
  match p, s with
  | [], _ => k s
  | a :: p', b :: s' =>
      if N.eqb a b then lit p' k s' else None
  | _ :: _, [] => None
  end.

(** [cls*], greedy *)
Fixpoint star (cls : N -> bool) (k : Cont) (s : jsstring) : option A :=
  match s with
  | c :: s' => if cls c then orElse (star cls k s') (k s) else k s
  | [] => k s
  end.

(** [cls+], greedy *)
Definition plus (cls : N -> bool) (k : Cont) (s : jsstring) : option A :=
  match s with
  | c :: s' => if cls c then star cls k s' else None
  | [] => None
  end.

(** [c?], greedy *)
Definition opt (c : N) (k : Cont) (s : jsstring) : option A :=
  match s with
  | c' :: s' => if N.eqb c' c then orElse (k s') (k s) else k s
  | [] => k s
  end.

(** [r1|r2|...], leftmost alternative first *)
Fixpoint alt (rs : list Matcher) (k : Cont) (s : jsstring) : option A :=
  match rs with
  | r :: rs' => orElse (r k s) (alt rs' k s)
  | [] => None
  end.

(** [$] without the multiline flag *)
Definition eos (k : Cont) (s : jsstring) : option A :=
  if Js.isEmpty s then k s else None.

(** A capturing group: the continuation also receives the text the
    group consumed. *)
Definition group (r : Matcher) (k : jsstring -> Cont) (s : jsstring) : option A :=
  r (fun rest =>
       k (Js.slice0 (List.length s - List.length rest) s) rest) s.

(** An unanchored pattern is tried at every start position, leftmost
    first. *)
Fixpoint search (m : Cont) (s : jsstring) : option A :=
  match m s with
  | Some r => Some r
  | None =>
      match s with
      | _ :: s' => search m s'
      | [] => None
      end
  end.
End Matchers.

(** [/\.(ts|js|tsx|jsx)$/] *)
Definition codeFileAt : jsstring -> option unit :=
  lit "." (alt [lit "ts"; lit "js"; lit "tsx"; lit "jsx"]
             (eos (fun _ => Some tt))).

(** [/\.(ts|js|tsx|jsx)$/.test(s)] *)
Definition testCodeFile (s : jsstring) : bool :=
  match search codeFileAt s with Some _ => true | None => false end.

(** [/@@ -\d+,?\d* \+(\d+)/] at one start position; the result is
    capture group 1. *)
Definition hunkHeaderAt : jsstring -> option jsstring :=
  lit "@@ -"
    (plus Js.isDigit
       (opt ","%unit
          (star Js.isDigit
             (lit " +"
                (group (plus Js.isDigit) (fun cap _ => Some cap)))))).

(** [s.match(/@@ -\d+,?\d* \+(\d+)/)], reduced to [lineMatch[1]]. *)
Definition matchHunkHeader (s : jsstring) : option jsstring :=
  search hunkHeaderAt s.

End Regex.

(** ** Data model *)

(** An entry of [octokit.pulls.listFiles]; the source reads [filename],
    [status] and [patch] of values typed [any]. *)
Record ChangedFile := {
  filename : jsstring;
  status : jsstring;
  patch : option jsstring
}.

Record LintMessage := {
  ruleId : option jsstring;
  severity : Z;
  message : jsstring;
  line : Z;
  column : Z
}.

Record ESLintResult := {
  filePath : jsstring;
  messages : list LintMessage
}.

(** [cline] is the field [line] of the source; the name [line] is the
    field of [LintMessage]. *)
Record ReviewComment := {
  path : jsstring;
  cline : Z;
  body : jsstring
}.

(** A thrown value. *)
Inductive JsError := Error (msg : jsstring).

(** The request and the response of [openai.chat.completions.create]. *)
Record ChatMessage := { role : jsstring; content : jsstring }.

Record ChatRequest := {
  model : jsstring;
  chat_messages : list ChatMessage;
  max_tokens : Z;
  temperature : Q
}.

Record ChatChoice := { choice_message : option (option jsstring) }.

Record ChatResponse := { choices : list ChatChoice }.

Inductive LogLevel := LogInfo | LogWarn | LogError.

(** What the process asks of the outside, in the order it asks. *)
Inductive Event :=
| EvLog (level : LogLevel) (text : jsstring) (err : option JsError)
| EvListFiles (owner repo : jsstring) (pull_number : Z)
| EvExistsSync (file : jsstring)
| EvReadFileSync (file : jsstring)
| EvLintFiles (patterns : list jsstring)
| EvChatCompletion (req : ChatRequest)
| EvCreateReview (owner repo : jsstring) (pull_number : Z)
    (event body : jsstring) (comments : list ReviewComment)
| EvCreateComment (owner repo : jsstring) (issue_number : Z) (body : jsstring)
| EvExit (code : Z).

Definition Trace := list Event.

Inductive Result (A : Type) :=
| Ok (a : A)
| Throw (e : JsError).
Arguments Ok {A} a.
Arguments Throw {A} e.

(** The outside of the process.  An oracle sees the trace up to its call. *)
Record World := {
  env_GITHUB_TOKEN : option jsstring;
  env_OPENAI_API_KEY : option jsstring;
  env_GITHUB_REPOSITORY : option jsstring;
  env_GITHUB_PR_NUMBER : option jsstring;
  path_extname : jsstring -> jsstring;
  fs_existsSync : Trace -> jsstring -> bool;
  fs_readFileSync : Trace -> jsstring -> Result jsstring;
  eslint_lintFiles : Trace -> list jsstring -> Result (list ESLintResult);
  openai_create : Trace -> ChatRequest -> Result ChatResponse;
  octokit_listFiles : Trace -> jsstring -> jsstring -> Z -> Result (list ChangedFile);
  octokit_createReview :
    Trace -> jsstring -> jsstring -> Z -> jsstring -> jsstring ->
    list ReviewComment -> Result unit;
  octokit_createComment : Trace -> jsstring -> jsstring -> Z -> jsstring -> Result unit
}.

(** ** The monad of the embedding: a trace and exceptions *)

Definition M (A : Type) : Type := Trace -> Result A * Trace.

Definition ret {A} (a : A) : M A := fun t => (Ok a, t).

Definition bind {A B} (m : M A) (f : A -> M B) : M B :=
  fun t =>
    match m t with
    | (Ok a, t') => f a t'
    | (Throw e, t') => (Throw e, t')
    end.

Definition throw {A} (e : JsError) : M A := fun t => (Throw e, t).

(** [try { m } catch (error) { handler error }] *)
Definition tryCatch {A} (m : M A) (handler : JsError -> M A) : M A :=
  fun t =>
    match m t with
    | (Ok a, t') => (Ok a, t')
    | (Throw e, t') => handler e t'
    end.

(** A request to the outside: answered from the history, then recorded. *)
Definition request {A} (answer : Trace -> Result A) (ev : Event) : M A :=
  fun t => (answer t, (t ++ [ev])%list).

Declare Scope js_scope.
Delimit Scope js_scope with js.
Notation "x <- m ;; k" := (bind m (fun x => k))
  (at level 61, m at next level, right associativity) : js_scope.
Notation "m ;; k" := (bind m (fun _ => k))
  (at level 61, right associativity) : js_scope.
Local Open Scope js_scope.

(** [for (const x of xs) { acc = body acc x }]: the loops of the source push
    onto an array declared before the loop, here the accumulator. *)
Fixpoint forOf {X S : Type} (body : S -> X -> M S) (xs : list X) (acc : S)
  : M S :=
  match xs with
  | [] => ret acc
  | x :: xs' => acc' <- body acc x ;; forOf body xs' acc'
  end.

(** ** The program *)

Module Bot.

Section Program.
Variable w : World.

Definition console_log (text : jsstring) : M unit :=
  request (fun _ => Ok tt) (EvLog LogInfo text None).
Definition console_warn (text : jsstring) (error : JsError) : M unit :=
  request (fun _ => Ok tt) (EvLog LogWarn text (Some error)).
Definition console_error (text : jsstring) (error : JsError) : M unit :=
  request (fun _ => Ok tt) (EvLog LogError text (Some error)).

Definition existsSync (file : jsstring) : M bool :=
  request (fun t => Ok (fs_existsSync w t file)) (EvExistsSync file).
Definition readFileSync (file : jsstring) : M jsstring :=
  request (fun t => fs_readFileSync w t file) (EvReadFileSync file).
Definition lintFiles (patterns : list jsstring) : M (list ESLintResult) :=
  request (fun t => eslint_lintFiles w t patterns) (EvLintFiles patterns).
Definition chatCompletionsCreate (req : ChatRequest) : M ChatResponse :=
  request (fun t => openai_create w t req) (EvChatCompletion req).
Definition pullsListFiles (owner repo : jsstring) (pull_number : Z)
  : M (list ChangedFile) :=
  request (fun t => octokit_listFiles w t owner repo pull_number)
    (EvListFiles owner repo pull_number).
Definition pullsCreateReview (owner repo : jsstring) (pull_number : Z)
    (event body : jsstring) (comments : list ReviewComment) : M unit :=
  request
    (fun t => octokit_createReview w t owner repo pull_number event body
                comments)
    (EvCreateReview owner repo pull_number event body comments).
Definition issuesCreateComment (owner repo : jsstring) (issue_number : Z)
    (body : jsstring) : M unit :=
  request (fun t => octokit_createComment w t owner repo issue_number body)
    (EvCreateComment owner repo issue_number body).

(** *** [getChangedFiles] *)
Definition getChangedFiles (owner repo : jsstring) (prNumber : Z)
  : M (list ChangedFile) :=
  pullsListFiles owner repo prNumber.

(** *** [runESLint] *)
Definition runESLint_body (results : list ESLintResult) (filePath : jsstring)
  : M (list ESLintResult) :=
  present <- existsSync filePath ;;
  if present then
    tryCatch
      (eslintResults <- lintFiles [filePath] ;;
       ret (results ++ eslintResults)%list)
      (fun error =>
         console_warn ("ESLint failed for " ++ filePath ++ ":") error ;;
         ret results)
  else ret results.

Definition runESLint (filePaths : list jsstring) : M (list ESLintResult) :=
  forOf runESLint_body filePaths [].

(** *** [getAISuggestions] *)

(** The four characters the source file stores in front of the marker:
    U+00F0, U+0178, U+00A4 and U+2013. *)
Definition ROBOT : jsstring := [240; 376; 164; 8211]%N.

Definition AI_MARKER : jsstring := ROBOT ++ " **AI Code Review**".

Definition LF : jsstring := [10%N].
Definition BACKTICKS : jsstring := "```".

Definition buildPrompt (fileName fileContent : jsstring)
    (patch : option jsstring) : jsstring :=
  "As a senior code reviewer, please review this "
  ++ path_extname w fileName
  ++ " file and provide constructive feedback focusing on:" ++ LF
  ++ "1. Code readability and maintainability" ++ LF
  ++ "2. Naming conventions" ++ LF
  ++ "3. Potential bugs or improvements" ++ LF
  ++ "4. Best practices" ++ LF
  ++ LF
  ++ "File: " ++ fileName ++ LF
  ++ LF
  ++ (if Js.truthy patch
      then "Changed lines (patch):" ++ LF ++ BACKTICKS ++ "diff" ++ LF
           ++ Js.toStr patch
           ++ LF ++ BACKTICKS
      else "") ++ LF
  ++ LF
  ++ "Full file content:" ++ LF
  ++ BACKTICKS ++ Js.slice1 (path_extname w fileName) ++ LF
  ++ Js.slice0 3000 fileContent ++ " "
  ++ (if Js.length fileContent >? 3000 then "..." else "") ++ LF
  ++ BACKTICKS ++ LF
  ++ LF
  ++ "Please provide specific, actionable feedback. If the code looks good, just say so briefly.".

Definition SYSTEM_PROMPT : jsstring :=
  "You are an experienced code reviewer. Provide concise, helpful feedback focusing on code quality, readability, and best practices. Be constructive and specific.".

Definition chatRequest (prompt : jsstring) : ChatRequest :=
  {| model := "gpt-4";
     chat_messages :=
       [ {| role := "system"; content := SYSTEM_PROMPT |};
         {| role := "user"; content := prompt |} ];
     max_tokens := 500;
     temperature := 3 # 10 |}.

(** [response.choices[0]?.message?.content?.trim()] *)
Definition firstContent (response : ChatResponse) : option jsstring :=
  match choices response with
  | {| choice_message := Some (Some text) |} :: _ => Some (Js.trim text)
  | _ => None
  end.

(** The test of line 196 on the trimmed text. *)
Definition worthPosting (suggestion : option jsstring) : bool :=
  match suggestion with
  | Some s =>
      negb (Js.isEmpty s)
      && negb (Js.includes "looks good" (Js.toLowerCase s))
      && (Js.length s >? 50)
  | None => false
  end.

Definition getAISuggestions (fileName fileContent : jsstring)
    (patch : option jsstring) : M (option jsstring) :=
  tryCatch
    (let prompt := buildPrompt fileName fileContent patch in
     response <- chatCompletionsCreate (chatRequest prompt) ;;
     let suggestion := firstContent response in
     if worthPosting suggestion
     then ret (Some (AI_MARKER ++ LF ++ LF
                     ++ Js.toStr suggestion))
     else ret None)
    (fun error => console_error "OpenAI API error:" error ;; ret None).
(** *** [generateAIReview] *)

Definition lintBody (m : LintMessage) : jsstring :=
  "**ESLint Error**: " ++ message m
  ++ (if Js.truthy (ruleId m) then " (" ++ Js.toStr (ruleId m) ++ ")" else "").

Definition pushLintMessage (result : ESLintResult)
    (reviewComments : list ReviewComment) (m : LintMessage)
  : list ReviewComment :=
  if severity m =? 2
  then (reviewComments
        ++ [ {| path := filePath result; cline := line m; body := lintBody m |} ])%list
  else reviewComments.

(** The two nested loops of lines 119 to 129. *)
Definition lintPhase (eslintResults : list ESLintResult)
    (reviewComments : list ReviewComment) : list ReviewComment :=
  fold_left
    (fun acc result => fold_left (pushLintMessage result) (messages result) acc)
    eslintResults reviewComments.

(** Lines 141 and 142: the start line of the comment. *)
Definition startLine (patch : option jsstring) : Z :=
  let lineMatch :=
    match patch with
    | Some p => Regex.matchHunkHeader p
    | None => None
    end in
  match lineMatch with
  | Some group1 => Js.toNum (Js.parseInt group1)
  | None => 1
  end.

Definition generateAIReview_body (reviewComments : list ReviewComment)
    (file : ChangedFile) : M (list ReviewComment) :=
  if negb (Regex.testCodeFile (filename file)) then ret reviewComments
  else
    tryCatch
      (fileContent <- readFileSync (filename file) ;;
       aiSuggestions <-
         getAISuggestions (filename file) fileContent (patch file) ;;
       if Js.truthy aiSuggestions
       then ret (reviewComments
                 ++ [ {| path := filename file;
                         cline := startLine (patch file);
                         body := Js.toStr aiSuggestions |} ])%list
       else ret reviewComments)
      (fun error =>
         console_warn
           ("Failed to generate AI review for " ++ filename file ++ ":") error ;;
         ret reviewComments).

Definition generateAIReview (changedFiles : list ChangedFile)
    (eslintResults : list ESLintResult) : M (list ReviewComment) :=
  forOf generateAIReview_body changedFiles (lintPhase eslintResults []).

(** *** [postReviewComments] *)

Definition NO_ISSUES_BODY : jsstring :=
  [226; 339; 8230]%N
  ++ " **AI Code Review Complete**" ++ LF ++ LF
  ++ "No major issues found! The code looks good to me. "
  ++ [240; 376; 353; 8364]%N.

Definition reviewBody (comments : list ReviewComment) : jsstring :=
  ROBOT ++ " **Automated Code Review Results**" ++ LF ++ LF
  ++ "Found " ++ Js.numberToString (Z.of_nat (List.length comments))
  ++ " items for review. Please check the inline comments below.".

Definition fallbackBody (comment : ReviewComment) : jsstring :=
  "**" ++ path comment ++ ":" ++ Js.numberToString (cline comment) ++ "**"
  ++ LF ++ LF ++ body comment.

Definition postFallback (owner repo : jsstring) (prNumber : Z)
    (_ : unit) (comment : ReviewComment) : M unit :=
  tryCatch
    (issuesCreateComment owner repo prNumber (fallbackBody comment))
    (fun err =>
       console_error ("Failed to post comment for " ++ path comment ++ ":") err).

Definition postReviewComments (owner repo : jsstring) (prNumber : Z)
    (comments : list ReviewComment) : M unit :=
  if Z.of_nat (List.length comments) =? 0
  then issuesCreateComment owner repo prNumber NO_ISSUES_BODY
  else
    tryCatch
      (pullsCreateReview owner repo prNumber "COMMENT" (reviewBody comments)
         (map (fun comment =>
                 {| path := path comment;
                    cline := cline comment;
                    body := body comment |}) comments))
      (fun error =>
         console_error "Failed to create review, posting individual comments:"
           error ;;
         forOf (postFallback owner repo prNumber) (firstn 10 comments) tt).

(** *** [reviewPullRequest] *)

(** Line 64: the filter on the changed files. *)
Definition isCodeFile (file : ChangedFile) : bool :=
  Regex.testCodeFile (filename file)
  && negb (Js.eqb (status file) "removed").

(** The body of the [try] block, lines 58 to 81. *)
Definition reviewSteps (owner repo : jsstring) (prNumber : Z) : M unit :=
  changedFiles <- getChangedFiles owner repo prNumber ;;
  console_log ("Found "
               ++ Js.numberToString (Z.of_nat (List.length changedFiles))
               ++ " changed files") ;;
  let codeFiles := filter isCodeFile changedFiles in
  if Z.of_nat (List.length codeFiles) =? 0
  then console_log "No code files to review"
  else
    eslintResults <- runESLint (map filename codeFiles) ;;
    reviewComments <- generateAIReview codeFiles eslintResults ;;
    postReviewComments owner repo prNumber reviewComments ;;
    console_log ("Review completed! Posted "
                 ++ Js.numberToString (Z.of_nat (List.length reviewComments))
                 ++ " comments").

(** Lines 47 to 49: what is read from the environment. *)
Definition envOwner : option jsstring :=
  match env_GITHUB_REPOSITORY w with
  | Some r => nth_error (Js.split "/"%unit r) 0
  | None => None
  end.

Definition envRepo : option jsstring :=
  match env_GITHUB_REPOSITORY w with
  | Some r => nth_error (Js.split "/"%unit r) 1
  | None => None
  end.

Definition envPrNumber : option Z :=
  Js.parseInt
    (if Js.truthy (env_GITHUB_PR_NUMBER w)
     then Js.toStr (env_GITHUB_PR_NUMBER w) else "0").

Definition MISSING_CONTEXT : JsError :=
  Error "Missing GitHub context variables".

Definition reviewPullRequest : M unit :=
  let owner := envOwner in
  let repo := envRepo in
  let prNumber := envPrNumber in
  if negb (Js.truthy owner) || negb (Js.truthy repo)
     || negb (Js.truthyNumber prNumber)
  then throw MISSING_CONTEXT
  else
    let owner := Js.toStr owner in
    let repo := Js.toStr repo in
    let prNumber := Js.toNum prNumber in
    console_log ("Starting review for PR #" ++ Js.numberToString prNumber
                 ++ " in " ++ owner ++ "/" ++ repo) ;;
    tryCatch
      (reviewSteps owner repo prNumber)
      (fun error => console_error "Error during review:" error ;; throw error).

(** *** The constructor and [main] *)

Definition construct : M unit :=
  if negb (Js.truthy (env_GITHUB_TOKEN w))
     || negb (Js.truthy (env_OPENAI_API_KEY w))
  then throw (Error "Missing required environment variables: GITHUB_TOKEN and OPENAI_API_KEY")
  else ret tt.

Definition main : M unit :=
  tryCatch
    (construct ;; reviewPullRequest)
    (fun error =>
       console_error "Review bot failed:" error ;;
       request (fun _ => Ok tt) (EvExit 1)).

End Program.

End Bot.

(** ** The vocabulary of the specification *)

Module Spec.

Fixpoint allChars (cls : N -> bool) (s : jsstring) : bool :=
  match s with
  | c :: s' => cls c && allChars cls s'
  | [] => true
  end.

(** A run of decimal digits, and a non-empty one. *)
Definition Digits (s : jsstring) : Prop := allChars Js.isDigit s = true.

Definition Digits1 (s : jsstring) : Prop := s <> "" /\ Digits s.

(** [s] does not start with a character of the class. *)
Definition noLeading (cls : N -> bool) (s : jsstring) : Prop :=
  match s with
  | c :: _ => cls c = false
  | [] => True
  end.

Definition NoLeadingDigit (s : jsstring) : Prop := noLeading Js.isDigit s.

(** The number a run of decimal digits denotes. *)
Fixpoint decimalValueFrom (acc : Z) (s : jsstring) : Z :=
  match s with
  | c :: s' => decimalValueFrom (acc * 10 + (Z.of_N c - 48)) s'
  | [] => acc
  end.

Definition decimalValue (s : jsstring) : Z := decimalValueFrom 0 s.

(** [s] begins with the part of a hunk header [@@ -a,b +c,d @@] up to its
    new-file start line [c].  The old-file count [,b] may be missing, as
    unified diffs write it when the count is one. *)
Definition HunkHeader (s c : jsstring) : Prop :=
  exists a sep rest,
    s = "@@ -" ++ a ++ sep ++ " +" ++ c ++ rest
    /\ Digits1 a
    /\ (sep = "" \/ exists b, sep = "," ++ b /\ Digits b)
    /\ Digits1 c
    /\ NoLeadingDigit rest.

(** The hunk header of the specification, written in full. *)
Definition FullHunkHeader (s c : jsstring) : Prop :=
  exists a b d rest,
    s = "@@ -" ++ a ++ "," ++ b ++ " +" ++ c ++ "," ++ d ++ " @@" ++ rest
    /\ Digits1 a /\ Digits1 b /\ Digits1 c /\ Digits1 d.

(** No hunk header starts in [p] before position [n]. *)
Definition NoHunkHeaderBefore (n : nat) (p : jsstring) : Prop :=
  forall pre s c,
    p = pre ++ s -> (List.length pre < n)%nat -> ~ HunkHeader s c.

(** The first hunk header of [p] has new-file start line [c]. *)
Definition FirstHunkHeader (p c : jsstring) : Prop :=
  exists pre s,
    p = pre ++ s /\ HunkHeader s c /\ NoHunkHeaderBefore (List.length pre) p.

Definition NoHunkHeader (p : jsstring) : Prop :=
  forall pre s c, p = pre ++ s -> ~ HunkHeader s c.

Definition EndsWith (suffix s : jsstring) : Prop := exists pre, s = pre ++ suffix.

(** A filename with one of the supported extensions. *)
Definition CodeFileName (s : jsstring) : Prop :=
  EndsWith ".ts" s \/ EndsWith ".js" s \/ EndsWith ".tsx" s
  \/ EndsWith ".jsx" s.

Definition KeptByFilter (f : ChangedFile) : Prop :=
  CodeFileName (filename f) /\ status f <> "removed".

(** [w] occurs in [s]. *)
Definition Occurs (w s : jsstring) : Prop :=
  exists pre post, s = pre ++ w ++ post.

(** The code unit [c] is the character [p] in some letter case: [p]
    itself, the capital of a small letter a to z, or for k the Kelvin
    sign U+212A, which Unicode makes canonically equivalent to the
    capital K.  Small letters that merely share a capital with a letter
    of ASCII, as the long s U+017F does with s, are letters of their
    own. *)
Definition SameLetter (p c : N) : Prop :=
  c = p
  \/ ((97 <= p <= 122)%N /\ (c + 32)%N = p)
  \/ (p = 107%N /\ c = 8490%N).

(** [s] contains [phrase] up to the case of its letters: some part of
    [s] is [phrase] character by character, in any case. *)
Definition ContainsIgnoringCase (phrase s : jsstring) : Prop :=
  exists pre w post, s = pre ++ w ++ post /\ Forall2 SameLetter phrase w.

(** The code units [trim] removes: the WhiteSpace and LineTerminator
    characters of ECMAScript. *)
Definition WhiteSpace (c : N) : Prop :=
  In c [9; 10; 11; 12; 13; 32; 160; 5760; 8232; 8233; 8239; 8287; 12288;
        65279]%N
  \/ (8192 <= c <= 8202)%N.

(** [s] neither begins nor ends with white space. *)
Definition Trimmed (s : jsstring) : Prop :=
  (forall c, hd_error s = Some c -> ~ WhiteSpace c)
  /\ (forall c, hd_error (rev s) = Some c -> ~ WhiteSpace c).

(** [u] is [s] without the white space at its ends. *)
Definition TrimOf (s u : jsstring) : Prop :=
  exists a b,
    s = a ++ u ++ b /\ Forall WhiteSpace a /\ Forall WhiteSpace b
    /\ Trimmed u.

(** The text of the first choice of a completion, if any. *)
Definition responseText (response : ChatResponse) : option jsstring :=
  match choices response with
  | {| choice_message := Some (Some text) |} :: _ => Some text
  | _ => None
  end.

(** The comment of the lint phase for one finding, in the specification's
    words: anchored at the finding's line, marked as a lint error, with
    the rule id when there is one. *)
Definition lintErrorComment (r : ESLintResult) (m : LintMessage)
  : ReviewComment :=
  {| path := filePath r;
     cline := line m;
     body :=
       "**ESLint Error**: " ++ message m
       ++ match ruleId m with
          | Some id => if Js.isEmpty id then "" else " (" ++ id ++ ")"
          | None => ""
          end |}.

Definition isError (m : LintMessage) : bool := severity m =? 2.

Definition lintErrorComments (results : list ESLintResult)
  : list ReviewComment :=
  flat_map (fun r => map (lintErrorComment r) (filter isError (messages r)))
    results.

(** The comments of the AI phase for a list of files: at most one per
    file, in the order of the files, at the start line of the file's
    patch, its body the marker followed by a text. *)
Inductive AiComments : list ChangedFile -> list ReviewComment -> Prop :=
| ai_done : AiComments [] []
| ai_none f fs cs : AiComments fs cs -> AiComments (f :: fs) cs
| ai_some f fs cs text :
    AiComments fs cs ->
    AiComments (f :: fs)
      ({| path := filename f;
          cline := Bot.startLine (patch f);
          body := Bot.AI_MARKER ++ Bot.LF ++ Bot.LF ++ text |} :: cs).

(** The body of an AI comment for a response text. *)
Definition aiBody (text : jsstring) : jsstring :=
  Bot.AI_MARKER ++ Bot.LF ++ Bot.LF ++ Js.trim text.

(** The request of the AI phase for one file, its comment, and the post of
    the fallback for one comment. *)
Definition aiRequest (w : World) (f : ChangedFile) (fileContent : jsstring)
  : ChatRequest :=
  Bot.chatRequest (Bot.buildPrompt w (filename f) fileContent (patch f)).

Definition aiComment (f : ChangedFile) (text : jsstring) : ReviewComment :=
  {| path := filename f; cline := Bot.startLine (patch f); body := text |}.

Definition fallbackPost (owner repo : jsstring) (prNumber : Z)
    (c : ReviewComment) : Event :=
  EvCreateComment owner repo prNumber (Bot.fallbackBody c).

(** The environment names a repository and a pull request. *)
Definition ValidContext (w : World) (owner repo : jsstring) (prNumber : Z)
  : Prop :=
  Bot.envOwner w = Some owner /\ owner <> ""
  /\ Bot.envRepo w = Some repo /\ repo <> ""
  /\ Bot.envPrNumber w = Some prNumber /\ prNumber <> 0.

Definition startLog (owner repo : jsstring) (prNumber : Z) : Event :=
  EvLog LogInfo
    ("Starting review for PR #" ++ Js.numberToString prNumber
     ++ " in " ++ owner ++ "/" ++ repo) None.

Definition foundLog (files : list ChangedFile) : Event :=
  EvLog LogInfo
    ("Found " ++ Js.numberToString (Z.of_nat (List.length files))
     ++ " changed files") None.

(** [l1] is [l2] with some elements left out. *)
Inductive Subseq {A : Type} : list A -> list A -> Prop :=
| sub_nil : Subseq [] []
| sub_skip x l1 l2 : Subseq l1 l2 -> Subseq l1 (x :: l2)
| sub_keep x l1 l2 : Subseq l1 l2 -> Subseq (x :: l1) (x :: l2).

(** Observers of a trace. *)
Definition isCreateComment (e : Event) : bool :=
  match e with EvCreateComment _ _ _ _ => true | _ => false end.

Definition isCreateReview (e : Event) : bool :=
  match e with EvCreateReview _ _ _ _ _ _ => true | _ => false end.

Definition isExistsSync (e : Event) : bool :=
  match e with EvExistsSync _ => true | _ => false end.

Definition isReadFileSync (e : Event) : bool :=
  match e with EvReadFileSync _ => true | _ => false end.

Definition isPublisherCall (e : Event) : bool :=
  isCreateComment e || isCreateReview e.

End Spec.

(** ** Letters of ASCII under [toLowerCase]: the vocabulary of the proofs *)

Module Letters.

(** A code unit, with a capital A to Z and the Kelvin sign replaced by
    the small letter. *)
Definition foldUnit (c : N) : N :=
  if ((65 <=? c) && (c <=? 90))%N then (c + 32)%N
  else if (c =? 8490)%N then 107%N else c.

Definition fold (s : jsstring) : jsstring := map foldUnit s.

(** The code units of a phrase: ASCII without the capitals and without
    i, which also begins the lower case of U+0130. *)
Definition Plain (c : N) : Prop :=
  (c < 128 /\ c <> 105 /\ ~ (65 <= c <= 90))%N.

(** The code units no phrase holds. *)
Definition Other (c : N) : Prop := (128 <= c \/ c = 105)%N.

(** Two texts that agree unit by unit, except for stretches of units
    that no phrase holds. *)
Inductive Aligned : jsstring -> jsstring -> Prop :=
| aligned_nil : Aligned [] []
| aligned_unit c a b : Aligned a b -> Aligned (c :: a) (c :: b)
| aligned_other x y a b :
    x <> [] -> y <> [] -> Forall Other x -> Forall Other y ->
    Aligned a b -> Aligned (x ++ a) (y ++ b).

(** The code points below 128. *)
Definition ascii : list N := map N.of_nat (seq 0 128).

End Letters.

(** ** Concrete worlds *)

Module Examples.

Definition semiError : LintMessage :=
  {| ruleId := Some "semi"; severity := 2; message := "Missing semicolon.";
     line := 3; column := 14 |}.

Definition anyWarning : LintMessage :=
  {| ruleId := Some "@typescript-eslint/no-explicit-any"; severity := 1;
     message := "Unexpected any."; line := 1; column := 33 |}.

(** ESLint reports a file under its absolute path. *)
Definition WORKSPACE : jsstring := "/home/runner/work/app/app/".

Definition advice : jsstring :=
  "Rename user_name to userName and drop the console.log calls before merging this.".

Definition respond (text : jsstring) : ChatResponse :=
  {| choices := [ {| choice_message := Some (Some text) |} ] |}.

Definition mentions (file : jsstring) (req : ChatRequest) : bool :=
  existsb (fun m => Js.includes ("File: " ++ file) (content m))
    (chat_messages req).

Definition thirdPost : jsstring := "**src/a.ts:3**".

(** A run on a checkout: linting [src/b.ts] fails, the completion service
    fails on [src/c.tsx] and approves of [src/b.ts], the host rejects
    the batched review and the third single comment. *)
Definition ciWorld (prNumber : option jsstring) (files : list ChangedFile)
  : World :=
  {| env_GITHUB_TOKEN := Some "ghs_token";
     env_OPENAI_API_KEY := Some "sk-key";
     env_GITHUB_REPOSITORY := Some "octo/app";
     env_GITHUB_PR_NUMBER := prNumber;
     path_extname := fun f => if Js.includes ".tsx" f then ".tsx" else ".ts";
     fs_existsSync := fun _ _ => true;
     fs_readFileSync := fun _ _ => Ok "export const user_name = load();";
     eslint_lintFiles := fun _ patterns =>
       match patterns with
       | [p] =>
           if Js.eqb p "src/b.ts" then Throw (Error "Parsing error")
           else Ok [ {| filePath := WORKSPACE ++ p;
                        messages := [anyWarning; semiError] |} ]
       | _ => Ok []
       end;
     openai_create := fun _ req =>
       if mentions "src/c.tsx" req then Throw (Error "429 Too Many Requests")
       else if mentions "src/b.ts" req then Ok (respond "Looks good!")
       else Ok (respond advice);
     octokit_listFiles := fun _ _ _ _ => Ok files;
     octokit_createReview := fun _ _ _ _ _ _ _ =>
       Throw (Error "422 Unprocessable Entity");
     octokit_createComment := fun _ _ _ _ body =>
       if Js.startsWith thirdPost body then Throw (Error "403 Forbidden")
       else Ok tt |}.

(** The same checkout with a completion service that answers every
    request with [text]. *)
Definition answering (text : jsstring) (files : list ChangedFile) : World :=
  let w := ciWorld (Some "7") files in
  {| env_GITHUB_TOKEN := env_GITHUB_TOKEN w;
     env_OPENAI_API_KEY := env_OPENAI_API_KEY w;
     env_GITHUB_REPOSITORY := env_GITHUB_REPOSITORY w;
     env_GITHUB_PR_NUMBER := env_GITHUB_PR_NUMBER w;
     path_extname := path_extname w;
     fs_existsSync := fs_existsSync w;
     fs_readFileSync := fs_readFileSync w;
     eslint_lintFiles := eslint_lintFiles w;
     openai_create := fun _ _ => Ok (respond text);
     octokit_listFiles := octokit_listFiles w;
     octokit_createReview := octokit_createReview w;
     octokit_createComment := octokit_createComment w |}.

(** Long answers that approve with capitals, and with the Kelvin sign
    U+212A for the letter k. *)
Definition shouted : jsstring :=
  "The naming is clear and the error handling LoOkS GOOD to me, nothing to change here.".

Definition kelvin : jsstring :=
  "The naming is clear and the error handling loo" ++ [8490%N]
  ++ "s good to me, nothing to change here.".

(** A text of 80 characters of which 30 are the spaces it begins with. *)
Definition padded : jsstring :=
  "                              "
  ++ "Rename user_name to userName before you merge this".

Definition file_a : ChangedFile :=
  {| filename := "src/a.ts"; status := "modified";
     patch := Some "@@ -10,5 +20,6 @@ export function load() {" |}.

Definition file_b : ChangedFile :=
  {| filename := "src/b.ts"; status := "added"; patch := None |}.

Definition file_c : ChangedFile :=
  {| filename := "src/c.tsx"; status := "renamed"; patch := Some "" |}.

Definition readme : ChangedFile :=
  {| filename := "README.md"; status := "modified";
     patch := Some "@@ -1,2 +1,3 @@" |}.

Definition removed_js : ChangedFile :=
  {| filename := "lib/old.js"; status := "removed"; patch := None |}.

Definition codeChange : list ChangedFile :=
  [file_a; file_b; readme; file_c; removed_js].

Definition docsChange : list ChangedFile := [readme; removed_js].

Definition note (n : Z) : ReviewComment :=
  {| path := "src/a.ts"; cline := n; body := "note" |}.

Definition fifteen : list ReviewComment :=
  map note [1; 2; 3; 4; 5; 6; 7; 8; 9; 10; 11; 12; 13; 14; 15].

End Examples.

(** ** Kinds of requests, and worlds with outages *)

Module Obs.

Definition isListFiles (e : Event) : bool :=
  match e with EvListFiles _ _ _ => true | _ => false end.

Definition isLintFiles (e : Event) : bool :=
  match e with EvLintFiles _ => true | _ => false end.

Definition isChatCompletion (e : Event) : bool :=
  match e with EvChatCompletion _ => true | _ => false end.

Definition isExit (e : Event) : bool :=
  match e with EvExit _ => true | _ => false end.

(** What [runESLint] may ask for. *)
Definition isLintEvent (e : Event) : bool :=
  match e with
  | EvExistsSync _ | EvLintFiles _ | EvLog LogWarn _ _ => true
  | _ => false
  end.

(** What the AI phase of [generateAIReview] may ask for. *)
Definition isAiEvent (e : Event) : bool :=
  match e with
  | EvReadFileSync _ | EvChatCompletion _ | EvLog LogWarn _ _
  | EvLog LogError _ _ => true
  | _ => false
  end.

(** What [postReviewComments] may ask for. *)
Definition isPublishEvent (e : Event) : bool :=
  match e with
  | EvCreateReview _ _ _ _ _ _ | EvCreateComment _ _ _ _
  | EvLog LogError _ _ => true
  | _ => false
  end.

Definition isLog (e : Event) : bool :=
  match e with EvLog _ _ _ => true | _ => false end.

Definition count (p : Event -> bool) (t : Trace) : nat :=
  List.length (filter p t).

(** A text without the separator of [GITHUB_REPOSITORY]. *)
Definition NoSlash (s : jsstring) : Prop :=
  Spec.allChars (fun c => negb (N.eqb c "/"%unit)) s = true.

(** The results of linting each present path on its own, failures left
    out: what [runESLint] computes when the file system and the analyzer
    answer the same whenever they are asked. *)
Definition lintEach (present : jsstring -> bool)
    (lint : list jsstring -> Result (list ESLintResult))
    (paths : list jsstring) : list ESLintResult :=
  flat_map
    (fun p =>
       if present p
       then match lint [p] with Ok found => found | Throw _ => [] end
       else [])
    paths.

(** The requests of that computation. *)
Definition lintEachTrace (present : jsstring -> bool)
    (lint : list jsstring -> Result (list ESLintResult))
    (paths : list jsstring) : Trace :=
  flat_map
    (fun p =>
       if present p
       then match lint [p] with
            | Ok _ => [EvExistsSync p; EvLintFiles [p]]
            | Throw e =>
                [EvExistsSync p; EvLintFiles [p];
                 EvLog LogWarn ("ESLint failed for " ++ p ++ ":") (Some e)]
            end
       else [EvExistsSync p])
    paths.

(** The text of an AI comment: the marker, two line feeds, then a text
    of more than 50 code units that neither begins nor ends with white
    space and does not contain "looks good" in any letter case. *)
Definition MarkedAdvice (c : ReviewComment) : Prop :=
  exists text,
    body c = Bot.AI_MARKER ++ Bot.LF ++ Bot.LF ++ text
    /\ Spec.Trimmed text
    /\ (50 < List.length text)%nat
    /\ ~ Spec.ContainsIgnoringCase "looks good" text.

(** The log line of line 81 for [n] assembled comments. *)
Definition completedLog (n : nat) : Event :=
  EvLog LogInfo
    ("Review completed! Posted " ++ Js.numberToString (Z.of_nat n)
     ++ " comments") None.

(** A text of [n] characters. *)
Fixpoint filler (n : nat) : jsstring :=
  match n with
  | O => []
  | S n' => "a"%unit :: filler n'
  end.

End Obs.

Module Outages.

Definition CREDENTIALS_ERROR : JsError :=
  Error "Missing required environment variables: GITHUB_TOKEN and OPENAI_API_KEY".

Definition cleanResult (p : jsstring) : ESLintResult :=
  {| filePath := p; messages := [Examples.anyWarning] |}.

(** A checkout in which [src/gone.ts] is missing and [src/locked.ts] cannot
    be read; the analyzer finds only warnings and the completion service
    approves of everything. *)
Definition world (token repository : option jsstring)
    (listing : Result (list ChangedFile)) (posting : Result unit) : World :=
  {| env_GITHUB_TOKEN := token;
     env_OPENAI_API_KEY := Some "sk-key";
     env_GITHUB_REPOSITORY := repository;
     env_GITHUB_PR_NUMBER := Some "12";
     path_extname := fun _ => ".ts";
     fs_existsSync := fun _ p => negb (Js.eqb p "src/gone.ts");
     fs_readFileSync := fun _ p =>
       if Js.eqb p "src/locked.ts" then Throw (Error "EACCES")
       else Ok "export const answer = 42;";
     eslint_lintFiles := fun _ patterns => Ok (map cleanResult patterns);
     openai_create := fun _ _ => Ok (Examples.respond "Looks good to me.");
     octokit_listFiles := fun _ _ _ _ => listing;
     octokit_createReview := fun _ _ _ _ _ _ _ => Ok tt;
     octokit_createComment := fun _ _ _ _ _ => posting |}.

Definition gone : ChangedFile :=
  {| filename := "src/gone.ts"; status := "modified"; patch := None |}.

Definition locked : ChangedFile :=
  {| filename := "src/locked.ts"; status := "added"; patch := None |}.

Definition change : list ChangedFile :=
  [Examples.file_a; gone; locked; Examples.readme].

Definition SERVER_ERROR : JsError := Error "503 Service Unavailable".

End Outages.

(** ** Tactics *)

(** Comparisons of code units, decided by arithmetic. *)
Ltac unit_lia :=
  repeat first
    [ rewrite andb_true_iff | rewrite orb_true_iff | rewrite andb_false_iff
    | rewrite orb_false_iff | rewrite negb_true_iff | rewrite negb_false_iff
    | rewrite N.leb_le | rewrite N.leb_gt | rewrite N.eqb_eq
    | rewrite N.eqb_neq | rewrite N.ltb_lt | rewrite N.ltb_ge ];
  lia.

Ltac norm_trace := repeat rewrite <- app_assoc; cbn [app]; try reflexivity.

Ltac by_kind :=
  let e := fresh "e" in
  let l := fresh "l" in
  intros e;
  destruct e as [l ? ?| ? ? ?| ?| ?| ?| ?| ? ? ? ? ? ?| ? ? ? ?| ?];
  try destruct l; cbn; congruence.

(** * Sanity checks of the embedding *)

Example trim_example : Js.trim "  Looks good! " = "Looks good!".
Proof. reflexivity. Qed.

Example parseInt_prefix : Js.parseInt "42abc" = Some 42.
Proof. reflexivity. Qed.

Example parseInt_hex : Js.parseInt " -0x1f" = Some (-31).
Proof. reflexivity. Qed.

Example parseInt_nan : Js.parseInt "abc" = None.
Proof. reflexivity. Qed.

Example split_repository : Js.split "/"%unit "owner/repo" = ["owner"; "repo"].
Proof. reflexivity. Qed.

Example hunk_without_count : Regex.matchHunkHeader "@@ -10 +7" = Some "7".
Proof. reflexivity. Qed.

Example hunk_needs_digits : Regex.matchHunkHeader "@@ -10,5 + 20,6 @@" = None.
Proof. reflexivity. Qed.

Example code_file_tsx : Regex.testCodeFile "a/b.tsx" = true.
Proof. reflexivity. Qed.

Example code_file_suffix_only : Regex.testCodeFile "a/b.tsx.md" = false.
Proof. reflexivity. Qed.

Example advice_length : Js.length Examples.advice = 80.
Proof. reflexivity. Qed.

Example padded_length :
  Js.length Examples.padded = 80 /\ Js.length (Js.trim Examples.padded) = 50.
Proof. split; reflexivity. Qed.

Example trim_wide_space :
  Js.trim ([65279; 12288; 8232]%N ++ "ok" ++ [160; 8195; 10]%N) = "ok".
Proof. reflexivity. Qed.

Example lower_mixed : Js.toLowerCase "LoOkS GoOd" = "looks good".
Proof. reflexivity. Qed.

Example lower_kelvin : Js.toLowerCase [8490%N] = "k".
Proof. reflexivity. Qed.

(** Capital I with dot above becomes two code units. *)
Example lower_dotted_i : Js.toLowerCase [304%N] = [105; 775]%N.
Proof. reflexivity. Qed.

(** Capital sigma at the end of a word and inside it. *)
Example lower_final_sigma :
  Js.toLowerCase [927; 916; 927; 931; 32; 931; 927]%N
  = [959; 948; 959; 962; 32; 963; 959]%N.
Proof. reflexivity. Qed.

(** A surrogate pair: U+10400 becomes U+10428. *)
Example lower_surrogate_pair :
  Js.toLowerCase [55297; 56320]%N = [55297; 56360]%N.
Proof. reflexivity. Qed.

Example parseInt_wide_space : Js.parseInt ([12288%N] ++ "+7") = Some 7.
Proof. reflexivity. Qed.


(** * Strings *)

Lemma sapp_assoc (a b c : jsstring) : (a ++ b) ++ c = a ++ (b ++ c).
Proof. induction a as [|x a IH]; simpl; [reflexivity | now rewrite IH]. Qed.

Lemma slength_app (a b : jsstring) :
  List.length (a ++ b) = (List.length a + List.length b)%nat.
Proof. induction a as [|x a IH]; simpl; [reflexivity | now rewrite IH]. Qed.

Lemma eqb_spec (a b : jsstring) : reflect (a = b) (Js.eqb a b).
Proof.
  revert b. induction a as [|x a IH]; intros [|y b]; simpl;
    try (constructor; congruence).
  destruct (N.eqb_spec x y) as [->|D]; simpl.
  - destruct (IH b) as [->|D]; constructor; congruence.
  - constructor. congruence.
Qed.

(** * The matchers *)

Section MatcherFacts.
Context {A : Type}.
Implicit Types (k : @Regex.Cont A) (s p : jsstring) (r : A).

Lemma lit_Some p k s r :
  Regex.lit p k s = Some r <-> exists rest, s = p ++ rest /\ k rest = Some r.
Proof.
  revert s. induction p as [|a p IH]; intros s; simpl.
  - split; [intros H; now exists s | intros (rest & -> & H); exact H].
  - destruct s as [|b s].
    + split; [discriminate | intros (rest & H & _); discriminate].
    + destruct (N.eqb_spec a b) as [->|N].
      * rewrite IH. split; intros (rest & E & H); exists rest; split; auto.
        -- now rewrite E.
        -- now injection E.
      * split; [discriminate | intros (rest & E & _)].
        injection E as E _. congruence.
Qed.

Lemma orElse_Some (x y : option A) r :
  Regex.orElse x y = Some r -> x = Some r \/ (x = None /\ y = Some r).
Proof. destruct x; simpl; intros H; [left | right]; auto. Qed.

Lemma star_Some cls k s r :
  Regex.star cls k s = Some r ->
  exists a rest, s = a ++ rest /\ Spec.allChars cls a = true /\ k rest = Some r.
Proof.
  induction s as [|c s IH]; simpl; intros H.
  - exists "", "". auto.
  - destruct (cls c) eqn:C.
    + apply orElse_Some in H. destruct H as [H | [_ H]].
      * destruct (IH H) as (a & rest & -> & D & K).
        exists (c :: a), rest. simpl. rewrite C. auto.
      * exists "", (c :: s). auto.
    + exists "", (c :: s). auto.
Qed.

Lemma plus_Some cls k s r :
  Regex.plus cls k s = Some r ->
  exists a rest,
    s = a ++ rest /\ a <> "" /\ Spec.allChars cls a = true /\ k rest = Some r.
Proof.
  destruct s as [|c s]; simpl; [discriminate|].
  destruct (cls c) eqn:C; [|discriminate].
  intros H. apply star_Some in H. destruct H as (a & rest & -> & D & K).
  exists (c :: a), rest. simpl. rewrite C.
  repeat split; auto. discriminate.
Qed.

Lemma opt_Some c k s r :
  Regex.opt c k s = Some r ->
  (exists rest, s = c :: rest /\ k rest = Some r) \/ k s = Some r.
Proof.
  destruct s as [|c' s]; simpl; [auto|].
  destruct (N.eqb_spec c' c) as [->|N]; [|auto].
  intros H. apply orElse_Some in H. destruct H as [H | [_ H]]; [left | right]; eauto.
Qed.

(** A greedy [cls*] takes the whole run when the continuation accepts
    what follows it. *)
Lemma star_run cls k a rest r :
  Spec.allChars cls a = true -> k rest = Some r ->
  Spec.noLeading cls rest ->
  Regex.star cls k (a ++ rest) = Some r.
Proof.
  intros D K N. induction a as [|c a IH]; simpl in *.
  - destruct rest as [|c rest]; simpl in *; [exact K|]. now rewrite N.
  - apply andb_true_iff in D. destruct D as [C D].
    rewrite C, (IH D). reflexivity.
Qed.

Lemma plus_run cls k a rest r :
  a <> "" -> Spec.allChars cls a = true -> k rest = Some r ->
  Spec.noLeading cls rest ->
  Regex.plus cls k (a ++ rest) = Some r.
Proof.
  intros NE D K N. destruct a as [|c a]; [congruence|]. simpl in *.
  apply andb_true_iff in D. destruct D as [C D].
  rewrite C. now apply star_run.
Qed.

Lemma search_Some (m : @Regex.Cont A) s r :
  Regex.search m s = Some r <->
  exists pre rest,
    s = pre ++ rest /\ m rest = Some r
    /\ forall pre' rest',
         s = pre' ++ rest' -> (List.length pre' < List.length pre)%nat ->
         m rest' = None.
Proof.
  induction s as [|c s IH].
  - simpl. split.
    + intros H. exists "", "". split; [reflexivity|]. split.
      * destruct (m "") eqn:E; [exact H | discriminate].
      * simpl. intros; lia.
    + intros (pre & rest & E & H & _).
      destruct pre; [|discriminate]. simpl in E. subst rest. now rewrite H.
  - cbn [Regex.search]. destruct (m (c :: s)) as [r0|] eqn:E.
    + split.
      * intros H. exists "", (c :: s). split; [reflexivity|].
        split; [congruence | simpl; intros; lia].
      * intros (pre & rest & E' & H & F).
        destruct pre as [|x pre].
        -- simpl in E'. subst rest. congruence.
        -- specialize (F "" (c :: s) eq_refl ltac:(simpl; lia)). congruence.
    + rewrite IH. split.
      * intros (pre & rest & -> & H & F).
        exists (c :: pre), rest. split; [reflexivity|]. split; [exact H|].
        intros pre' rest' E' L. destruct pre' as [|x pre'].
        -- simpl in E'. subst rest'. exact E.
        -- simpl in E'. injection E' as -> E'. apply (F pre' rest' E').
           simpl in L. lia.
      * intros (pre & rest & E' & H & F).
        destruct pre as [|x pre].
        -- simpl in E'. subst rest. congruence.
        -- simpl in E'. injection E' as -> ->. exists pre, rest.
           split; [reflexivity|]. split; [exact H|].
           intros pre' rest' E' L.
           apply (F (x :: pre') rest'); simpl; [now rewrite E' | lia].
Qed.

Lemma search_None (m : @Regex.Cont A) s :
  Regex.search m s = None <->
  forall pre rest, s = pre ++ rest -> m rest = None.
Proof.
  induction s as [|c s IH].
  - simpl. split.
    + intros H pre rest E. destruct pre; [|discriminate]. simpl in E. subst.
      destruct (m ""); [discriminate | reflexivity].
    + intros H. now rewrite (H "" "" eq_refl).
  - cbn [Regex.search]. split.
    + intros H pre rest E. destruct (m (c :: s)) eqn:M; [discriminate|].
      destruct pre as [|x pre].
      * simpl in E. now subst.
      * simpl in E. injection E as _ E. rewrite IH in H. now apply (H pre).
    + intros H. rewrite (H "" _ eq_refl). apply IH.
      intros pre rest E. apply (H (c :: pre)). simpl. now rewrite E.
Qed.
End MatcherFacts.

Lemma allChars_app cls a b :
  Spec.allChars cls (a ++ b) = Spec.allChars cls a && Spec.allChars cls b.
Proof.
  induction a as [|c a IH]; simpl; [reflexivity|].
  now rewrite IH, andb_assoc.
Qed.

(** Every jsstring splits into its longest run of [cls] and the rest. *)
Lemma span_run cls (s : jsstring) :
  exists a rest,
    s = a ++ rest /\ Spec.allChars cls a = true /\ Spec.noLeading cls rest.
Proof.
  induction s as [|c s (a & rest & -> & D & N)].
  - exists "", "". simpl. auto.
  - destruct (cls c) eqn:C.
    + exists (c :: a), rest. simpl. rewrite C. auto.
    + exists "", (c :: a ++ rest). simpl. auto.
Qed.

(** The longest run is unique. *)
Lemma run_unique cls a rest a' rest' :
  a ++ rest = a' ++ rest' ->
  Spec.allChars cls a = true -> Spec.noLeading cls rest ->
  Spec.allChars cls a' = true -> Spec.noLeading cls rest' ->
  a = a' /\ rest = rest'.
Proof.
  revert a'. induction a as [|c a IH]; intros a' E D N D' N'.
  - destruct a' as [|c' a']; simpl in *; [auto|].
    subst rest. simpl in N. apply andb_true_iff in D'. destruct D' as [C _].
    congruence.
  - destruct a' as [|c' a']; simpl in *.
    + subst rest'. simpl in N'. apply andb_true_iff in D. destruct D as [C _].
      congruence.
    + injection E as -> E.
      apply andb_true_iff in D. apply andb_true_iff in D'.
      destruct (IH a' E) as [-> ->]; tauto.
Qed.

Lemma slice0_app (a rest : jsstring) :
  Js.slice0 (List.length a) (a ++ rest) = a.
Proof. induction a as [|c a IH]; simpl; [now destruct rest | now rewrite IH]. Qed.

Lemma slice0_run (a rest : jsstring) :
  Js.slice0 (List.length (a ++ rest) - List.length rest) (a ++ rest) = a.
Proof.
  replace (List.length (a ++ rest) - List.length rest)%nat
    with (List.length a) by (rewrite slength_app; lia).
  apply slice0_app.
Qed.

(** The capturing group [(\d+)] at the end of the pattern: it captures the
    longest run of digits, which must not be empty. *)
Lemma capture_digits (s c : jsstring) :
  Regex.group (Regex.plus Js.isDigit) (fun cap _ => Some cap) s = Some c <->
  exists rest, s = c ++ rest /\ Spec.Digits1 c /\ Spec.NoLeadingDigit rest.
Proof.
  unfold Regex.group.
  destruct (span_run Js.isDigit s) as (a & rest & E & D & N).
  split.
  - intros H. exists rest.
    destruct a as [|x a].
    + simpl in E. subst s. destruct rest as [|y rest]; simpl in *;
        [discriminate | rewrite N in H; discriminate].
    + rewrite E in H at 1.
      rewrite (plus_run Js.isDigit _ (x :: a) rest
                 (Js.slice0 (List.length s - List.length rest) s)) in H;
        auto; [|discriminate].
      injection H as H. rewrite E in H. rewrite slice0_run in H. subst c.
      repeat split; auto. discriminate.
  - intros (rest' & E' & [NE D'] & N').
    rewrite E in E'.
    destruct (run_unique _ _ _ _ _ E' D N D' N') as [-> ->].
    rewrite E at 1.
    rewrite (plus_run Js.isDigit _ c rest'
               (Js.slice0 (List.length s - List.length rest') s)); auto.
    rewrite E, slice0_run. reflexivity.
Qed.

(** The pattern of line 141, at one position, against its grammar. *)
Lemma hunkHeaderAt_spec (s c : jsstring) :
  Regex.hunkHeaderAt s = Some c <-> Spec.HunkHeader s c.
Proof.
  unfold Regex.hunkHeaderAt, Spec.HunkHeader. split.
  - intros H.
    apply lit_Some in H. destruct H as (s1 & -> & H).
    apply plus_Some in H. destruct H as (a & s2 & -> & NE & Da & H).
    apply opt_Some in H.
    destruct H as [(s3 & -> & H) | H];
      apply star_Some in H; destruct H as (b & s4 & -> & Db & H);
      apply lit_Some in H; destruct H as (s5 & -> & H);
      apply capture_digits in H; destruct H as (rest & -> & Dc & N).
    + exists a, ("," ++ b), rest. repeat split; auto; try apply Dc.
      right. now exists b.
    + exists (a ++ b), "", rest. repeat split; auto; try apply Dc.
      * now rewrite !sapp_assoc.
      * destruct a; [congruence | discriminate].
      * unfold Spec.Digits. now rewrite allChars_app, Da, Db.
  - intros (a & sep & rest & -> & [NE Da] & Hsep & Dc & N).
    apply lit_Some. eexists. split; [reflexivity|].
    assert (G : Regex.lit " +"
                  (Regex.group (Regex.plus Js.isDigit) (fun cap _ => Some cap))
                  (" +" ++ c ++ rest) = Some c).
    { apply lit_Some. eexists. split; [reflexivity|].
      apply capture_digits. now exists rest. }
    destruct Hsep as [-> | (b & -> & Db)].
    + apply plus_run; [exact NE | exact Da | | reflexivity].
      simpl. exact G.
    + apply plus_run; [exact NE | exact Da | | reflexivity].
      cbn [app Regex.opt]. rewrite N.eqb_refl.
      rewrite (star_run Js.isDigit _ b (" +" ++ c ++ rest) c);
        [reflexivity | exact Db | exact G | reflexivity].
Qed.

Lemma digitValue_digit (c : N) :
  Js.isDigit c = true ->
  Js.digitValue c = Some (Z.of_N c - 48)
  /\ 0 <= Z.of_N c - 48 < 10.
Proof.
  unfold Js.isDigit, Js.digitValue. cbv zeta. intros H. rewrite H.
  split; [reflexivity|].
  apply andb_true_iff in H. destruct H as [H1 H2].
  apply N.leb_le in H1. apply N.leb_le in H2. lia.
Qed.

Lemma parseDigits_decimal (s : jsstring) (acc : Z) :
  Spec.Digits s ->
  Js.parseDigits 10 s (Some acc) = Some (Spec.decimalValueFrom acc s).
Proof.
  revert acc. induction s as [|c s IH]; intros acc D; [reflexivity|].
  unfold Spec.Digits in D. simpl in D. apply andb_true_iff in D.
  destruct D as [C D]. destruct (digitValue_digit c C) as [E R].
  cbn [Js.parseDigits Spec.decimalValueFrom]. rewrite E.
  replace (Z.of_N c - 48 <? 10) with true
    by (symmetry; apply Z.ltb_lt; lia).
  apply IH. exact D.
Qed.

Lemma digit_not_space (c : N) :
  Js.isDigit c = true -> Js.isWhiteSpace c = false.
Proof. unfold Js.isDigit, Js.isWhiteSpace. unit_lia. Qed.

Lemma readSign_digit (c : N) (s : jsstring) :
  Js.isDigit c = true -> Js.readSign (c :: s) = (1, c :: s).
Proof.
  intros D. unfold Js.readSign.
  replace (N.eqb c "-"%unit) with false
    by (symmetry; revert D; unfold Js.isDigit; unit_lia).
  replace (N.eqb c "+"%unit) with false
    by (symmetry; revert D; unfold Js.isDigit; unit_lia).
  reflexivity.
Qed.

Lemma readRadix_digits (s : jsstring) :
  Spec.Digits s -> Js.readRadix s = (10, s).
Proof.
  intros D. destruct s as [|c [|x s]]; try reflexivity.
  unfold Spec.Digits in D. simpl in D.
  apply andb_true_iff in D. destruct D as [_ D].
  apply andb_true_iff in D. destruct D as [X _].
  unfold Js.readRadix.
  replace (N.eqb x "x"%unit) with false
    by (symmetry; revert X; unfold Js.isDigit; unit_lia).
  replace (N.eqb x "X"%unit) with false
    by (symmetry; revert X; unfold Js.isDigit; unit_lia).
  now rewrite andb_false_r.
Qed.

(** [parseInt] of a captured run of digits is its decimal value. *)
Lemma parseInt_digits (s : jsstring) :
  Spec.Digits1 s -> Js.parseInt s = Some (Spec.decimalValue s).
Proof.
  intros [NE D]. destruct s as [|c s]; [congruence|].
  assert (C : Js.isDigit c = true).
  { unfold Spec.Digits in D. simpl in D. apply andb_true_iff in D. tauto. }
  assert (P : Js.parseDigits 10 (c :: s) None
              = Some (Spec.decimalValue (c :: s))).
  { unfold Spec.Digits in D. simpl in D. apply andb_true_iff in D.
    destruct D as [_ D].
    destruct (digitValue_digit c C) as [E R].
    unfold Spec.decimalValue. cbn [Js.parseDigits Spec.decimalValueFrom].
    rewrite E.
    replace (Z.of_N c - 48 <? 10) with true
      by (symmetry; apply Z.ltb_lt; lia).
    rewrite (parseDigits_decimal s _ D). reflexivity. }
  unfold Js.parseInt. cbn [Js.trimStart]. rewrite (digit_not_space c C).
  rewrite (readSign_digit c s C), (readRadix_digits (c :: s) D), P.
  f_equal. lia.
Qed.

Lemma matchHunkHeader_first (p c : jsstring) :
  Regex.matchHunkHeader p = Some c <-> Spec.FirstHunkHeader p c.
Proof.
  unfold Regex.matchHunkHeader, Spec.FirstHunkHeader, Spec.NoHunkHeaderBefore.
  rewrite search_Some. split.
  - intros (pre & s & E & H & F). exists pre, s. split; [exact E|].
    split; [now apply hunkHeaderAt_spec|].
    intros pre' s' c' E' L H'. apply hunkHeaderAt_spec in H'.
    rewrite (F pre' s' E' L) in H'. discriminate.
  - intros (pre & s & E & H & F). exists pre, s. split; [exact E|].
    split; [now apply hunkHeaderAt_spec|].
    intros pre' s' E' L.
    destruct (Regex.hunkHeaderAt s') as [c'|] eqn:M; [|reflexivity].
    apply hunkHeaderAt_spec in M. now destruct (F pre' s' c' E' L).
Qed.

Lemma matchHunkHeader_none (p : jsstring) :
  Regex.matchHunkHeader p = None <-> Spec.NoHunkHeader p.
Proof.
  unfold Regex.matchHunkHeader, Spec.NoHunkHeader. rewrite search_None. split.
  - intros F pre s c E H. apply hunkHeaderAt_spec in H.
    rewrite (F pre s E) in H. discriminate.
  - intros F pre s E.
    destruct (Regex.hunkHeaderAt s) as [c|] eqn:M; [|reflexivity].
    apply hunkHeaderAt_spec in M. now destruct (F pre s c E).
Qed.

(** The header written in full is a header of the grammar. *)
Lemma full_header (s c : jsstring) :
  Spec.FullHunkHeader s c -> Spec.HunkHeader s c.
Proof.
  intros (a & b & d & rest & -> & Da & Db & Dc & Dd).
  exists a, ("," ++ b), ("," ++ d ++ " @@" ++ rest).
  split; [now rewrite !sapp_assoc|].
  split; [exact Da|]. split; [right; exists b; split; [reflexivity | apply Db]|].
  split; [exact Dc | reflexivity].
Qed.

Lemma startLine_first (p c : jsstring) :
  Spec.FirstHunkHeader p c -> Bot.startLine (Some p) = Spec.decimalValue c.
Proof.
  intros H. assert (D : Spec.Digits1 c).
  { destruct H as (_ & s & _ & (a & sep & rest & _ & _ & _ & D & _) & _).
    exact D. }
  apply matchHunkHeader_first in H. unfold Bot.startLine. rewrite H.
  now rewrite (parseInt_digits c D).
Qed.

Lemma startLine_none (p : jsstring) :
  Spec.NoHunkHeader p -> Bot.startLine (Some p) = 1.
Proof.
  intros H. apply matchHunkHeader_none in H. unfold Bot.startLine.
  now rewrite H.
Qed.

(** ** The pattern of the file filter *)

Lemma codeFileAt_spec (s : jsstring) :
  Regex.codeFileAt s = Some tt <->
  s = ".ts" \/ s = ".js" \/ s = ".tsx" \/ s = ".jsx".
Proof.
  unfold Regex.codeFileAt. split.
  - intros H. apply lit_Some in H. destruct H as (r & -> & H).
    cbn [Regex.alt] in H.
    repeat (apply orElse_Some in H; destruct H as [H | [_ H]]);
      try discriminate;
      apply lit_Some in H; destruct H as (r' & -> & H);
      unfold Regex.eos in H; destruct r'; try discriminate; simpl; auto.
  - intros [-> | [-> | [-> | ->]]]; reflexivity.
Qed.

Lemma testCodeFile_spec (s : jsstring) :
  Regex.testCodeFile s = true <-> Spec.CodeFileName s.
Proof.
  unfold Regex.testCodeFile, Spec.CodeFileName, Spec.EndsWith. split.
  - destruct (Regex.search Regex.codeFileAt s) as [[]|] eqn:E; [|discriminate].
    intros _. apply search_Some in E. destruct E as (pre & rest & -> & H & _).
    apply codeFileAt_spec in H.
    destruct H as [-> | [-> | [-> | ->]]]; eauto 6.
  - intros H.
    destruct (Regex.search Regex.codeFileAt s) as [[]|] eqn:E; [reflexivity|].
    rewrite search_None in E.
    destruct H as [[pre ->] | [[pre ->] | [[pre ->] | [pre ->]]]];
      specialize (E pre _ eq_refl); discriminate.
Qed.

Lemma isCodeFile_spec (f : ChangedFile) :
  Bot.isCodeFile f = true <-> Spec.KeptByFilter f.
Proof.
  unfold Bot.isCodeFile, Spec.KeptByFilter.
  rewrite andb_true_iff, testCodeFile_spec, negb_true_iff.
  destruct (eqb_spec (status f) "removed"); intuition congruence.
Qed.

(** ** [includes], [toLowerCase] and [trim] *)


Lemma startsWith_spec (p s : jsstring) :
  Js.startsWith p s = true <-> exists rest, s = p ++ rest.
Proof.
  revert s. induction p as [|a p IH]; intros s; simpl.
  - split; [intros _; now exists s | reflexivity].
  - destruct s as [|b s].
    + split; [discriminate | intros (rest & H); discriminate].
    + rewrite andb_true_iff, N.eqb_eq, IH. split.
      * intros (-> & rest & ->). now exists rest.
      * intros (rest & E). injection E as -> ->. split; [reflexivity|].
        now exists rest.
Qed.

Lemma includes_spec (w s : jsstring) :
  Js.includes w s = true <-> Spec.Occurs w s.
Proof.
  unfold Spec.Occurs. induction s as [|c s IH]; cbn [Js.includes].
  - destruct (Js.startsWith w "") eqn:E.
    + apply startsWith_spec in E. destruct E as (rest & E).
      split; [intros _; now exists "", rest | reflexivity].
    + split; [discriminate|]. intros (pre & post & H).
      destruct pre; [|discriminate]. simpl in H.
      assert (Js.startsWith w "" = true)
        by (apply startsWith_spec; now exists post).
      congruence.
  - destruct (Js.startsWith w (c :: s)) eqn:E.
    + apply startsWith_spec in E. destruct E as (rest & E).
      split; [intros _; now exists "", rest | reflexivity].
    + rewrite IH. split.
      * intros (pre & post & ->). now exists (c :: pre), post.
      * intros (pre & post & H). destruct pre as [|x pre].
        -- simpl in H.
           assert (Js.startsWith w (c :: s) = true)
             by (apply startsWith_spec; now exists post).
           congruence.
        -- injection H as _ ->. now exists pre, post.
Qed.

(** *** [toLowerCase] on the letters of ASCII *)

Lemma simpleLower_ascii (p : N) :
  (p < 128)%N -> Unicode.simpleLower p = Letters.foldUnit p.
Proof.
  intros L.
  assert (T : forallb
                (fun p => N.eqb (Unicode.simpleLower p) (Letters.foldUnit p))
                Letters.ascii = true) by (vm_compute; reflexivity).
  rewrite forallb_forall in T. apply N.eqb_eq, T.
  unfold Letters.ascii. rewrite <- (N2Nat.id p). apply in_map, in_seq. lia.
Qed.

Lemma simpleLower_other (p : N) :
  (128 <= p)%N -> p <> 8490%N -> (128 <= Unicode.simpleLower p)%N.
Proof.
  intros L K. unfold Unicode.simpleLower.
  destruct (find (Unicode.inShift p) Unicode.lowerShift)
    as [[[lo hi] target]|] eqn:F.
  - apply find_some in F. destruct F as [I R].
    assert (T : forallb
                  (fun e : N * N * N =>
                     let '(lo, hi, target) := e in
                     ((hi <? 128) || (lo =? 8490) && (hi =? 8490)
                      || (128 <=? target))%N)
                  Unicode.lowerShift = true) by (vm_compute; reflexivity).
    rewrite forallb_forall in T. specialize (T _ I). cbv beta iota in T.
    unfold Unicode.inShift in R. cbn [fst snd] in R.
    revert T R. unit_lia.
  - destruct (find (Unicode.inRange p) Unicode.lowerAlternate) as [[lo hi]|];
      [destruct (N.even (p - lo))|]; lia.
Qed.

Lemma lowerAt_ascii (before after : list N) (p : N) :
  (p < 128)%N -> Unicode.lowerAt before p after = [Letters.foldUnit p].
Proof.
  intros L. unfold Unicode.lowerAt, Unicode.lowerPoint.
  replace (N.eqb p 931) with false by (symmetry; unit_lia).
  replace (N.eqb p 304) with false by (symmetry; unit_lia).
  cbn [andb]. now rewrite simpleLower_ascii.
Qed.

Lemma lowerAt_kelvin (before after : list N) :
  Unicode.lowerAt before 8490 after = [107%N].
Proof. reflexivity. Qed.

Lemma encodePoint_other (p : N) :
  (128 <= p)%N ->
  Forall Letters.Other (Unicode.encodePoint p) /\ Unicode.encodePoint p <> [].
Proof.
  intros L. unfold Unicode.encodePoint.
  destruct (N.ltb p 65536); (split; [|discriminate]).
  - constructor; [left; exact L | constructor].
  - constructor; [left|constructor; [left | constructor]].
    + apply N.le_trans with 55296%N; [lia | apply N.le_add_r].
    + apply N.le_trans with 56320%N; [lia | apply N.le_add_r].
Qed.

Lemma lowerAt_other (before after : list N) (p : N) :
  (128 <= p)%N -> p <> 8490%N ->
  Forall Letters.Other (Unicode.encode (Unicode.lowerAt before p after))
  /\ Unicode.encode (Unicode.lowerAt before p after) <> [].
Proof.
  intros L K. unfold Unicode.lowerAt, Unicode.lowerPoint.
  destruct (N.eqb p 931 && Unicode.finalSigma before after).
  - split; [|discriminate]. constructor; [left; cbn; lia | constructor].
  - destruct (N.eqb p 304).
    + split; [|discriminate]. constructor; [right; reflexivity|].
      constructor; [left; cbn; lia | constructor].
    + unfold Unicode.encode. cbn [flat_map]. rewrite app_nil_r.
      apply encodePoint_other, simpleLower_other; assumption.
Qed.

Lemma encode_app (a b : list N) :
  Unicode.encode (a ++ b) = Unicode.encode a ++ Unicode.encode b.
Proof. apply flat_map_app. Qed.

Lemma foldUnit_other (c : N) :
  (128 <= c)%N -> c <> 8490%N -> Letters.foldUnit c = c.
Proof.
  intros L K. unfold Letters.foldUnit.
  replace ((65 <=? c) && (c <=? 90))%N with false by (symmetry; unit_lia).
  replace (N.eqb c 8490) with false by (symmetry; unit_lia).
  reflexivity.
Qed.

(** One code point: its lower case against the code unit it came from. *)
Lemma aligned_point (before after : list N) (c : N) (a b : jsstring) :
  Letters.Aligned a b ->
  Letters.Aligned (Unicode.encode (Unicode.lowerAt before c after) ++ a)
    (Letters.foldUnit c :: b).
Proof.
  intros H. destruct (N.ltb_spec c 128) as [L|L].
  - rewrite lowerAt_ascii by exact L.
    unfold Unicode.encode, Unicode.encodePoint. cbn [flat_map].
    replace (N.ltb (Letters.foldUnit c) 65536) with true.
    + now constructor.
    + symmetry. apply N.ltb_lt. unfold Letters.foldUnit.
      destruct ((65 <=? c) && (c <=? 90))%N; [lia|].
      destruct (N.eqb c 8490); lia.
  - destruct (N.eqb_spec c 8490) as [->|K].
    + rewrite lowerAt_kelvin. now constructor.
    + destruct (lowerAt_other before after c L K) as [O NE].
      rewrite foldUnit_other by assumption.
      apply (Letters.aligned_other _ [c]); auto; try discriminate.
      constructor; [left; exact L | constructor].
Qed.

(** A surrogate pair: the lower case of its code point against the two
    code units. *)
Lemma aligned_pair (before after : list N) (hi lo : N) (a b : jsstring) :
  Unicode.isHighSurrogate hi && Unicode.isLowSurrogate lo = true ->
  Letters.Aligned a b ->
  Letters.Aligned
    (Unicode.encode
       (Unicode.lowerAt before
          (65536 + (hi - 55296) * 1024 + (lo - 56320))%N after) ++ a)
    (Letters.foldUnit hi :: Letters.foldUnit lo :: b).
Proof.
  intros S H. unfold Unicode.isHighSurrogate, Unicode.isLowSurrogate in S.
  assert (B : (55296 <= hi /\ 56320 <= lo)%N) by (revert S; unit_lia).
  destruct (lowerAt_other before after
              (65536 + (hi - 55296) * 1024 + (lo - 56320))%N) as [O NE];
    [lia | lia |].
  rewrite !foldUnit_other by lia.
  apply (Letters.aligned_other _ [hi; lo]); auto; try discriminate.
  constructor; [left; lia|]. constructor; [left; lia | constructor].
Qed.

Lemma decode_pair (hi lo : N) (rest : jsstring) :
  Unicode.decode (hi :: lo :: rest)
  = if Unicode.isHighSurrogate hi && Unicode.isLowSurrogate lo
    then (65536 + (hi - 55296) * 1024 + (lo - 56320))%N :: Unicode.decode rest
    else hi :: Unicode.decode (lo :: rest).
Proof. reflexivity. Qed.

Lemma aligned_lower (n : nat) :
  forall (s : jsstring) (before : list N),
    (List.length s <= n)%nat ->
    Letters.Aligned
      (Unicode.encode (Unicode.lowerPoints before (Unicode.decode s)))
      (Letters.fold s).
Proof.
  induction n as [|n IH]; intros s before L.
  - destruct s; [constructor | simpl in L; lia].
  - destruct s as [|hi [|lo rest]].
    + constructor.
    + cbn [Unicode.decode Unicode.lowerPoints Letters.fold map].
      rewrite encode_app. apply aligned_point. constructor.
    + rewrite decode_pair.
      destruct (Unicode.isHighSurrogate hi && Unicode.isLowSurrogate lo)
        eqn:S.
      * cbn [Unicode.lowerPoints Letters.fold map]. rewrite encode_app.
        apply aligned_pair; [exact S|].
        apply IH. simpl in L. lia.
      * cbn [Unicode.lowerPoints]. rewrite encode_app.
        change (Letters.fold (hi :: lo :: rest))
          with (Letters.foldUnit hi :: Letters.fold (lo :: rest)).
        apply aligned_point. apply IH. simpl in L |- *. lia.
Qed.

Lemma plain_other (p c : N) :
  Letters.Plain p -> Letters.Other c -> N.eqb p c = false.
Proof. unfold Letters.Plain, Letters.Other. unit_lia. Qed.

Lemma aligned_startsWith (q a b : jsstring) :
  Forall Letters.Plain q -> Letters.Aligned a b ->
  Js.startsWith q a = Js.startsWith q b.
Proof.
  intros P H. revert q P.
  induction H as [|c a b H IH|x y a b NX NY OX OY H IH]; intros q P.
  - reflexivity.
  - destruct q as [|p q]; [reflexivity|]. simpl. f_equal. apply IH.
    now inversion P.
  - destruct q as [|p q]; [reflexivity|].
    destruct x as [|x0 x]; [congruence|]. destruct y as [|y0 y]; [congruence|].
    inversion P; subst. inversion OX; subst. inversion OY; subst.
    simpl. now rewrite !(plain_other p) by assumption.
Qed.

Lemma includes_skip_other (q x a : jsstring) :
  q <> [] -> Forall Letters.Plain q -> Forall Letters.Other x ->
  Js.includes q (x ++ a) = Js.includes q a.
Proof.
  intros NE P O. induction O as [|c x C O IH]; [reflexivity|].
  destruct q as [|p q]; [congruence|].
  cbn [app Js.includes Js.startsWith]. inversion P; subst.
  now rewrite (plain_other p c).
Qed.

Lemma aligned_includes (q a b : jsstring) :
  q <> [] -> Forall Letters.Plain q -> Letters.Aligned a b ->
  Js.includes q a = Js.includes q b.
Proof.
  intros NE P H.
  induction H as [|c a b H IH|x y a b NX NY OX OY H IH].
  - reflexivity.
  - cbn [Js.includes].
    rewrite (aligned_startsWith q (c :: a) (c :: b)), IH;
      [reflexivity | exact P | now constructor].
  - now rewrite !includes_skip_other.
Qed.

(** [toLowerCase] and the letter fold hold the same phrases. *)
Lemma includes_toLowerCase (q s : jsstring) :
  q <> [] -> Forall Letters.Plain q ->
  Js.includes q (Js.toLowerCase s) = Js.includes q (Letters.fold s).
Proof.
  intros NE P. apply aligned_includes; auto.
  unfold Js.toLowerCase. now apply (aligned_lower (List.length s)).
Qed.

Lemma sameLetter_fold (p c : N) :
  Letters.Plain p -> (Spec.SameLetter p c <-> Letters.foldUnit c = p).
Proof.
  unfold Letters.Plain, Spec.SameLetter, Letters.foldUnit. intros P.
  destruct ((65 <=? c) && (c <=? 90))%N eqn:A.
  - assert (65 <= c <= 90)%N by (revert A; unit_lia). lia.
  - assert (~ (65 <= c <= 90))%N by (revert A; unit_lia).
    destruct (N.eqb_spec c 8490); lia.
Qed.

Lemma sameLetters_fold (q w : jsstring) :
  Forall Letters.Plain q ->
  (Forall2 Spec.SameLetter q w <-> Letters.fold w = q).
Proof.
  intros P. revert w. induction P as [|p q Pp P IH]; intros w.
  - split.
    + intros H. now inversion H.
    + destruct w; [constructor | discriminate].
  - split.
    + intros H. inversion H as [|? c ? w' S F]; subst. simpl.
      f_equal; [now apply sameLetter_fold | now apply IH].
    + destruct w as [|c w]; [discriminate|]. simpl. intros E.
      injection E as E1 E2. constructor;
        [now apply sameLetter_fold | now apply IH].
Qed.

Lemma fold_app (a b : jsstring) :
  Letters.fold (a ++ b) = Letters.fold a ++ Letters.fold b.
Proof. apply map_app. Qed.

Lemma fold_app_inv (s x y : jsstring) :
  Letters.fold s = x ++ y ->
  exists a b, s = a ++ b /\ Letters.fold a = x /\ Letters.fold b = y.
Proof.
  revert s. induction x as [|c x IH]; intros s H.
  - exists [], s. auto.
  - destruct s as [|d s]; [discriminate|]. simpl in H. injection H as <- H.
    destruct (IH s H) as (a & b & -> & <- & <-).
    exists (d :: a), b. auto.
Qed.

Lemma containsIgnoringCase_fold (phrase s : jsstring) :
  Forall Letters.Plain phrase ->
  (Spec.ContainsIgnoringCase phrase s <-> Spec.Occurs phrase (Letters.fold s)).
Proof.
  intros P. unfold Spec.ContainsIgnoringCase, Spec.Occurs. split.
  - intros (pre & w & post & -> & F). apply sameLetters_fold in F; [|exact P].
    exists (Letters.fold pre), (Letters.fold post).
    now rewrite !fold_app, F.
  - intros (pre & post & H).
    apply fold_app_inv in H. destruct H as (a & b & -> & <- & H).
    apply fold_app_inv in H. destruct H as (w & c & -> & F & <-).
    exists a, w, c. split; [reflexivity|]. now apply sameLetters_fold.
Qed.

Lemma foldUnit_space (c : N) :
  Js.isWhiteSpace (Letters.foldUnit c) = Js.isWhiteSpace c.
Proof.
  unfold Letters.foldUnit.
  destruct ((65 <=? c) && (c <=? 90))%N eqn:A.
  - assert (65 <= c <= 90)%N by (revert A; unit_lia).
    transitivity false; [|symmetry]; unfold Js.isWhiteSpace; unit_lia.
  - destruct (N.eqb_spec c 8490) as [->|]; reflexivity.
Qed.

Lemma isEmpty_fold (s : jsstring) :
  Js.isEmpty (Letters.fold s) = Js.isEmpty s.
Proof. now destruct s. Qed.

Lemma trim_fold (s : jsstring) :
  Js.trim (Letters.fold s) = Letters.fold (Js.trim s).
Proof.
  unfold Js.trim.
  assert (E : forall t, Js.trimEnd (Letters.fold t)
                        = Letters.fold (Js.trimEnd t)).
  { induction t as [|c t IH]; [reflexivity|].
    cbn [Letters.fold map Js.trimEnd]. cbv zeta.
    fold (Letters.fold t).
    rewrite IH, isEmpty_fold, foldUnit_space.
    now destruct (Js.isWhiteSpace c && Js.isEmpty (Js.trimEnd t)). }
  induction s as [|c s IH]; [reflexivity|].
  cbn [Letters.fold map Js.trimStart]. rewrite foldUnit_space.
  destruct (Js.isWhiteSpace c); [exact IH|].
  exact (E (c :: s)).
Qed.

(** What [trim] removes is white space on both sides. *)
Lemma trimStart_suffix (s : jsstring) : exists ws, s = ws ++ Js.trimStart s.
Proof.
  induction s as [|c s [ws IH]]; [now exists ""|].
  simpl. destruct (Js.isWhiteSpace c).
  - exists (c :: ws). simpl. now rewrite <- IH.
  - now exists "".
Qed.

Lemma trimEnd_prefix (s : jsstring) : exists ws, s = Js.trimEnd s ++ ws.
Proof.
  induction s as [|c s [ws IH]]; [now exists ""|].
  simpl. destruct (Js.isWhiteSpace c && Js.isEmpty (Js.trimEnd s)).
  - now exists (c :: s).
  - exists ws. simpl. now rewrite <- IH.
Qed.

Lemma occurs_trim_inv (w s : jsstring) : Spec.Occurs w (Js.trim s) -> Spec.Occurs w s.
Proof.
  unfold Js.trim. intros (pre & post & H).
  destruct (trimStart_suffix s) as [ws1 E1].
  destruct (trimEnd_prefix (Js.trimStart s)) as [ws2 E2].
  rewrite H in E2. rewrite E2 in E1.
  exists (ws1 ++ pre), (post ++ ws2). rewrite E1.
  now rewrite !sapp_assoc.
Qed.

Section OccursTrim.
(** A word that neither starts nor ends with white space. *)
Variables (c0 c1 : N) (w0 w1 : jsstring).
Let w := c0 :: w0.
Hypothesis first_char : Js.isWhiteSpace c0 = false.
Hypothesis last_char : w = w1 ++ c1 :: "".
Hypothesis last_char_ok : Js.isWhiteSpace c1 = false.

Lemma occurs_trimStart (s : jsstring) : Spec.Occurs w s -> Spec.Occurs w (Js.trimStart s).
Proof.
  induction s as [|c s IH]; intros H; [exact H|].
  simpl. destruct (Js.isWhiteSpace c) eqn:C; [|exact H].
  apply IH. destruct H as (pre & post & H). destruct pre as [|x pre].
  - unfold w in H. simpl in H. injection H as -> _. congruence.
  - injection H as _ ->. now exists pre, post.
Qed.

Lemma trimEnd_keeps (u post : jsstring) :
  exists post', Js.trimEnd (u ++ c1 :: post) = u ++ c1 :: post'.
Proof.
  induction u as [|x u [post' IH]].
  - exists (Js.trimEnd post). simpl. now rewrite last_char_ok.
  - exists post'. cbn [app Js.trimEnd]. cbv zeta. rewrite IH.
    replace (Js.isEmpty (u ++ c1 :: post')) with false
      by (now destruct u).
    now rewrite andb_false_r.
Qed.

Lemma occurs_trimEnd (s : jsstring) : Spec.Occurs w s -> Spec.Occurs w (Js.trimEnd s).
Proof.
  induction s as [|c s IH]; intros H; [exact H|].
  destruct H as (pre & post & H). destruct pre as [|x pre].
  - assert (E : c :: s = w1 ++ c1 :: post).
    { change ("" ++ w ++ post) with (w ++ post) in H.
      rewrite H, last_char, sapp_assoc. reflexivity. }
    rewrite E. destruct (trimEnd_keeps w1 post) as [post' ->].
    exists "", post'. change ("" ++ w ++ post') with (w ++ post').
    rewrite last_char, sapp_assoc. reflexivity.
  - injection H as <- ->.
    destruct (IH ltac:(now exists pre, post)) as (pre' & post' & E).
    cbn [Js.trimEnd]. cbv zeta. rewrite E.
    replace (Js.isEmpty (pre' ++ w ++ post')) with false
      by (now destruct pre').
    rewrite andb_false_r. now exists (c :: pre'), post'.
Qed.

Lemma occurs_trim (s : jsstring) : Spec.Occurs w (Js.trim s) <-> Spec.Occurs w s.
Proof.
  split; [apply occurs_trim_inv|].
  intros H. unfold Js.trim. now apply occurs_trimEnd, occurs_trimStart.
Qed.
End OccursTrim.

(** Line 196 looks for the phrase in the trimmed text; white space at the
    ends cannot hold a part of it. *)
Lemma looks_good_trim (s : jsstring) :
  Js.includes "looks good" (Js.toLowerCase (Js.trim s)) = true <->
  Spec.ContainsIgnoringCase "looks good" s.
Proof.
  assert (P : Forall Letters.Plain "looks good")
    by (repeat (constructor; [unfold Letters.Plain; lia|]); constructor).
  rewrite includes_toLowerCase by (discriminate || exact P).
  rewrite includes_spec, <- trim_fold, (containsIgnoringCase_fold _ _ P).
  apply (occurs_trim "l"%unit "d"%unit "ooks good" "looks goo"); reflexivity.
Qed.

(** *** What [trim] leaves *)

Lemma trimEnd_idempotent (s : jsstring) : Js.trimEnd (Js.trimEnd s) = Js.trimEnd s.
Proof.
  induction s as [|c s IH]; [reflexivity|]. cbn [Js.trimEnd]. cbv zeta.
  destruct (Js.isWhiteSpace c && Js.isEmpty (Js.trimEnd s)) eqn:C;
    [reflexivity|].
  cbn [Js.trimEnd]. cbv zeta. now rewrite IH, C.
Qed.

Lemma trimStart_no_leading (s : jsstring) :
  Spec.noLeading Js.isWhiteSpace (Js.trimStart s).
Proof.
  induction s as [|c s IH]; [exact I|]. simpl.
  destruct (Js.isWhiteSpace c) eqn:C; [exact IH | exact C].
Qed.

Lemma trimEnd_no_leading (s : jsstring) :
  Spec.noLeading Js.isWhiteSpace s ->
  Spec.noLeading Js.isWhiteSpace (Js.trimEnd s).
Proof.
  destruct s as [|c s]; [auto|]. simpl. intros C. now rewrite C.
Qed.

Lemma trimStart_fixed (s : jsstring) :
  Spec.noLeading Js.isWhiteSpace s -> Js.trimStart s = s.
Proof. destruct s as [|c s]; [auto|]. simpl. now intros ->. Qed.

(** [trim] leaves nothing to trim. *)
Lemma trim_idempotent (s : jsstring) : Js.trim (Js.trim s) = Js.trim s.
Proof.
  unfold Js.trim.
  rewrite (trimStart_fixed (Js.trimEnd (Js.trimStart s))).
  - apply trimEnd_idempotent.
  - apply trimEnd_no_leading, trimStart_no_leading.
Qed.

Lemma trimEnd_no_trailing (s : jsstring) :
  Spec.noLeading Js.isWhiteSpace (rev (Js.trimEnd s)).
Proof.
  induction s as [|c s IH]; [exact I|]. cbn [Js.trimEnd]. cbv zeta.
  destruct (Js.isWhiteSpace c && Js.isEmpty (Js.trimEnd s)) eqn:C;
    [exact I|].
  cbn [rev]. destruct (Js.trimEnd s) as [|d u] eqn:U.
  - cbn. cbn in C. now rewrite andb_true_r in C.
  - destruct (rev (d :: u)) as [|x r] eqn:R; [|exact IH].
    apply (f_equal (@List.length N)) in R. rewrite length_rev in R.
    discriminate.
Qed.

Lemma isWhiteSpace_spec (c : N) :
  Js.isWhiteSpace c = true <-> Spec.WhiteSpace c.
Proof. unfold Js.isWhiteSpace, Spec.WhiteSpace. cbn [In]. unit_lia. Qed.

Lemma noLeading_space (s : jsstring) :
  Spec.noLeading Js.isWhiteSpace s ->
  forall c, hd_error s = Some c -> ~ Spec.WhiteSpace c.
Proof.
  destruct s as [|x s]; [discriminate|]. cbn. intros H c E W.
  injection E as <-. apply isWhiteSpace_spec in W. congruence.
Qed.

Lemma trim_trimmed (s : jsstring) : Spec.Trimmed (Js.trim s).
Proof.
  split; apply noLeading_space.
  - apply trimEnd_no_leading, trimStart_no_leading.
  - apply trimEnd_no_trailing.
Qed.

Lemma trimStart_split (s : jsstring) :
  exists a, s = a ++ Js.trimStart s /\ Forall Spec.WhiteSpace a.
Proof.
  induction s as [|c s (a & E & F)]; [now exists []|].
  simpl. destruct (Js.isWhiteSpace c) eqn:C.
  - exists (c :: a). split; [simpl; now rewrite <- E|].
    constructor; [now apply isWhiteSpace_spec | exact F].
  - now exists [].
Qed.

Lemma trimEnd_split (s : jsstring) :
  exists b, s = Js.trimEnd s ++ b /\ Forall Spec.WhiteSpace b.
Proof.
  induction s as [|c s (b & E & F)]; [now exists []|].
  cbn [Js.trimEnd]. cbv zeta.
  destruct (Js.isWhiteSpace c) eqn:C; cbn [andb].
  - destruct (Js.trimEnd s) as [|d u].
    + exists (c :: s). split; [reflexivity|]. simpl in E. subst b.
      constructor; [now apply isWhiteSpace_spec | exact F].
    + exists b. split; [|exact F]. cbn. f_equal. exact E.
  - exists b. split; [|exact F]. cbn [app]. f_equal. exact E.
Qed.

Lemma trimStart_spaces (a r : jsstring) :
  Forall Spec.WhiteSpace a -> Js.trimStart (a ++ r) = Js.trimStart r.
Proof.
  induction 1 as [|c a C F IH]; [reflexivity|].
  simpl. apply isWhiteSpace_spec in C. now rewrite C.
Qed.

Lemma trimEnd_spaces (b : jsstring) :
  Forall Spec.WhiteSpace b -> Js.trimEnd b = [].
Proof.
  induction 1 as [|c b C F IH]; [reflexivity|].
  cbn [Js.trimEnd]. cbv zeta. apply isWhiteSpace_spec in C.
  now rewrite IH, C.
Qed.

Lemma trimEnd_last (v b : jsstring) (x : N) :
  ~ Spec.WhiteSpace x -> Forall Spec.WhiteSpace b ->
  Js.trimEnd (v ++ x :: b) = v ++ [x].
Proof.
  intros X F.
  assert (C : Js.isWhiteSpace x = false).
  { destruct (Js.isWhiteSpace x) eqn:C; [|reflexivity].
    now apply isWhiteSpace_spec in C. }
  induction v as [|c v IH]; cbn [app Js.trimEnd]; cbv zeta.
  - now rewrite (trimEnd_spaces b F), C.
  - rewrite IH. replace (Js.isEmpty (v ++ [x])) with false
      by (now destruct v).
    now rewrite andb_false_r.
Qed.

(** [trim] removes exactly the white space at the two ends of a text:
    the result is the one part of the text that neither begins nor ends
    with white space and has only white space before and after it. *)
Lemma trim_spec (s u : jsstring) :
  Spec.TrimOf s u <-> u = Js.trim s.
Proof.
  split.
  - intros (a & b & -> & A & B & H0 & H1). unfold Js.trim.
    rewrite (trimStart_spaces a _ A).
    destruct (rev u) as [|x r] eqn:R.
    + apply (f_equal (@rev N)) in R. rewrite rev_involutive in R.
      subst u. cbn [app rev].
      destruct (trimStart_split b) as (a' & E & _).
      assert (F : Forall Spec.WhiteSpace (Js.trimStart b)).
      { rewrite E in B. apply Forall_app in B. tauto. }
      now rewrite (trimEnd_spaces _ F).
    + apply (f_equal (@rev N)) in R. rewrite rev_involutive in R.
      cbn [rev] in R. subst u.
      assert (X : ~ Spec.WhiteSpace x) by (apply H1; reflexivity).
      rewrite <- app_assoc. cbn [app].
      replace (Js.trimStart (rev r ++ x :: b)) with (rev r ++ x :: b).
      * now rewrite (trimEnd_last _ _ _ X B).
      * destruct (rev r) as [|c v] eqn:V.
        -- cbn [app Js.trimStart].
           destruct (Js.isWhiteSpace x) eqn:C; [|reflexivity].
           now apply isWhiteSpace_spec in C.
        -- cbn [app Js.trimStart].
           destruct (Js.isWhiteSpace c) eqn:C; [|reflexivity].
           apply isWhiteSpace_spec in C. now destruct (H0 c eq_refl).
  - intros ->. unfold Js.trim.
    destruct (trimStart_split s) as (a & Ea & A).
    destruct (trimEnd_split (Js.trimStart s)) as (b & Eb & B).
    exists a, b. split; [now rewrite <- Eb|].
    split; [exact A|]. split; [exact B|]. apply trim_trimmed.
Qed.



Lemma trimmed_fixed (s : jsstring) : Spec.Trimmed s -> Js.trim s = s.
Proof.
  intros T. symmetry. apply trim_spec. exists [], [].
  split; [now rewrite app_nil_r|]. repeat split; try constructor; apply T.
Qed.

(** * The monad *)

Section MonadLaws.
Context {A B C : Type}.

Lemma bind_ret_l (a : A) (f : A -> M B) t : bind (ret a) f t = f a t.
Proof. reflexivity. Qed.

Lemma bind_ret_r (m : M A) t : bind m ret t = m t.
Proof. unfold bind, ret. now destruct (m t) as [[a|e] t']. Qed.

Lemma bind_assoc (m : M A) (f : A -> M B) (g : B -> M C) t :
  bind (bind m f) g t = bind m (fun a => bind (f a) g) t.
Proof. unfold bind. now destruct (m t) as [[a|e] t']. Qed.

Lemma tryCatch_ret (a : A) h t : tryCatch (ret a) h t = (Ok a, t).
Proof. reflexivity. Qed.

Lemma tryCatch_throw (e : JsError) (h : JsError -> M A) t :
  tryCatch (throw e) h t = h e t.
Proof. reflexivity. Qed.
End MonadLaws.

(** * One step of each loop, as equations *)

Section Steps.
Variable w : World.

Lemma getAISuggestions_eq fileName fileContent patch t :
  let req := Bot.chatRequest (Bot.buildPrompt w fileName fileContent patch) in
  Bot.getAISuggestions w fileName fileContent patch t =
  match openai_create w t req with
  | Ok response =>
      (Ok (if Bot.worthPosting (Bot.firstContent response)
           then Some (Bot.AI_MARKER ++ Bot.LF ++ Bot.LF
                      ++ Js.toStr (Bot.firstContent response))
           else None),
       t ++ [EvChatCompletion req])
  | Throw e =>
      (Ok None,
       t ++ [EvChatCompletion req; EvLog LogError "OpenAI API error:" (Some e)])
  end.
Proof.
  intros req. unfold Bot.getAISuggestions, tryCatch, bind,
    Bot.chatCompletionsCreate, request. fold req.
  destruct (openai_create w t req) as [response|e].
  - now destruct (Bot.worthPosting (Bot.firstContent response)).
  - unfold Bot.console_error, request, ret. norm_trace.
Qed.

Lemma runESLint_body_eq results filePath t :
  Bot.runESLint_body w results filePath t =
  if fs_existsSync w t filePath then
    match eslint_lintFiles w (t ++ [EvExistsSync filePath]) [filePath] with
    | Ok found =>
        (Ok (results ++ found),
         t ++ [EvExistsSync filePath; EvLintFiles [filePath]])
    | Throw e =>
        (Ok results,
         t ++ [EvExistsSync filePath; EvLintFiles [filePath];
               EvLog LogWarn ("ESLint failed for " ++ filePath ++ ":")
                 (Some e)])
    end
  else (Ok results, t ++ [EvExistsSync filePath]).
Proof.
  unfold Bot.runESLint_body, bind, Bot.existsSync, request.
  destruct (fs_existsSync w t filePath); [|reflexivity].
  unfold tryCatch, bind, Bot.lintFiles, request.
  destruct (eslint_lintFiles w (t ++ [EvExistsSync filePath]) [filePath]).
  - unfold ret. norm_trace.
  - unfold Bot.console_warn, request, ret. norm_trace.
Qed.

Lemma generateAIReview_body_eq acc f t :
  Bot.generateAIReview_body w acc f t =
  if Regex.testCodeFile (filename f) then
    match fs_readFileSync w t (filename f) with
    | Ok fileContent =>
        let req := Spec.aiRequest w f fileContent in
        match openai_create w (t ++ [EvReadFileSync (filename f)]) req with
        | Ok response =>
            (Ok (if Bot.worthPosting (Bot.firstContent response)
                 then acc ++ [Spec.aiComment f
                                (Bot.AI_MARKER ++ Bot.LF ++ Bot.LF
                                 ++ Js.toStr (Bot.firstContent response))]
                 else acc),
             t ++ [EvReadFileSync (filename f); EvChatCompletion req])
        | Throw e =>
            (Ok acc,
             t ++ [EvReadFileSync (filename f); EvChatCompletion req;
                   EvLog LogError "OpenAI API error:" (Some e)])
        end
    | Throw e =>
        (Ok acc,
         t ++ [EvReadFileSync (filename f);
               EvLog LogWarn
                 ("Failed to generate AI review for " ++ filename f ++ ":")
                 (Some e)])
    end
  else (Ok acc, t).
Proof.
  unfold Bot.generateAIReview_body.
  destruct (Regex.testCodeFile (filename f)); [|reflexivity].
  cbn [negb]. unfold tryCatch at 1. unfold bind at 1.
  unfold Bot.readFileSync at 1. unfold request at 1.
  destruct (fs_readFileSync w t (filename f)) as [fileContent|e].
  - unfold bind. rewrite getAISuggestions_eq. cbv zeta. fold (Spec.aiRequest w f fileContent).
    destruct (openai_create w _ (Spec.aiRequest w f fileContent)) as [response|e].
    + norm_trace. unfold Spec.aiComment.
      destruct (Bot.worthPosting (Bot.firstContent response)) eqn:W;
        [|reflexivity].
      cbn [Js.truthy Js.toStr]. now destruct (Bot.AI_MARKER).
    + norm_trace.
  - unfold Bot.console_warn, bind, request, ret. norm_trace.
Qed.
End Steps.

(** * The lint phase *)

Lemma lintBody_spec (r : ESLintResult) (m : LintMessage) :
  {| path := filePath r; cline := line m; body := Bot.lintBody m |}
  = Spec.lintErrorComment r m.
Proof.
  unfold Spec.lintErrorComment, Bot.lintBody. f_equal.
  destruct (ruleId m) as [id|]; [|reflexivity]. now destruct id.
Qed.

Lemma lint_messages (r : ESLintResult) (ms : list LintMessage) acc :
  fold_left (Bot.pushLintMessage r) ms acc
  = acc ++ map (Spec.lintErrorComment r) (filter Spec.isError ms).
Proof.
  revert acc. induction ms as [|m ms IH]; intros acc; simpl.
  - now rewrite app_nil_r.
  - rewrite IH. unfold Bot.pushLintMessage, Spec.isError.
    destruct (severity m =? 2); [|reflexivity].
    rewrite lintBody_spec, <- app_assoc. reflexivity.
Qed.

Lemma lintPhase_spec (results : list ESLintResult) acc :
  Bot.lintPhase results acc = acc ++ Spec.lintErrorComments results.
Proof.
  unfold Bot.lintPhase, Spec.lintErrorComments.
  revert acc. induction results as [|r rs IH]; intros acc; simpl.
  - now rewrite app_nil_r.
  - rewrite IH, lint_messages, <- app_assoc. reflexivity.
Qed.

(** * The loops *)

Section Loops.
Variable w : World.

Lemma runESLint_loop (paths : list jsstring) acc t :
  exists found new,
    forOf (Bot.runESLint_body w) paths acc t = (Ok (acc ++ found), t ++ new)
    /\ filter Spec.isExistsSync new = map EvExistsSync paths.
Proof.
  revert acc t. induction paths as [|p ps IH]; intros acc t.
  - exists [], []. simpl. unfold ret. now rewrite !app_nil_r.
  - cbn [forOf]. unfold bind. rewrite runESLint_body_eq.
    destruct (fs_existsSync w t p).
    + destruct (eslint_lintFiles w (t ++ [EvExistsSync p]) [p]) as [r|e].
      * destruct (IH (acc ++ r) (t ++ [EvExistsSync p; EvLintFiles [p]]))
          as (found & new & -> & F).
        exists (r ++ found), ([EvExistsSync p; EvLintFiles [p]] ++ new).
        split; [now rewrite !app_assoc|]. simpl. now rewrite F.
      * destruct (IH acc (t ++ [EvExistsSync p; EvLintFiles [p];
                   EvLog LogWarn ("ESLint failed for " ++ p ++ ":")
                     (Some e)]))
          as (found & new & -> & F).
        exists found, ([EvExistsSync p; EvLintFiles [p];
                   EvLog LogWarn ("ESLint failed for " ++ p ++ ":")
                     (Some e)] ++ new).
        split; [now rewrite !app_assoc|]. simpl. now rewrite F.
    + destruct (IH acc (t ++ [EvExistsSync p])) as (found & new & -> & F).
      exists found, ([EvExistsSync p] ++ new).
      split; [now rewrite !app_assoc|]. simpl. now rewrite F.
Qed.

Lemma generateAIReview_loop (files : list ChangedFile) acc t :
  exists ai new,
    forOf (Bot.generateAIReview_body w) files acc t = (Ok (acc ++ ai), t ++ new)
    /\ Spec.AiComments files ai
    /\ filter Spec.isReadFileSync new
       = map EvReadFileSync (filter Regex.testCodeFile (map filename files)).
Proof.
  revert acc t. induction files as [|f fs IH]; intros acc t.
  - exists [], []. simpl. unfold ret. rewrite !app_nil_r.
    repeat split. constructor.
  - cbn [forOf]. unfold bind. rewrite generateAIReview_body_eq.
    cbn [map filter].
    destruct (Regex.testCodeFile (filename f)).
    + destruct (fs_readFileSync w t (filename f)) as [fileContent|e].
      * cbv zeta.
        destruct (openai_create w _ (Spec.aiRequest w f fileContent)) as [resp|e].
        -- destruct (Bot.worthPosting (Bot.firstContent resp)).
           ++ destruct (IH (acc ++ [Spec.aiComment f
                        (Bot.AI_MARKER ++ Bot.LF ++ Bot.LF
                         ++ Js.toStr (Bot.firstContent resp))])
                        (t ++ [EvReadFileSync (filename f);
                               EvChatCompletion (Spec.aiRequest w f fileContent)]))
                as (ai & new & -> & H & F).
              eexists (_ :: ai), (_ :: _ :: new).
              split; [rewrite <- !app_assoc; reflexivity|].
              split; [now apply Spec.ai_some|]. simpl. now rewrite F.
           ++ destruct (IH acc
                        (t ++ [EvReadFileSync (filename f);
                               EvChatCompletion (Spec.aiRequest w f fileContent)]))
                as (ai & new & -> & H & F).
              exists ai. eexists (_ :: _ :: new).
              split; [rewrite <- !app_assoc; reflexivity|].
              split; [now apply Spec.ai_none|]. simpl. now rewrite F.
        -- destruct (IH acc
                      (t ++ [EvReadFileSync (filename f);
                             EvChatCompletion (Spec.aiRequest w f fileContent);
                             EvLog LogError "OpenAI API error:" (Some e)]))
             as (ai & new & -> & H & F).
           exists ai. eexists (_ :: _ :: _ :: new).
           split; [rewrite <- !app_assoc; reflexivity|].
           split; [now apply Spec.ai_none|]. simpl. now rewrite F.
      * destruct (IH acc
                    (t ++ [EvReadFileSync (filename f);
                           EvLog LogWarn
                             ("Failed to generate AI review for "
                              ++ filename f ++ ":") (Some e)]))
          as (ai & new & -> & H & F).
        exists ai. eexists (_ :: _ :: new).
        split; [rewrite <- !app_assoc; reflexivity|].
        split; [now apply Spec.ai_none|]. simpl. now rewrite F.
    + destruct (IH acc t) as (ai & new & -> & H & F).
      exists ai, new. split; [reflexivity|].
      split; [now apply Spec.ai_none | exact F].
Qed.

Lemma aiComments_paths files ai :
  Spec.AiComments files ai -> Spec.Subseq (map path ai) (map filename files).
Proof.
  induction 1; simpl; constructor; assumption.
Qed.

Lemma subseq_In {X} (l1 l2 : list X) x :
  Spec.Subseq l1 l2 -> In x l1 -> In x l2.
Proof.
  induction 1; simpl; intuition.
Qed.

(** Where the paths of the assembled comments come from: a lint comment
    carries the [filePath] of a result, an AI comment the [filename] of
    a file. *)
Lemma assembled_comment_paths (files : list ChangedFile)
    (results : list ESLintResult) t :
  exists comments new,
    Bot.generateAIReview w files results t = (Ok comments, t ++ new)
    /\ forall c,
         In c comments ->
         In (path c) (map filePath results)
         \/ In (path c) (map filename files).
Proof.
  unfold Bot.generateAIReview.
  destruct (generateAIReview_loop files (Bot.lintPhase results []) t)
    as (ai & new & E & H & _).
  exists (Bot.lintPhase results [] ++ ai), new. split; [exact E|].
  intros c Hc. apply in_app_or in Hc. destruct Hc as [Hc | Hc].
  - left. rewrite lintPhase_spec in Hc. cbn [app] in Hc.
    unfold Spec.lintErrorComments in Hc. apply in_flat_map in Hc.
    destruct Hc as (r & Hr & Hc). apply in_map_iff in Hc.
    destruct Hc as (m & <- & _). cbn [path Spec.lintErrorComment].
    now apply in_map.
  - right. apply (subseq_In (map path ai)).
    + now apply aiComments_paths.
    + now apply in_map.
Qed.

(** * The publisher *)

Lemma comments_copy (comments : list ReviewComment) :
  map (fun comment =>
         {| path := path comment; cline := cline comment;
            body := body comment |}) comments = comments.
Proof.
  induction comments as [|[p l b] cs IH]; simpl; [reflexivity | now rewrite IH].
Qed.

Lemma fallback_loop owner repo prNumber (cs : list ReviewComment) t :
  exists new,
    forOf (Bot.postFallback w owner repo prNumber) cs tt t = (Ok tt, t ++ new)
    /\ filter Spec.isCreateComment new = map (Spec.fallbackPost owner repo prNumber) cs
    /\ filter Spec.isCreateReview new = [].
Proof.
  revert t. induction cs as [|c cs IH]; intros t.
  - exists []. simpl. unfold ret. now rewrite app_nil_r.
  - cbn [forOf]. unfold bind, Bot.postFallback at 1, tryCatch,
      Bot.issuesCreateComment, request.
    destruct (octokit_createComment w t owner repo prNumber
                (Bot.fallbackBody c)) as [[]|e].
    + destruct (IH (t ++ [Spec.fallbackPost owner repo prNumber c]))
        as (new & E & F & G).
      unfold Spec.fallbackPost in E at 1. rewrite E.
      exists (Spec.fallbackPost owner repo prNumber c :: new).
      split; [now rewrite <- app_assoc|]. simpl. now rewrite F, G.
    + unfold Bot.console_error, request.
      destruct (IH ((t ++ [Spec.fallbackPost owner repo prNumber c])
                    ++ [EvLog LogError
                          ("Failed to post comment for " ++ path c ++ ":")
                          (Some e)]))
        as (new & E & F & G).
      unfold Spec.fallbackPost in E at 1 2. rewrite E.
      eexists (Spec.fallbackPost owner repo prNumber c :: _ :: new).
      split; [rewrite <- !app_assoc; reflexivity|]. simpl. now rewrite F, G.
Qed.

Lemma postReviewComments_empty owner repo prNumber t :
  Bot.postReviewComments w owner repo prNumber [] t
  = (octokit_createComment w t owner repo prNumber Bot.NO_ISSUES_BODY,
     t ++ [EvCreateComment owner repo prNumber Bot.NO_ISSUES_BODY]).
Proof. reflexivity. Qed.

Lemma postReviewComments_batch owner repo prNumber c cs t :
  let comments := c :: cs in
  let review :=
    EvCreateReview owner repo prNumber "COMMENT" (Bot.reviewBody comments)
      comments in
  match octokit_createReview w t owner repo prNumber "COMMENT"
          (Bot.reviewBody comments) comments with
  | Ok _ =>
      Bot.postReviewComments w owner repo prNumber comments t
      = (Ok tt, t ++ [review])
  | Throw e =>
      exists new,
        Bot.postReviewComments w owner repo prNumber comments t
        = (Ok tt,
           t ++ review
             :: EvLog LogError
                  "Failed to create review, posting individual comments:"
                  (Some e)
             :: new)
        /\ filter Spec.isCreateComment new
           = map (Spec.fallbackPost owner repo prNumber) (firstn 10 comments)
        /\ filter Spec.isCreateReview new = []
  end.
Proof.
  intros comments review.
  unfold Bot.postReviewComments.
  replace (Z.of_nat (List.length comments) =? 0) with false
    by (symmetry; apply Z.eqb_neq; simpl; lia).
  rewrite comments_copy.
  unfold tryCatch, Bot.pullsCreateReview, request. fold review.
  destruct (octokit_createReview w t owner repo prNumber "COMMENT"
              (Bot.reviewBody comments) comments) as [[]|e]; [reflexivity|].
  unfold bind, Bot.console_error, request.
  destruct (fallback_loop owner repo prNumber (firstn 10 comments)
              ((t ++ [review])
               ++ [EvLog LogError
                     "Failed to create review, posting individual comments:"
                     (Some e)]))
    as (new & E & F & G).
  exists new. rewrite E. split; [now rewrite <- !app_assoc | auto].
Qed.
End Loops.

(** * The whole run *)

Section Run.
Variable w : World.

Lemma postReviewComments_publishes owner repo prNumber comments t :
  exists res new,
    Bot.postReviewComments w owner repo prNumber comments t = (res, t ++ new)
    /\ existsb Spec.isPublisherCall new = true.
Proof.
  destruct comments as [|c cs].
  - rewrite postReviewComments_empty. eexists _, [_]. split; reflexivity.
  - pose proof (postReviewComments_batch w owner repo prNumber c cs t) as H.
    cbv zeta in H.
    destruct (octokit_createReview w t owner repo prNumber "COMMENT"
                (Bot.reviewBody (c :: cs)) (c :: cs)) as [[]|e].
    + rewrite H. eexists _, [_]. split; reflexivity.
    + destruct H as (new & -> & _). eexists _, (_ :: _ :: new).
      split; reflexivity.
Qed.

Lemma reviewPullRequest_valid owner repo prNumber t :
  Spec.ValidContext w owner repo prNumber ->
  Bot.reviewPullRequest w t
  = tryCatch (Bot.reviewSteps w owner repo prNumber)
      (fun error =>
         Bot.console_error "Error during review:" error ;; throw error)
      (t ++ [Spec.startLog owner repo prNumber]).
Proof.
  intros (Eo & No & Er & Nr & En & Nn).
  unfold Bot.reviewPullRequest. cbv zeta. rewrite Eo, Er, En.
  cbn [Js.truthy Js.truthyNumber Js.toStr Js.toNum].
  destruct owner; [congruence|]. destruct repo; [congruence|].
  replace (prNumber =? 0) with false by (symmetry; now apply Z.eqb_neq).
  reflexivity.
Qed.

(** The steps after a listing that keeps some file: they reach the
    publisher whatever the analyzer and the completion service do. *)
Lemma reviewSteps_listed owner repo prNumber files t :
  octokit_listFiles w t owner repo prNumber = Ok files ->
  let t1 := t ++ [EvListFiles owner repo prNumber; Spec.foundLog files] in
  match filter Bot.isCodeFile files with
  | [] =>
      Bot.reviewSteps w owner repo prNumber t
      = (Ok tt, t1 ++ [EvLog LogInfo "No code files to review" None])
  | _ :: _ =>
      exists comments before after,
        Bot.reviewSteps w owner repo prNumber t
        = (fst (Bot.postReviewComments w owner repo prNumber comments
                  (t1 ++ before)),
           t1 ++ before ++ after)
        /\ existsb Spec.isPublisherCall after = true
  end.
Proof.
  intros L t1.
  assert (T : (t ++ [EvListFiles owner repo prNumber])
              ++ [EvLog LogInfo
                    ("Found "
                     ++ Js.numberToString (Z.of_nat (List.length files))
                     ++ " changed files") None] = t1)
    by (unfold t1, Spec.foundLog; now rewrite <- app_assoc).
  destruct (filter Bot.isCodeFile files) as [|f kept] eqn:K;
    unfold Bot.reviewSteps, Bot.getChangedFiles;
    unfold bind at 1; unfold Bot.pullsListFiles, request; rewrite L;
    unfold bind at 1; unfold Bot.console_log at 1; unfold request;
    rewrite T, K.
  - reflexivity.
  - replace (Z.of_nat (List.length (f :: kept)) =? 0) with false
      by (symmetry; apply Z.eqb_neq; simpl; lia).
    unfold Bot.runESLint, Bot.generateAIReview.
    destruct (runESLint_loop w (map filename (f :: kept)) [] t1)
      as (found & n1 & E1 & _).
    unfold bind at 1. rewrite E1.
    destruct (generateAIReview_loop w (f :: kept)
                (Bot.lintPhase ([] ++ found) []) (t1 ++ n1))
      as (ai & n2 & E2 & _).
    unfold bind at 1. rewrite E2.
    set (comments := Bot.lintPhase ([] ++ found) [] ++ ai).
    destruct (postReviewComments_publishes owner repo prNumber comments
                ((t1 ++ n1) ++ n2)) as (res & n3 & E3 & P).
    exists comments, (n1 ++ n2).
    unfold bind. rewrite (app_assoc t1 n1 n2), E3. cbn [fst].
    destruct res as [[]|e].
    + exists (n3 ++ [EvLog LogInfo
                  ("Review completed! Posted "
                   ++ Js.numberToString (Z.of_nat (List.length comments))
                   ++ " comments") None]).
      split.
      * unfold Bot.console_log, request. now rewrite <- !app_assoc.
      * rewrite existsb_app, P. reflexivity.
    + exists n3. split; [now rewrite <- !app_assoc | exact P].
Qed.


Lemma reviewSteps_extends owner repo prNumber t :
  exists res new,
    Bot.reviewSteps w owner repo prNumber t
    = (res, t ++ EvListFiles owner repo prNumber :: new).
Proof.
  destruct (octokit_listFiles w t owner repo prNumber) as [files|e] eqn:L.
  - pose proof (reviewSteps_listed owner repo prNumber files t L) as H.
    cbv zeta in H. destruct (filter Bot.isCodeFile files).
    + rewrite H. eexists _, [_; _]. rewrite <- app_assoc. reflexivity.
    + destruct H as (comments & before & after & -> & _).
      eexists _, (_ :: before ++ after). rewrite <- !app_assoc. reflexivity.
  - unfold Bot.reviewSteps, Bot.getChangedFiles, bind, Bot.pullsListFiles,
      request. rewrite L. now eexists _, [].
Qed.
End Run.

(** * The properties of the specification *)

(** C2.  The assembled list is the lint-error comments of all results, in
    the order of the results and of their messages, followed by the AI
    comments, at most one per file in the order of the files; it is
    never sorted or merged. *)
Theorem lint_comments_precede_ai_comments
    (w : World) (files : list ChangedFile) (results : list ESLintResult)
    (t : Trace) :
  exists ai new,
    Bot.generateAIReview w files results t
    = (Ok (Spec.lintErrorComments results ++ ai), t ++ new)
    /\ Spec.AiComments files ai
    /\ Spec.Subseq (map path ai) (map filename files).
Proof.
  unfold Bot.generateAIReview.
  destruct (generateAIReview_loop w files (Bot.lintPhase results []) t)
    as (ai & new & E & H & _).
  exists ai, new. rewrite E, lintPhase_spec. cbn [app].
  repeat split; [exact H | now apply aiComments_paths].
Qed.

(** C5.  The lint phase emits exactly the findings of severity 2, each at
    its line, marked as a lint error, with the rule id when there is one;
    a finding of another severity, a warning among them, emits nothing. *)
Theorem lint_errors_only (results : list ESLintResult) :
  Bot.lintPhase results [] = Spec.lintErrorComments results
  /\ (forall c,
        In c (Bot.lintPhase results []) <->
        exists r m,
          In r results /\ In m (messages r) /\ severity m = 2
          /\ c = Spec.lintErrorComment r m)
  /\ List.length (Bot.lintPhase results [])
     = List.length (filter Spec.isError (flat_map messages results))
  /\ (forall r m,
        cline (Spec.lintErrorComment r m) = line m
        /\ Js.startsWith "**ESLint Error**: " (body (Spec.lintErrorComment r m))
           = true
        /\ forall id, ruleId m = Some id -> id <> "" ->
             Spec.EndsWith (" (" ++ id ++ ")")
               (body (Spec.lintErrorComment r m))).
Proof.
  assert (E : Bot.lintPhase results [] = Spec.lintErrorComments results)
    by (now rewrite lintPhase_spec).
  split; [exact E|]. rewrite E. split; [|split].
  - intros c. unfold Spec.lintErrorComments. rewrite in_flat_map. split.
    + intros (r & Hr & Hc). apply in_map_iff in Hc.
      destruct Hc as (m & <- & Hm). apply filter_In in Hm.
      destruct Hm as [Hm S]. exists r, m.
      split; [exact Hr|]. split; [exact Hm|]. split; [|reflexivity].
      unfold Spec.isError in S. now apply Z.eqb_eq in S.
    + intros (r & m & Hr & Hm & S & ->). exists r. split; [exact Hr|].
      apply in_map. apply filter_In. split; [exact Hm|].
      unfold Spec.isError. now apply Z.eqb_eq.
  - clear E. unfold Spec.lintErrorComments.
    induction results as [|r rs IH]; [reflexivity|]. simpl.
    rewrite length_app, filter_app, length_app, length_map, IH. reflexivity.
  - intros r m. split; [reflexivity|]. split; [reflexivity|].
    intros id Hid Nid. unfold Spec.lintErrorComment, Spec.EndsWith.
    cbn [body]. rewrite Hid.
    destruct id; [congruence|]. cbn [Js.isEmpty].
    exists ("**ESLint Error**: " ++ message m).
    now rewrite sapp_assoc.
Qed.

(** C7.  On the empty list the publisher posts the one general comment
    and nothing else; on a list with an element its first request is the
    batched review of kind COMMENT with the list as it is, and no second
    review is asked for. *)
Theorem publisher_general_comment_or_one_batch
    (w : World) (owner repo : jsstring) (prNumber : Z) (t : Trace) :
  Bot.postReviewComments w owner repo prNumber [] t
  = (octokit_createComment w t owner repo prNumber Bot.NO_ISSUES_BODY,
     t ++ [EvCreateComment owner repo prNumber Bot.NO_ISSUES_BODY])
  /\ forall c cs,
       exists res new,
         Bot.postReviewComments w owner repo prNumber (c :: cs) t
         = (res,
            t ++ EvCreateReview owner repo prNumber "COMMENT"
                   (Bot.reviewBody (c :: cs)) (c :: cs) :: new)
         /\ filter Spec.isCreateReview new = [].
Proof.
  split; [reflexivity|]. intros c cs.
  pose proof (postReviewComments_batch w owner repo prNumber c cs t) as H.
  cbv zeta in H.
  destruct (octokit_createReview w t owner repo prNumber "COMMENT"
              (Bot.reviewBody (c :: cs)) (c :: cs)) as [[]|e].
  - exists (Ok tt), []. now rewrite H.
  - destruct H as (new & -> & _ & G). eexists _, (_ :: new).
    split; [reflexivity|]. exact G.
Qed.

(** C6.  When the batched review fails on a list of more than ten
    comments, the single posts asked for are those of the first ten
    comments, in order, one each, whichever of them fail; the publisher
    then returns normally. *)
Theorem fallback_posts_first_ten
    (w : World) (owner repo : jsstring) (prNumber : Z)
    (comments : list ReviewComment) (t : Trace) (e : JsError) :
  (10 < List.length comments)%nat ->
  octokit_createReview w t owner repo prNumber "COMMENT"
    (Bot.reviewBody comments) comments = Throw e ->
  exists new,
    Bot.postReviewComments w owner repo prNumber comments t
    = (Ok tt,
       t ++ EvCreateReview owner repo prNumber "COMMENT"
              (Bot.reviewBody comments) comments
         :: EvLog LogError
              "Failed to create review, posting individual comments:" (Some e)
         :: new)
    /\ filter Spec.isCreateComment new
       = map (Spec.fallbackPost owner repo prNumber) (firstn 10 comments)
    /\ List.length (filter Spec.isCreateComment new) = 10%nat
    /\ filter Spec.isCreateReview new = [].
Proof.
  intros L R. destruct comments as [|c cs]; [simpl in L; lia|].
  pose proof (postReviewComments_batch w owner repo prNumber c cs t) as H.
  cbv zeta in H. rewrite R in H. destruct H as (new & E & F & G).
  exists new. repeat split; auto.
  rewrite F, length_map, length_firstn. lia.
Qed.

Lemma fallback_posts_first_ten_witness :
  let w := Examples.ciWorld (Some "7") Examples.codeChange in
  exists new,
    Bot.postReviewComments w "octo" "app" 7 Examples.fifteen []
    = (Ok tt,
       [] ++ EvCreateReview "octo" "app" 7 "COMMENT"
               (Bot.reviewBody Examples.fifteen) Examples.fifteen
          :: EvLog LogError
               "Failed to create review, posting individual comments:"
               (Some (Error "422 Unprocessable Entity"))
          :: new)
    /\ filter Spec.isCreateComment new
       = map (Spec.fallbackPost "octo" "app" 7) (firstn 10 Examples.fifteen)
    /\ List.length (filter Spec.isCreateComment new) = 10%nat
    /\ filter Spec.isCreateReview new = [].
Proof.
  intros w.
  apply (fallback_posts_first_ten w "octo" "app" 7 Examples.fifteen []
           (Error "422 Unprocessable Entity")).
  - vm_compute. lia.
  - reflexivity.
Defined.

Lemma firstContent_text (response : ChatResponse) :
  Bot.firstContent response = option_map Js.trim (Spec.responseText response).
Proof.
  unfold Bot.firstContent, Spec.responseText.
  destruct (choices response) as [|[[[s|]|]] ?]; reflexivity.
Qed.

Lemma worthPosting_true (s : jsstring) :
  Bot.worthPosting (Some (Js.trim s)) = true <->
  50 < Js.length (Js.trim s) /\ ~ Spec.ContainsIgnoringCase "looks good" s.
Proof.
  unfold Bot.worthPosting. split.
  - intros H. apply andb_true_iff in H. destruct H as [H L].
    apply andb_true_iff in H. destruct H as [_ I].
    rewrite Z.gtb_ltb in L. apply Z.ltb_lt in L. split; [exact L|].
    intros C. apply looks_good_trim in C. rewrite C in I. discriminate.
  - intros [L N]. rewrite !andb_true_iff. split; [split|].
    + destruct (Js.trim s); [|reflexivity].
      unfold Js.length in L. simpl in L. lia.
    + destruct (Js.includes "looks good" (Js.toLowerCase (Js.trim s))) eqn:I;
        [|reflexivity].
      exfalso. apply N. now apply looks_good_trim.
    + rewrite Z.gtb_ltb. now apply Z.ltb_lt.
Qed.

Lemma worthPosting_false (text : option jsstring) :
  Bot.worthPosting (option_map Js.trim text) = false <->
  text = None
  \/ exists s, text = Some s
       /\ (Js.length (Js.trim s) <= 50
           \/ Spec.ContainsIgnoringCase "looks good" s).
Proof.
  destruct text as [s|]; cbn [option_map].
  - rewrite <- not_true_iff_false, worthPosting_true. split.
    + intros H. right. exists s. split; [reflexivity|].
      destruct (Z.le_gt_cases (Js.length (Js.trim s)) 50) as [L|L]; [now left|].
      right.
      destruct (Js.includes "looks good" (Js.toLowerCase (Js.trim s))) eqn:I.
      * now apply looks_good_trim.
      * exfalso. apply H. split; [lia|]. rewrite <- looks_good_trim. congruence.
    + intros [D | (s' & E & [L | C])] [L' N]; try discriminate;
        injection E as <-; [lia | tauto].
  - split; [now left | reflexivity].
Qed.

(** C3.  After a response of the completion service, the suggestion is
    absent exactly when the response has no text, or its trimmed text has
    at most 50 characters, or the text contains "looks good" in any case
    of letters; then the file gets no AI comment.  In particular "Looks
    good!" gives none, and a text of trimmed length 80 without the
    phrase gives the one comment made of the marker and the trimmed
    text; so does a text of 80 characters that neither begins nor ends
    with white space, with the text itself.  The length that counts is
    that of the trimmed text: 80 characters that begin with 30 spaces
    give no comment. *)
Theorem suggestion_post_filter
    (w : World) (acc : list ReviewComment) (f : ChangedFile) (t : Trace)
    (fileContent : jsstring) (response : ChatResponse) :
  Regex.testCodeFile (filename f) = true ->
  fs_readFileSync w t (filename f) = Ok fileContent ->
  openai_create w (t ++ [EvReadFileSync (filename f)])
    (Spec.aiRequest w f fileContent) = Ok response ->
  let suggestion :=
    fst (Bot.getAISuggestions w (filename f) fileContent (patch f)
           (t ++ [EvReadFileSync (filename f)])) in
  let comments := fst (Bot.generateAIReview_body w acc f t) in
  (suggestion = Ok None <->
   Spec.responseText response = None
   \/ exists s, Spec.responseText response = Some s
        /\ (Js.length (Js.trim s) <= 50
            \/ Spec.ContainsIgnoringCase "looks good" s))
  /\ (suggestion = Ok None -> comments = Ok acc)
  /\ (Spec.responseText response = Some "Looks good!" ->
      suggestion = Ok None /\ comments = Ok acc)
  /\ (forall s,
        Spec.responseText response = Some s ->
        50 < Js.length (Js.trim s) ->
        ~ Spec.ContainsIgnoringCase "looks good" s ->
        suggestion = Ok (Some (Spec.aiBody s))
        /\ comments = Ok (acc ++ [Spec.aiComment f (Spec.aiBody s)]))
  /\ (forall s,
        Spec.responseText response = Some s ->
        Js.length (Js.trim s) = 80 ->
        ~ Spec.ContainsIgnoringCase "looks good" s ->
        comments = Ok (acc ++ [Spec.aiComment f (Spec.aiBody s)]))
  /\ (forall s,
        Spec.responseText response = Some s ->
        List.length s = 80%nat ->
        Spec.Trimmed s ->
        ~ Spec.ContainsIgnoringCase "looks good" s ->
        comments
        = Ok (acc ++ [Spec.aiComment f
                        (Bot.AI_MARKER ++ Bot.LF ++ Bot.LF ++ s)])).
Proof.
  intros C R O suggestion comments.
  assert (ES : suggestion
               = Ok (if Bot.worthPosting (Bot.firstContent response)
                     then Some (Bot.AI_MARKER ++ Bot.LF ++ Bot.LF
                                ++ Js.toStr (Bot.firstContent response))
                     else None)).
  { unfold suggestion. rewrite getAISuggestions_eq. cbv zeta.
    unfold Spec.aiRequest in O. now rewrite O. }
  assert (EC : comments
               = Ok (if Bot.worthPosting (Bot.firstContent response)
                     then acc ++ [Spec.aiComment f
                                    (Bot.AI_MARKER ++ Bot.LF ++ Bot.LF
                                     ++ Js.toStr (Bot.firstContent response))]
                     else acc)).
  { unfold comments. rewrite generateAIReview_body_eq, C, R. cbv zeta.
    now rewrite O. }
  clearbody suggestion comments. subst suggestion comments.
  rewrite firstContent_text.
  assert (F : forall s,
             Spec.responseText response = Some s ->
             50 < Js.length (Js.trim s) ->
             ~ Spec.ContainsIgnoringCase "looks good" s ->
             Bot.worthPosting (option_map Js.trim (Spec.responseText response))
             = true).
  { intros s E L N. rewrite E. now apply worthPosting_true. }
  assert (G : Bot.worthPosting
                (option_map Js.trim (Spec.responseText response)) = false <->
              Spec.responseText response = None
              \/ exists s, Spec.responseText response = Some s
                   /\ (Js.length (Js.trim s) <= 50
                       \/ Spec.ContainsIgnoringCase "looks good" s))
    by apply worthPosting_false.
  split; [|split; [|split; [|split; [|split]]]].
  - rewrite <- G.
    destruct (Bot.worthPosting _); split; congruence.
  - destruct (Bot.worthPosting _); [discriminate | reflexivity].
  - intros E. rewrite E. split; reflexivity.
  - intros s E L N. rewrite (F s E L N), E. split; reflexivity.
  - intros s E L N. rewrite (F s E ltac:(lia) N), E. reflexivity.
  - intros s E L T N.
    assert (L' : 50 < Js.length (Js.trim s))
      by (rewrite (trimmed_fixed s T); unfold Js.length; lia).
    rewrite (F s E L' N), E. cbn [option_map Js.toStr].
    now rewrite (trimmed_fixed s T).
Qed.

(** C4.  A file for which the suggestion generator returns a text
    adds one AI comment, with that text, at the start line of its patch;
    no file adds more than one.  The start line is 1 without a patch or
    without a hunk header in it, and otherwise the new-file start line of
    the first hunk header, for start lines below 2^53; in particular
    when the first header is written in full, [@@ -a,b +c,d @@], and
    [@@ -10,5 +20,6 @@] gives 20.  A header is recognised by the part
    [@@ -a[,b] +c] that the pattern of the source reads. *)
Theorem ai_comment_anchor
    (w : World) (acc : list ReviewComment) (f : ChangedFile) (t : Trace) :
  (forall fileContent text,
     Regex.testCodeFile (filename f) = true ->
     fs_readFileSync w t (filename f) = Ok fileContent ->
     fst (Bot.getAISuggestions w (filename f) fileContent (patch f)
            (t ++ [EvReadFileSync (filename f)])) = Ok (Some text) ->
     fst (Bot.generateAIReview_body w acc f t)
     = Ok (acc ++ [ {| path := filename f;
                       cline := Bot.startLine (patch f);
                       body := text |} ]))
  /\ (exists new,
        Bot.generateAIReview_body w acc f t = (Ok acc, t ++ new)
        \/ exists text,
             Bot.generateAIReview_body w acc f t
             = (Ok (acc ++ [ {| path := filename f;
                                cline := Bot.startLine (patch f);
                                body := text |} ]),
                t ++ new))
  /\ Bot.startLine None = 1
  /\ (forall p, Spec.NoHunkHeader p -> Bot.startLine (Some p) = 1)
  /\ (forall p c,
        Spec.FirstHunkHeader p c ->
        Spec.decimalValue c < 2 ^ 53 ->
        Bot.startLine (Some p) = Spec.decimalValue c)
  /\ (forall pre s c,
        Spec.FullHunkHeader s c ->
        Spec.NoHunkHeaderBefore (List.length pre) (pre ++ s) ->
        Spec.decimalValue c < 2 ^ 53 ->
        Bot.startLine (Some (pre ++ s)) = Spec.decimalValue c)
  /\ (forall pre rest,
        let p := pre ++ "@@ -10,5 +20,6 @@" ++ rest in
        Spec.NoHunkHeaderBefore (List.length pre) p ->
        Bot.startLine (Some p) = 20)
  /\ Bot.startLine (Some "@@ -10,5 +20,6 @@") = 20.
Proof.
  split; [|split; [|split; [|split; [|split; [|split; [|split]]]]]].
  - intros fileContent text C R S.
    rewrite generateAIReview_body_eq, C, R. cbv zeta.
    rewrite getAISuggestions_eq in S. cbv zeta in S.
    fold (Spec.aiRequest w f fileContent) in S.
    destruct (openai_create w _ (Spec.aiRequest w f fileContent))
      as [response|e]; cbn [fst] in S |- *; [|discriminate].
    destruct (Bot.worthPosting (Bot.firstContent response));
      [|discriminate].
    injection S as <-. reflexivity.
  - rewrite generateAIReview_body_eq.
    destruct (Regex.testCodeFile (filename f)).
    + destruct (fs_readFileSync w t (filename f)) as [fileContent|e].
      * cbv zeta.
        destruct (openai_create w _ (Spec.aiRequest w f fileContent))
          as [response|e].
        -- destruct (Bot.worthPosting (Bot.firstContent response)).
           ++ eexists. right. eexists. reflexivity.
           ++ eexists. left. reflexivity.
        -- eexists. left. reflexivity.
      * eexists. left. reflexivity.
    + exists []. left. now rewrite app_nil_r.
  - reflexivity.
  - apply startLine_none.
  - intros p c H _. now apply startLine_first.
  - intros pre s c H B _. apply startLine_first.
    exists pre, s. split; [reflexivity|]. split; [|exact B].
    now apply full_header.
  - intros pre rest p H.
    change 20 with (Spec.decimalValue "20"). apply startLine_first.
    exists pre, ("@@ -10,5 +20,6 @@" ++ rest).
    split; [reflexivity|]. split; [|exact H].
    apply full_header. exists "10", "5", "6", rest.
    repeat split; discriminate.
  - reflexivity.
Qed.

Lemma ai_comment_anchor_witness :
  fst (Bot.generateAIReview_body
         (Examples.ciWorld (Some "7") Examples.codeChange) []
         Examples.file_a [])
  = Ok ([] ++ [ {| path := "src/a.ts"; cline := 20;
                   body := Spec.aiBody Examples.advice |} ])
  /\ Bot.startLine (patch Examples.file_c) = 1
  /\ Bot.startLine (patch Examples.file_a) = Spec.decimalValue "20"
  /\ Bot.startLine (Some ("+++ b/src/a.ts " ++ "@@ -1,2 +1,3 @@"))
     = Spec.decimalValue "1"
  /\ Bot.startLine (Some "@@ -10,5 +20,6 @@ function f() {") = 20.
Proof.
  pose proof (ai_comment_anchor
                (Examples.ciWorld (Some "7") Examples.codeChange) []
                Examples.file_a []) as (A & _ & _ & N & F & H & P & _).
  split; [|split; [|split; [|split]]].
  - apply (A "export const user_name = load();" (Spec.aiBody Examples.advice));
      reflexivity.
  - apply N. apply matchHunkHeader_none. reflexivity.
  - apply F; [|reflexivity].
    exists "", "@@ -10,5 +20,6 @@ export function load() {".
    split; [reflexivity|]. split.
    + apply hunkHeaderAt_spec. reflexivity.
    + intros pre s c _ L. simpl in L. lia.
  - apply (H "+++ b/src/a.ts " "@@ -1,2 +1,3 @@" "1"); [| |reflexivity].
    + exists "1", "2", "3", "". repeat split; discriminate.
    + intros pre s c E L M. apply hunkHeaderAt_spec in M.
      assert (S : In s (map (fun n => skipn n ("+++ b/src/a.ts "
                                                  ++ "@@ -1,2 +1,3 @@"))
                          (seq 0 15))).
      { apply in_map_iff. exists (List.length pre). split.
        - rewrite E. clear. induction pre; simpl; auto.
        - apply in_seq. simpl in L. lia. }
      cbn in S.
      repeat (destruct S as [<- | S]; [vm_compute in M; discriminate M|]).
      exact S.
  - apply (P "" " function f() {"). intros pre s c _ L. simpl in L. lia.
Defined.

(** C8.  With a valid context and a listing in which no file has a
    supported extension and a status other than removed, the run returns
    normally; its requests are the listing and three log lines: no lint
    run, no completion, no post. *)
Theorem no_code_files_no_work
    (w : World) (owner repo : jsstring) (prNumber : Z)
    (files : list ChangedFile) (t : Trace) :
  Spec.ValidContext w owner repo prNumber ->
  octokit_listFiles w (t ++ [Spec.startLog owner repo prNumber])
    owner repo prNumber = Ok files ->
  (forall f, In f files -> ~ Spec.KeptByFilter f) ->
  Bot.reviewPullRequest w t
  = (Ok tt,
     t ++ [Spec.startLog owner repo prNumber;
           EvListFiles owner repo prNumber;
           Spec.foundLog files;
           EvLog LogInfo "No code files to review" None]).
Proof.
  intros V L N. rewrite (reviewPullRequest_valid w owner repo prNumber t V).
  pose proof (reviewSteps_listed w owner repo prNumber files _ L) as H.
  cbv zeta in H.
  assert (K : filter Bot.isCodeFile files = []).
  { clear -N. induction files as [|f fs IH]; [reflexivity|]. simpl.
    destruct (Bot.isCodeFile f) eqn:C.
    - apply isCodeFile_spec in C. destruct (N f); simpl; auto.
    - apply IH. intros g Hg. apply N. now right. }
  rewrite K in H. unfold tryCatch. rewrite H.
  now rewrite <- !app_assoc.
Qed.

Lemma no_code_files_no_work_witness :
  Bot.reviewPullRequest (Examples.ciWorld (Some "7") Examples.docsChange) []
  = (Ok tt,
     [] ++ [Spec.startLog "octo" "app" 7;
            EvListFiles "octo" "app" 7;
            Spec.foundLog Examples.docsChange;
            EvLog LogInfo "No code files to review" None]).
Proof.
  apply (no_code_files_no_work
           (Examples.ciWorld (Some "7") Examples.docsChange) "octo" "app" 7
           Examples.docsChange []).
  - repeat split; discriminate.
  - reflexivity.
  - intros f [<- | [<- | []]] K; apply isCodeFile_spec in K;
      vm_compute in K; discriminate.
Defined.

(** C10.  Without GITHUB_PR_NUMBER, with "0", or with a text that
    [parseInt] reads as NaN, [reviewPullRequest] throws "Missing GitHub
    context variables" and asks nothing of the outside.  With "-1" and
    an owner and a repository, the check passes and the files of pull
    request -1 are listed. *)
Theorem pr_number_guard (w : World) (t : Trace) :
  (env_GITHUB_PR_NUMBER w = None
   \/ env_GITHUB_PR_NUMBER w = Some "0"
   \/ (exists s, env_GITHUB_PR_NUMBER w = Some s /\ Js.parseInt s = None) ->
   Bot.reviewPullRequest w t = (Throw Bot.MISSING_CONTEXT, t))
  /\ (forall owner repo,
        Bot.envOwner w = Some owner -> owner <> "" ->
        Bot.envRepo w = Some repo -> repo <> "" ->
        env_GITHUB_PR_NUMBER w = Some "-1" ->
        exists res new,
          Bot.reviewPullRequest w t
          = (res,
             t ++ Spec.startLog owner repo (-1)
               :: EvListFiles owner repo (-1) :: new)).
Proof.
  split.
  - intros H.
    assert (N : Js.truthyNumber (Bot.envPrNumber w) = false).
    { unfold Bot.envPrNumber.
      destruct H as [-> | [-> | (s & -> & P)]]; try reflexivity.
      cbn [Js.truthy Js.toStr]. destruct s; [reflexivity|].
      cbn [Js.isEmpty negb]. now rewrite P. }
    unfold Bot.reviewPullRequest. cbv zeta. rewrite N.
    cbn [negb]. now rewrite orb_true_r.
  - intros owner repo Eo No Er Nr Ep.
    assert (V : Spec.ValidContext w owner repo (-1)).
    { repeat split; auto; try discriminate.
      unfold Bot.envPrNumber. now rewrite Ep. }
    rewrite (reviewPullRequest_valid w owner repo (-1) t V).
    destruct (reviewSteps_extends w owner repo (-1)
                (t ++ [Spec.startLog owner repo (-1)]))
      as (res & new & E).
    unfold tryCatch. rewrite E. destruct res as [[]|e].
    + exists (Ok tt), new. now rewrite <- app_assoc.
    + unfold bind, Bot.console_error, request, throw.
      eexists _, (new ++ [_]).
      rewrite <- !app_assoc. reflexivity.
Qed.

Lemma pr_number_guard_witness :
  Bot.reviewPullRequest (Examples.ciWorld None Examples.codeChange) []
  = (Throw Bot.MISSING_CONTEXT, [])
  /\ Bot.reviewPullRequest (Examples.ciWorld (Some "0") Examples.codeChange) []
     = (Throw Bot.MISSING_CONTEXT, [])
  /\ Bot.reviewPullRequest
       (Examples.ciWorld (Some "seven") Examples.codeChange) []
     = (Throw Bot.MISSING_CONTEXT, [])
  /\ exists res new,
       Bot.reviewPullRequest
         (Examples.ciWorld (Some "-1") Examples.codeChange) []
       = (res,
          [] ++ Spec.startLog "octo" "app" (-1)
             :: EvListFiles "octo" "app" (-1) :: new).
Proof.
  split; [|split; [|split]].
  - apply (pr_number_guard (Examples.ciWorld None Examples.codeChange) []).
    left. reflexivity.
  - apply (pr_number_guard
             (Examples.ciWorld (Some "0") Examples.codeChange) []).
    right. left. reflexivity.
  - apply (pr_number_guard
             (Examples.ciWorld (Some "seven") Examples.codeChange) []).
    right. right. exists "seven". split; reflexivity.
  - apply (pr_number_guard
             (Examples.ciWorld (Some "-1") Examples.codeChange) []);
      try reflexivity; discriminate.
Defined.

Lemma suggestion_post_filter_witness :
  let w := Examples.ciWorld (Some "7") Examples.codeChange in
  let answering text := Examples.answering text Examples.codeChange in
  fst (Bot.generateAIReview_body w [] Examples.file_b []) = Ok []
  /\ fst (Bot.generateAIReview_body w [] Examples.file_a [])
     = Ok ([] ++ [Spec.aiComment Examples.file_a
                    (Spec.aiBody Examples.advice)])
  /\ fst (Bot.generateAIReview_body w [] Examples.file_a [])
     = Ok ([] ++ [Spec.aiComment Examples.file_a
                    (Bot.AI_MARKER ++ Bot.LF ++ Bot.LF ++ Examples.advice)])
  /\ fst (Bot.generateAIReview_body (answering Examples.shouted) []
            Examples.file_a []) = Ok []
  /\ fst (Bot.generateAIReview_body (answering Examples.kelvin) []
            Examples.file_a []) = Ok []
  /\ fst (Bot.generateAIReview_body (answering Examples.padded) []
            Examples.file_a []) = Ok [].
Proof.
  intros w answering. split; [|split; [|split; [|split; [|split]]]].
  - apply (suggestion_post_filter w [] Examples.file_b []
             "export const user_name = load();"
             (Examples.respond "Looks good!")
             eq_refl eq_refl eq_refl).
    reflexivity.
  - pose proof (suggestion_post_filter w [] Examples.file_a []
                  "export const user_name = load();"
                  (Examples.respond Examples.advice)
                  eq_refl eq_refl eq_refl) as (_ & _ & _ & _ & T & _).
    apply T.
    + reflexivity.
    + reflexivity.
    + intros C. apply looks_good_trim in C. vm_compute in C. discriminate.
  - pose proof (suggestion_post_filter w [] Examples.file_a []
                  "export const user_name = load();"
                  (Examples.respond Examples.advice)
                  eq_refl eq_refl eq_refl) as (_ & _ & _ & _ & _ & T).
    apply T.
    + reflexivity.
    + reflexivity.
    + split; intros c E; injection E as <-;
        unfold Spec.WhiteSpace; cbn [In]; lia.
    + intros C. apply looks_good_trim in C. vm_compute in C. discriminate.
  - pose proof (suggestion_post_filter (answering Examples.shouted) []
                  Examples.file_a [] "export const user_name = load();"
                  (Examples.respond Examples.shouted)
                  eq_refl eq_refl eq_refl) as (F & K & _).
    apply K, F. right. exists Examples.shouted. split; [reflexivity|]. right.
    exists "The naming is clear and the error handling ", "LoOkS GOOD",
      " to me, nothing to change here.".
    split; [reflexivity|].
    repeat (constructor; [unfold Spec.SameLetter; lia|]). constructor.
  - pose proof (suggestion_post_filter (answering Examples.kelvin) []
                  Examples.file_a [] "export const user_name = load();"
                  (Examples.respond Examples.kelvin)
                  eq_refl eq_refl eq_refl) as (F & K & _).
    apply K, F. right. exists Examples.kelvin. split; [reflexivity|]. right.
    exists "The naming is clear and the error handling ",
      ("loo" ++ [8490%N] ++ "s good"), " to me, nothing to change here.".
    split; [reflexivity|].
    repeat (constructor; [unfold Spec.SameLetter; lia|]). constructor.
  - pose proof (suggestion_post_filter (answering Examples.padded) []
                  Examples.file_a [] "export const user_name = load();"
                  (Examples.respond Examples.padded)
                  eq_refl eq_refl eq_refl) as (F & K & _).
    apply K, F. right. exists Examples.padded. split; [reflexivity|]. left.
    vm_compute. discriminate.
Defined.




(** C1 does not hold of the code.  ESLint names a result by the absolute
    path of the file and line 123 takes that name as the path of the
    comment, so the batched review of this run carries comments whose
    path is no filename of the filtered change set; only the AI comments
    of line 145 are anchored at a filename ([assembled_comment_paths]). *)
Theorem lint_comment_path_outside_change_set :
  let w := Examples.ciWorld (Some "7") Examples.codeChange in
  let kept := filter Bot.isCodeFile Examples.codeChange in
  exists text comments,
    In (EvCreateReview "octo" "app" 7 "COMMENT" text comments)
      (snd (Bot.reviewPullRequest w []))
    /\ map path comments
       = ["/home/runner/work/app/app/src/a.ts";
          "/home/runner/work/app/app/src/c.tsx";
          "src/a.ts"]
    /\ map filename kept = ["src/a.ts"; "src/b.ts"; "src/c.tsx"]
    /\ exists c,
         In c comments /\ ~ In (path c) (map filename kept).
Proof.
  intros w kept.
  exists (Bot.reviewBody [Examples.note 1; Examples.note 2; Examples.note 3]).
  eexists. split.
  - vm_compute. do 17 right. left. reflexivity.
  - split; [reflexivity|]. split; [reflexivity|].
    eexists. split; [left; reflexivity|].
    vm_compute. intros [H | [H | [H | []]]]; discriminate.
Qed.

(** * Further properties of the code *)

(** ** The constructor and the context *)

(** X1.  Without GITHUB_TOKEN or OPENAI_API_KEY, unset or empty, [main]
    asks nothing of GitHub, ESLint, the file system or the completion
    service: it logs the constructor's error and exits with code 1. *)
Theorem missing_credentials_exit (w : World) (t : Trace) :
  env_GITHUB_TOKEN w = None \/ env_GITHUB_TOKEN w = Some ""
  \/ env_OPENAI_API_KEY w = None \/ env_OPENAI_API_KEY w = Some "" ->
  Bot.main w t
  = (Ok tt,
     t ++ [EvLog LogError "Review bot failed:"
             (Some Outages.CREDENTIALS_ERROR);
           EvExit 1]).
Proof.
  intros H.
  assert (G : negb (Js.truthy (env_GITHUB_TOKEN w))
              || negb (Js.truthy (env_OPENAI_API_KEY w)) = true).
  { apply orb_true_iff.
    destruct H as [H | [H | [H | H]]]; rewrite H; auto. }
  unfold Bot.main, tryCatch, bind, Bot.construct. rewrite G.
  unfold throw, Bot.console_error, request. now rewrite <- app_assoc.
Qed.

Lemma missing_credentials_exit_witness :
  Bot.main (Outages.world None (Some "octo/app")
              (Ok Outages.change) (Ok tt)) []
  = (Ok tt,
     [] ++ [EvLog LogError "Review bot failed:"
              (Some Outages.CREDENTIALS_ERROR);
            EvExit 1]).
Proof.
  apply missing_credentials_exit. left. reflexivity.
Defined.

Lemma split_no_slash (s : jsstring) :
  Obs.NoSlash s -> Js.split "/"%unit s = [s].
Proof.
  unfold Obs.NoSlash. induction s as [|c s IH]; simpl; intros H;
    [reflexivity|].
  apply andb_true_iff in H. destruct H as [C H].
  apply negb_true_iff in C. rewrite C, (IH H). reflexivity.
Qed.

Lemma split_at_slash (a b : jsstring) :
  Obs.NoSlash a ->
  Js.split "/"%unit (a ++ "/"%unit :: b) = a :: Js.split "/"%unit b.
Proof.
  unfold Obs.NoSlash. induction a as [|c a IH]; simpl; intros H;
    [reflexivity|].
  apply andb_true_iff in H. destruct H as [C H].
  apply negb_true_iff in C. rewrite C, (IH H). reflexivity.
Qed.

Lemma guard_throws (w : World) (t : Trace) :
  negb (Js.truthy (Bot.envOwner w)) || negb (Js.truthy (Bot.envRepo w))
  || negb (Js.truthyNumber (Bot.envPrNumber w)) = true ->
  Bot.reviewPullRequest w t = (Throw Bot.MISSING_CONTEXT, t).
Proof. unfold Bot.reviewPullRequest. cbv zeta. now intros ->. Qed.

(** X2.  How GITHUB_REPOSITORY is read: the owner is the text before the
    first slash and the repository the text between the first and the
    second slash, what follows a second slash being ignored.  Unset,
    without a slash, or with nothing before or after the first slash, it is
    rejected with "Missing GitHub context variables" before any request. *)
Theorem repository_variable_parsing (w : World) (t : Trace) :
  (forall owner repo rest,
     Obs.NoSlash owner -> Obs.NoSlash repo ->
     env_GITHUB_REPOSITORY w = Some (owner ++ "/" ++ repo)
     \/ env_GITHUB_REPOSITORY w
        = Some (owner ++ "/" ++ repo ++ "/" ++ rest) ->
     Bot.envOwner w = Some owner /\ Bot.envRepo w = Some repo)
  /\ (env_GITHUB_REPOSITORY w = None
      \/ (exists s, env_GITHUB_REPOSITORY w = Some s /\ Obs.NoSlash s)
      \/ (exists s, env_GITHUB_REPOSITORY w = Some ("/" ++ s))
      \/ (exists owner,
            env_GITHUB_REPOSITORY w = Some (owner ++ "/")
            /\ Obs.NoSlash owner)
      \/ (exists owner rest,
            env_GITHUB_REPOSITORY w = Some (owner ++ "//" ++ rest)
            /\ Obs.NoSlash owner) ->
      Bot.reviewPullRequest w t = (Throw Bot.MISSING_CONTEXT, t)).
Proof.
  split.
  - intros owner repo rest No Nr H. unfold Bot.envOwner, Bot.envRepo.
    destruct H as [-> | ->].
    + cbn [app]. rewrite (split_at_slash owner repo No),
        (split_no_slash repo Nr). split; reflexivity.
    + cbn [app]. rewrite (split_at_slash owner _ No),
        (split_at_slash repo rest Nr). split; reflexivity.
  - intros H. apply guard_throws.
    unfold Bot.envOwner, Bot.envRepo.
    destruct H as [-> | [(s & -> & N) | [(s & ->) | [(o & -> & N)
                 | (o & rest & -> & N)]]]].
    + reflexivity.
    + rewrite (split_no_slash s N). cbn. now rewrite orb_true_r.
    + reflexivity.
    + change (o ++ "/") with (o ++ "/"%unit :: "").
      rewrite (split_at_slash o "" N). cbn. now rewrite orb_true_r.
    + change (o ++ "//" ++ rest)
        with (o ++ "/"%unit :: "/"%unit :: rest).
      rewrite (split_at_slash o _ N). cbn. now rewrite orb_true_r.
Qed.

Lemma repository_variable_parsing_witness :
  (Bot.envOwner (Outages.world (Some "t") (Some "octo/app/extra")
                   (Ok Outages.change) (Ok tt)) = Some "octo"
   /\ Bot.envRepo (Outages.world (Some "t") (Some "octo/app/extra")
                     (Ok Outages.change) (Ok tt)) = Some "app")
  /\ Bot.reviewPullRequest
       (Outages.world (Some "t") (Some "octo-app")
          (Ok Outages.change) (Ok tt)) []
     = (Throw Bot.MISSING_CONTEXT, []).
Proof.
  split.
  - apply (proj1 (repository_variable_parsing
                    (Outages.world (Some "t") (Some "octo/app/extra")
                       (Ok Outages.change) (Ok tt)) [])
             "octo" "app" "extra"); try reflexivity.
    right. reflexivity.
  - apply (proj2 (repository_variable_parsing
                    (Outages.world (Some "t") (Some "octo-app")
                       (Ok Outages.change) (Ok tt)) [])).
    right. left. exists "octo-app". split; reflexivity.
Defined.

(** ** The requests of each phase *)

Lemma filter_none (C Q : Event -> bool) (l : Trace) :
  forallb C l = true -> (forall e, C e = true -> Q e = false) ->
  filter Q l = [].
Proof.
  intros F H. induction l as [|e l IH]; [reflexivity|].
  simpl in F. apply andb_true_iff in F. destruct F as [Ce F].
  simpl. rewrite (H e Ce). now apply IH.
Qed.

Lemma count_app (p : Event -> bool) (a b : Trace) :
  Obs.count p (a ++ b) = (Obs.count p a + Obs.count p b)%nat.
Proof. unfold Obs.count. now rewrite filter_app, length_app. Qed.

Lemma count_none (C Q : Event -> bool) (l : Trace) :
  forallb C l = true -> (forall e, C e = true -> Q e = false) ->
  Obs.count Q l = 0%nat.
Proof. intros F H. unfold Obs.count. now rewrite (filter_none C Q l F H). Qed.

Lemma trace_inv (t a b : Trace) : t ++ a = t ++ b -> a = b.
Proof. apply app_inv_head. Qed.

Section Phases.
Variable w : World.

Lemma forOf_class {X S : Type} (body : S -> X -> M S) (C : Event -> bool) :
  (forall acc x t,
     exists acc' new,
       body acc x t = (Ok acc', t ++ new) /\ forallb C new = true) ->
  forall xs acc t,
    exists acc' new,
      forOf body xs acc t = (Ok acc', t ++ new) /\ forallb C new = true.
Proof.
  intros step xs. induction xs as [|x xs IH]; intros acc t.
  - exists acc, []. simpl. unfold ret. now rewrite app_nil_r.
  - destruct (step acc x t) as (acc1 & n1 & E1 & F1).
    destruct (IH acc1 (t ++ n1)) as (acc2 & n2 & E2 & F2).
    exists acc2, (n1 ++ n2). cbn [forOf]. unfold bind. rewrite E1, E2.
    split; [now rewrite app_assoc|]. now rewrite forallb_app, F1, F2.
Qed.

Lemma runESLint_class (paths : list jsstring) t :
  exists found new,
    Bot.runESLint w paths t = (Ok found, t ++ new)
    /\ forallb Obs.isLintEvent new = true.
Proof.
  unfold Bot.runESLint. apply forOf_class. clear.
  intros acc p t. rewrite runESLint_body_eq.
  destruct (fs_existsSync w t p).
  - destruct (eslint_lintFiles w (t ++ [EvExistsSync p]) [p]);
      eexists _, _; split; reflexivity.
  - eexists _, _; split; reflexivity.
Qed.

Lemma worthPosting_marked (response : ChatResponse) :
  Bot.worthPosting (Bot.firstContent response) = true ->
  exists text,
    Bot.firstContent response = Some text
    /\ Spec.Trimmed text
    /\ (50 < List.length text)%nat
    /\ ~ Spec.ContainsIgnoringCase "looks good" text.
Proof.
  rewrite firstContent_text.
  destruct (Spec.responseText response) as [s|]; [|discriminate].
  cbn [option_map]. intros H. rewrite <- trim_idempotent in H.
  apply worthPosting_true in H. rewrite trim_idempotent in H.
  destruct H as [L C].
  exists (Js.trim s). split; [reflexivity|].
  split; [apply trim_trimmed|]. split; [|exact C].
  unfold Js.length in L. lia.
Qed.

Lemma generateAIReview_body_inv acc f t :
  exists ai new,
    Bot.generateAIReview_body w acc f t = (Ok (acc ++ ai), t ++ new)
    /\ forallb Obs.isAiEvent new = true
    /\ Forall Obs.MarkedAdvice ai
    /\ (List.length ai <= Obs.count Obs.isChatCompletion new)%nat
    /\ (Obs.count Obs.isChatCompletion new
        <= Obs.count Spec.isReadFileSync new)%nat
    /\ Obs.count Spec.isReadFileSync new
       = (if Regex.testCodeFile (filename f) then 1 else 0)%nat.
Proof.
  rewrite generateAIReview_body_eq.
  destruct (Regex.testCodeFile (filename f)).
  - destruct (fs_readFileSync w t (filename f)) as [fileContent|e].
    + cbv zeta.
      destruct (openai_create w _ (Spec.aiRequest w f fileContent))
        as [response|e].
      * destruct (Bot.worthPosting (Bot.firstContent response)) eqn:W.
        -- eexists [_], _. split; [reflexivity|].
           split; [reflexivity|]. split; [|cbn; lia].
           constructor; [|constructor].
           destruct (worthPosting_marked _ W) as (text & E & T & L & I).
           exists text. rewrite E. cbn. auto.
        -- exists [], [EvReadFileSync (filename f);
                       EvChatCompletion (Spec.aiRequest w f fileContent)].
           rewrite app_nil_r. repeat split; auto; cbn; lia.
      * exists [].
        eexists [_; _; _]. rewrite app_nil_r.
        split; [reflexivity|]. repeat split; auto; cbn; lia.
    + exists []. eexists [_; _]. rewrite app_nil_r.
      split; [reflexivity|]. repeat split; auto; cbn; lia.
  - exists [], []. rewrite !app_nil_r. repeat split; auto.
Qed.

Lemma generateAIReview_inv (files : list ChangedFile) acc t :
  exists ai new,
    forOf (Bot.generateAIReview_body w) files acc t = (Ok (acc ++ ai), t ++ new)
    /\ forallb Obs.isAiEvent new = true
    /\ Forall Obs.MarkedAdvice ai
    /\ (List.length ai <= Obs.count Obs.isChatCompletion new)%nat
    /\ (Obs.count Obs.isChatCompletion new
        <= Obs.count Spec.isReadFileSync new)%nat
    /\ Obs.count Spec.isReadFileSync new
       = List.length (filter Regex.testCodeFile (map filename files)).
Proof.
  revert acc t. induction files as [|f fs IH]; intros acc t.
  - exists [], []. simpl. unfold ret. rewrite !app_nil_r.
    repeat split; auto.
  - destruct (generateAIReview_body_inv acc f t)
      as (a1 & n1 & E1 & F1 & M1 & L1 & C1 & R1).
    destruct (IH (acc ++ a1) (t ++ n1))
      as (a2 & n2 & E2 & F2 & M2 & L2 & C2 & R2).
    exists (a1 ++ a2), (n1 ++ n2). cbn [forOf]. unfold bind.
    rewrite E1, E2. split; [now rewrite !app_assoc|].
    split; [now rewrite forallb_app, F1, F2|].
    split; [now apply Forall_app|].
    rewrite length_app, !count_app, R1, R2. cbn [map filter].
    destruct (Regex.testCodeFile (filename f)); cbn [List.length];
      repeat split; lia.
Qed.

Lemma fallback_class owner repo prNumber (cs : list ReviewComment) t :
  exists new,
    forOf (Bot.postFallback w owner repo prNumber) cs tt t = (Ok tt, t ++ new)
    /\ forallb Obs.isPublishEvent new = true.
Proof.
  destruct (forOf_class (Bot.postFallback w owner repo prNumber)
              Obs.isPublishEvent) with (xs := cs) (acc := tt) (t := t)
    as ([] & new & E & F).
  - clear. intros [] c t.
    unfold Bot.postFallback, tryCatch, Bot.issuesCreateComment, request.
    destruct (octokit_createComment w t owner repo prNumber
                (Bot.fallbackBody c)) as [[]|e].
    + eexists tt, [_]. split; reflexivity.
    + unfold Bot.console_error, request. eexists tt, [_; _].
      split; [now rewrite <- app_assoc | reflexivity].
  - now exists new.
Qed.

(** The publisher on a list with an element. *)
Lemma postReviewComments_cons owner repo prNumber c cs t :
  let comments := c :: cs in
  let review :=
    EvCreateReview owner repo prNumber "COMMENT" (Bot.reviewBody comments)
      comments in
  exists new,
    Bot.postReviewComments w owner repo prNumber comments t
    = (Ok tt, t ++ review :: new)
    /\ forallb Obs.isPublishEvent new = true
    /\ filter Spec.isCreateReview new = []
    /\ filter Spec.isCreateComment new
       = match octokit_createReview w t owner repo prNumber "COMMENT"
                 (Bot.reviewBody comments) comments with
         | Ok _ => []
         | Throw _ =>
             map (Spec.fallbackPost owner repo prNumber) (firstn 10 comments)
         end.
Proof.
  intros comments review.
  pose proof (postReviewComments_batch w owner repo prNumber c cs t) as H.
  cbv zeta in H. fold comments in H. fold review in H.
  destruct (octokit_createReview w t owner repo prNumber "COMMENT"
              (Bot.reviewBody comments) comments) as [[]|e] eqn:R.
  - exists []. now rewrite H.
  - destruct H as (new & E & F & G).
    exists (EvLog LogError
              "Failed to create review, posting individual comments:"
              (Some e) :: new).
    split; [exact E|]. split; [|split; [exact G | exact F]].
    cbn [forallb Obs.isPublishEvent andb].
    (* the events of the fallback are those of [fallback_class] *)
    unfold Bot.postReviewComments in E.
    replace (Z.of_nat (List.length comments) =? 0) with false in E
      by (symmetry; apply Z.eqb_neq; unfold comments; simpl; lia).
    rewrite comments_copy in E.
    unfold tryCatch, Bot.pullsCreateReview, request in E.
    rewrite R in E. unfold bind, Bot.console_error, request in E.
    destruct (fallback_class owner repo prNumber (firstn 10 comments)
                ((t ++ [review])
                 ++ [EvLog LogError
                       "Failed to create review, posting individual comments:"
                       (Some e)]))
      as (new' & E' & F').
    fold review in E. rewrite E' in E. injection E as E.
    rewrite <- !app_assoc in E. apply trace_inv in E.
    injection E as <-. exact F'.
Qed.
End Phases.

(** ** The run as a sequence of phases *)

Section Shape.
Variable w : World.

Lemma postReviewComments_any owner repo prNumber comments t :
  exists res new,
    Bot.postReviewComments w owner repo prNumber comments t = (res, t ++ new)
    /\ forallb Obs.isPublishEvent new = true
    /\ (Obs.count Spec.isCreateReview new <= 1)%nat
    /\ (Obs.count Spec.isCreateComment new <= 10)%nat
    /\ (forall e,
          res = Throw e ->
          comments = []
          /\ octokit_createComment w t owner repo prNumber Bot.NO_ISSUES_BODY
             = Throw e).
Proof.
  destruct comments as [|c cs].
  - rewrite postReviewComments_empty. eexists _, [_].
    split; [reflexivity|]. repeat split; cbn; auto; lia.
  - destruct (postReviewComments_cons w owner repo prNumber c cs t)
      as (new & E & F & R & C).
    eexists _, (_ :: new). split; [exact E|].
    split; [exact F|]. unfold Obs.count. cbn [filter Spec.isCreateReview
      Spec.isCreateComment]. rewrite R, C.
    split; [simpl; lia|]. split; [|discriminate].
    destruct (octokit_createReview w t owner repo prNumber "COMMENT"
                (Bot.reviewBody (c :: cs)) (c :: cs)); [simpl; lia|].
    rewrite length_map, length_firstn. lia.
Qed.

(** After a listing: the analyzer runs on all kept files, then the files
    are read and sent to the completion service, then the publisher
    posts. *)
Lemma reviewSteps_phases owner repo prNumber files t :
  octokit_listFiles w t owner repo prNumber = Ok files ->
  exists res lintEv aiEv pubEv tail,
    Bot.reviewSteps w owner repo prNumber t
    = (res,
       t ++ [EvListFiles owner repo prNumber; Spec.foundLog files]
         ++ lintEv ++ aiEv ++ pubEv ++ tail)
    /\ forallb Obs.isLintEvent lintEv = true
    /\ forallb Obs.isAiEvent aiEv = true
    /\ forallb Obs.isPublishEvent pubEv = true
    /\ forallb Obs.isLog tail = true
    /\ (Obs.count Spec.isCreateReview pubEv <= 1)%nat
    /\ (Obs.count Spec.isCreateComment pubEv <= 10)%nat
    /\ Obs.count Spec.isReadFileSync aiEv
       = List.length (filter Bot.isCodeFile files)
    /\ (Obs.count Obs.isChatCompletion aiEv
        <= List.length (filter Bot.isCodeFile files))%nat
    /\ (forall e,
          res = Throw e ->
          exists t1,
            octokit_createComment w t1 owner repo prNumber Bot.NO_ISSUES_BODY
            = Throw e).
Proof.
  intros L.
  set (t1 := t ++ [EvListFiles owner repo prNumber; Spec.foundLog files]).
  assert (T : (t ++ [EvListFiles owner repo prNumber])
              ++ [EvLog LogInfo
                    ("Found "
                     ++ Js.numberToString (Z.of_nat (List.length files))
                     ++ " changed files") None] = t1)
    by (unfold t1, Spec.foundLog; now rewrite <- app_assoc).
  assert (K : forall kept : list ChangedFile,
             filter Regex.testCodeFile
               (map filename (filter Bot.isCodeFile kept))
             = map filename (filter Bot.isCodeFile kept)).
  { induction kept as [|f fs IH]; [reflexivity|]. simpl.
    destruct (Bot.isCodeFile f) eqn:C; [|exact IH]. simpl.
    unfold Bot.isCodeFile in C. apply andb_true_iff in C.
    destruct C as [C _]. now rewrite C, IH. }
  unfold Bot.reviewSteps, Bot.getChangedFiles.
  unfold bind at 1. unfold Bot.pullsListFiles, request. rewrite L.
  unfold bind at 1. unfold Bot.console_log at 1. unfold request. rewrite T.
  destruct (filter Bot.isCodeFile files) as [|f kept] eqn:Kept.
  - exists (Ok tt), [], [], [], [EvLog LogInfo "No code files to review" None].
    cbn [List.length Z.of_nat Z.eqb]. unfold Bot.console_log, request.
    split; [unfold t1; now rewrite <- !app_assoc|].
    repeat split; auto; try (cbn; lia). discriminate.
  - replace (Z.of_nat (List.length (f :: kept)) =? 0) with false
      by (symmetry; apply Z.eqb_neq; simpl; lia).
    destruct (runESLint_class w (map filename (f :: kept)) t1)
      as (found & n1 & E1 & F1).
    unfold bind at 1. rewrite E1. unfold Bot.generateAIReview.
    destruct (generateAIReview_inv w (f :: kept) (Bot.lintPhase found [])
                (t1 ++ n1))
      as (ai & n2 & E2 & F2 & _ & _ & C2 & R2).
    unfold bind at 1. rewrite E2.
    set (comments := Bot.lintPhase found [] ++ ai).
    destruct (postReviewComments_any owner repo prNumber comments
                ((t1 ++ n1) ++ n2))
      as (res & n3 & E3 & F3 & CR & CC & Err).
    unfold bind. rewrite E3.
    rewrite <- Kept in R2. rewrite K, length_map, Kept in R2.
    destruct res as [[]|e].
    + exists (Ok tt), n1, n2, n3.
      eexists [_]. unfold Bot.console_log, request.
      split; [unfold t1; rewrite <- !app_assoc; reflexivity|].
      repeat split; auto; try lia; discriminate.
    + exists (Throw e), n1, n2, n3, [].
      split; [unfold t1; rewrite <- !app_assoc, app_nil_r; reflexivity|].
      repeat split; auto; try lia.
      intros e' [= <-]. destruct (Err e eq_refl) as [_ H]. eauto.
Qed.

Lemma guard_valid :
  negb (Js.truthy (Bot.envOwner w)) || negb (Js.truthy (Bot.envRepo w))
  || negb (Js.truthyNumber (Bot.envPrNumber w)) = false ->
  Spec.ValidContext w (Js.toStr (Bot.envOwner w)) (Js.toStr (Bot.envRepo w))
    (Js.toNum (Bot.envPrNumber w)).
Proof.
  intros G. apply orb_false_iff in G. destruct G as [G Gn].
  apply orb_false_iff in G. destruct G as [Go Gr].
  apply negb_false_iff in Go, Gr, Gn. unfold Spec.ValidContext.
  destruct (Bot.envOwner w) as [[|a o]|]; try discriminate.
  destruct (Bot.envRepo w) as [[|b r]|]; try discriminate.
  destruct (Bot.envPrNumber w) as [n|]; try discriminate.
  cbn in *. apply negb_true_iff in Gn. apply Z.eqb_neq in Gn.
  repeat split; auto; discriminate.
Qed.

(** The requests of a whole run. *)
Lemma reviewPullRequest_requests (t : Trace) :
  exists res new,
    Bot.reviewPullRequest w t = (res, t ++ new)
    /\ filter Obs.isExit new = []
    /\ (Obs.count Obs.isListFiles new <= 1)%nat
    /\ (Obs.count Spec.isCreateReview new <= 1)%nat
    /\ (Obs.count Spec.isCreateComment new <= 10)%nat.
Proof.
  destruct (negb (Js.truthy (Bot.envOwner w))
            || negb (Js.truthy (Bot.envRepo w))
            || negb (Js.truthyNumber (Bot.envPrNumber w))) eqn:G.
  - rewrite (guard_throws w t G). exists (Throw Bot.MISSING_CONTEXT), [].
    rewrite app_nil_r. repeat split; auto; cbn; lia.
  - apply guard_valid in G.
    set (owner := Js.toStr (Bot.envOwner w)) in *.
    set (repo := Js.toStr (Bot.envRepo w)) in *.
    set (prNumber := Js.toNum (Bot.envPrNumber w)) in *.
    rewrite (reviewPullRequest_valid w owner repo prNumber t G).
    set (t0 := t ++ [Spec.startLog owner repo prNumber]).
    unfold tryCatch.
    destruct (octokit_listFiles w t0 owner repo prNumber) as [files|e] eqn:L.
    + destruct (reviewSteps_phases owner repo prNumber files t0 L)
        as (res & n1 & n2 & n3 & tl & E & F1 & F2 & F3 & F4 & CR & CC & _).
      rewrite E.
      assert (X : forall extra,
                 forallb Obs.isLog extra = true ->
                 let new :=
                   [Spec.startLog owner repo prNumber;
                    EvListFiles owner repo prNumber; Spec.foundLog files]
                   ++ n1 ++ n2 ++ n3 ++ tl ++ extra in
                 filter Obs.isExit new = []
                 /\ (Obs.count Obs.isListFiles new <= 1)%nat
                 /\ (Obs.count Spec.isCreateReview new <= 1)%nat
                 /\ (Obs.count Spec.isCreateComment new <= 10)%nat).
      { intros extra Fx new. unfold new.
        assert (Fl : forallb Obs.isLog (tl ++ extra) = true)
          by (now rewrite forallb_app, F4, Fx).
        split.
        - cbn [app filter Obs.isExit Spec.startLog Spec.foundLog].
          rewrite !filter_app.
          rewrite (filter_none Obs.isLintEvent Obs.isExit n1 F1),
            (filter_none Obs.isAiEvent Obs.isExit n2 F2),
            (filter_none Obs.isPublishEvent Obs.isExit n3 F3),
            (filter_none Obs.isLog Obs.isExit tl F4),
            (filter_none Obs.isLog Obs.isExit extra Fx);
            try reflexivity; by_kind.
        - rewrite !count_app.
          rewrite (count_none Obs.isLintEvent Obs.isListFiles n1 F1),
            (count_none Obs.isAiEvent Obs.isListFiles n2 F2),
            (count_none Obs.isPublishEvent Obs.isListFiles n3 F3),
            (count_none Obs.isLog Obs.isListFiles tl F4),
            (count_none Obs.isLog Obs.isListFiles extra Fx),
            (count_none Obs.isLintEvent Spec.isCreateReview n1 F1),
            (count_none Obs.isAiEvent Spec.isCreateReview n2 F2),
            (count_none Obs.isLog Spec.isCreateReview tl F4),
            (count_none Obs.isLog Spec.isCreateReview extra Fx),
            (count_none Obs.isLintEvent Spec.isCreateComment n1 F1),
            (count_none Obs.isAiEvent Spec.isCreateComment n2 F2),
            (count_none Obs.isLog Spec.isCreateComment tl F4),
            (count_none Obs.isLog Spec.isCreateComment extra Fx);
            try by_kind.
          cbn. lia. }
      destruct res as [[]|e].
      * eexists _, _. split.
        -- unfold t0. rewrite <- !app_assoc. cbn [app].
           rewrite <- (app_nil_r tl) at 1. reflexivity.
        -- apply (X [] eq_refl).
      * unfold bind, Bot.console_error, request, throw.
        eexists _, _. split.
        -- unfold t0. rewrite <- !app_assoc. cbn [app]. reflexivity.
        -- apply (X [EvLog LogError "Error during review:" (Some e)] eq_refl).
    + unfold Bot.reviewSteps, Bot.getChangedFiles, bind, Bot.pullsListFiles,
        request. rewrite L. unfold Bot.console_error, request, throw.
      eexists _, [_; _; _]. split.
      * unfold t0. rewrite <- !app_assoc. reflexivity.
      * repeat split; cbn; lia.
Qed.
End Shape.

(** ** Errors of a run *)

(** X3.  The check of line 51 rejects exactly the environments without a
    valid context: [reviewPullRequest] throws "Missing GitHub context
    variables" with nothing asked if, and only if, the owner or the
    repository is missing or empty or the pull request number is 0 or
    NaN. *)
Theorem context_guard_exact (w : World) (t : Trace) :
  Bot.reviewPullRequest w t = (Throw Bot.MISSING_CONTEXT, t)
  <-> ~ exists owner repo prNumber, Spec.ValidContext w owner repo prNumber.
Proof.
  split.
  - intros H (owner & repo & prNumber & V).
    rewrite (reviewPullRequest_valid w owner repo prNumber t V) in H.
    destruct (reviewSteps_extends w owner repo prNumber
                (t ++ [Spec.startLog owner repo prNumber]))
      as (res & new & E).
    unfold tryCatch in H. rewrite E in H.
    assert (L : forall (r : Result unit) (t' : Trace),
               (r, t') = (Throw Bot.MISSING_CONTEXT, t) ->
               List.length t' = List.length t)
      by (intros r t' [= _ ->]; reflexivity).
    destruct res as [[]|e].
    + apply L in H. rewrite !length_app in H. simpl in H. lia.
    + unfold bind, Bot.console_error, request, throw in H.
      apply L in H. rewrite !length_app in H. simpl in H. lia.
  - intros N.
    destruct (negb (Js.truthy (Bot.envOwner w))
              || negb (Js.truthy (Bot.envRepo w))
              || negb (Js.truthyNumber (Bot.envPrNumber w))) eqn:G.
    + now apply guard_throws.
    + destruct N. apply guard_valid in G. eauto.
Qed.

(** X4.  A failure of the listing of the changed files ends the run: it
    is logged as "Error during review:" and thrown again unchanged, and
    neither the analyzer, the file system, the completion service nor the
    publisher is asked anything. *)
Theorem listing_failure_is_fatal
    (w : World) (owner repo : jsstring) (prNumber : Z) (t : Trace)
    (e : JsError) :
  Spec.ValidContext w owner repo prNumber ->
  octokit_listFiles w (t ++ [Spec.startLog owner repo prNumber])
    owner repo prNumber = Throw e ->
  Bot.reviewPullRequest w t
  = (Throw e,
     t ++ [Spec.startLog owner repo prNumber;
           EvListFiles owner repo prNumber;
           EvLog LogError "Error during review:" (Some e)]).
Proof.
  intros V L. rewrite (reviewPullRequest_valid w owner repo prNumber t V).
  unfold tryCatch, Bot.reviewSteps, Bot.getChangedFiles, bind,
    Bot.pullsListFiles, request. rewrite L.
  unfold Bot.console_error, request, throw. now rewrite <- !app_assoc.
Qed.

Lemma listing_failure_is_fatal_witness :
  Bot.reviewPullRequest
    (Outages.world (Some "t") (Some "octo/app")
       (Throw Outages.SERVER_ERROR) (Ok tt)) []
  = (Throw Outages.SERVER_ERROR,
     [] ++ [Spec.startLog "octo" "app" 12;
            EvListFiles "octo" "app" 12;
            EvLog LogError "Error during review:"
              (Some Outages.SERVER_ERROR)]).
Proof.
  apply listing_failure_is_fatal.
  - repeat split; discriminate.
  - reflexivity.
Defined.

(** X5.  With a valid context only two failures escape a run: that of the
    listing, and that of the one general comment posted when nothing was
    assembled.  Failures of the analyzer, of reading a file, of the
    completion service, of the batched review and of the single comments
    of the fallback never do.  An escaping error is logged last. *)
Theorem only_listing_and_general_comment_errors_escape
    (w : World) (owner repo : jsstring) (prNumber : Z) (t : Trace)
    (e : JsError) :
  Spec.ValidContext w owner repo prNumber ->
  fst (Bot.reviewPullRequest w t) = Throw e ->
  (octokit_listFiles w (t ++ [Spec.startLog owner repo prNumber])
     owner repo prNumber = Throw e
   \/ exists t1,
        octokit_createComment w t1 owner repo prNumber Bot.NO_ISSUES_BODY
        = Throw e)
  /\ exists before,
       snd (Bot.reviewPullRequest w t)
       = t ++ before ++ [EvLog LogError "Error during review:" (Some e)].
Proof.
  intros V. rewrite (reviewPullRequest_valid w owner repo prNumber t V).
  set (t0 := t ++ [Spec.startLog owner repo prNumber]).
  unfold tryCatch.
  destruct (octokit_listFiles w t0 owner repo prNumber) as [files|e0] eqn:L.
  - destruct (reviewSteps_phases w owner repo prNumber files t0 L)
      as (res & n1 & n2 & n3 & tl & E & _ & _ & _ & _ & _ & _ & _ & _ & Err).
    rewrite E. destruct res as [[]|e0]; [discriminate|].
    unfold bind, Bot.console_error, request, throw. cbn [fst snd].
    intros [= <-]. split; [right; now apply Err|].
    exists ([Spec.startLog owner repo prNumber;
             EvListFiles owner repo prNumber; Spec.foundLog files]
            ++ n1 ++ n2 ++ n3 ++ tl).
    unfold t0. rewrite <- !app_assoc. reflexivity.
  - unfold Bot.reviewSteps, Bot.getChangedFiles, bind, Bot.pullsListFiles,
      request. rewrite L. unfold Bot.console_error, request, throw.
    cbn [fst snd]. intros [= <-]. split; [now left|].
    exists [Spec.startLog owner repo prNumber;
            EvListFiles owner repo prNumber].
    unfold t0. rewrite <- !app_assoc. reflexivity.
Qed.

Lemma only_listing_and_general_comment_errors_escape_witness :
  let w := Outages.world (Some "t") (Some "octo/app")
             (Ok Outages.change) (Throw Outages.SERVER_ERROR) in
  (octokit_listFiles w ([] ++ [Spec.startLog "octo" "app" 12]) "octo" "app" 12
   = Throw Outages.SERVER_ERROR
   \/ exists t1,
        octokit_createComment w t1 "octo" "app" 12 Bot.NO_ISSUES_BODY
        = Throw Outages.SERVER_ERROR)
  /\ exists before,
       snd (Bot.reviewPullRequest w [])
       = [] ++ before
         ++ [EvLog LogError "Error during review:"
               (Some Outages.SERVER_ERROR)].
Proof.
  intros w.
  apply (only_listing_and_general_comment_errors_escape w "octo" "app" 12 []
           Outages.SERVER_ERROR).
  - repeat split; discriminate.
  - vm_compute. reflexivity.
Defined.

(** X6.  A run is made of phases that do not overlap: after the listing,
    first the analyzer is run on the files (existence tests, lint calls,
    warnings), then the files are read and sent to the completion
    service, then the publisher posts, and only log lines follow.  No file
    is read before the last lint call and nothing is posted before the
    last completion. *)
Theorem run_phases
    (w : World) (owner repo : jsstring) (prNumber : Z)
    (files : list ChangedFile) (t : Trace) :
  Spec.ValidContext w owner repo prNumber ->
  octokit_listFiles w (t ++ [Spec.startLog owner repo prNumber])
    owner repo prNumber = Ok files ->
  exists lintEv aiEv pubEv logs,
    snd (Bot.reviewPullRequest w t)
    = t ++ [Spec.startLog owner repo prNumber;
            EvListFiles owner repo prNumber; Spec.foundLog files]
        ++ lintEv ++ aiEv ++ pubEv ++ logs
    /\ forallb Obs.isLintEvent lintEv = true
    /\ forallb Obs.isAiEvent aiEv = true
    /\ forallb Obs.isPublishEvent pubEv = true
    /\ forallb Obs.isLog logs = true.
Proof.
  intros V L. rewrite (reviewPullRequest_valid w owner repo prNumber t V).
  destruct (reviewSteps_phases w owner repo prNumber files _ L)
    as (res & n1 & n2 & n3 & tl & E & F1 & F2 & F3 & F4 & _).
  unfold tryCatch. rewrite E. exists n1, n2, n3.
  destruct res as [[]|e].
  - exists tl. cbn [snd]. split; [now rewrite <- !app_assoc | auto].
  - exists (tl ++ [EvLog LogError "Error during review:" (Some e)]).
    unfold bind, Bot.console_error, request, throw. cbn [snd].
    split; [now rewrite <- !app_assoc|].
    repeat split; auto. now rewrite forallb_app, F4.
Qed.

Lemma run_phases_witness :
  exists lintEv aiEv pubEv logs,
    snd (Bot.reviewPullRequest
           (Examples.ciWorld (Some "7") Examples.codeChange) [])
    = [] ++ [Spec.startLog "octo" "app" 7;
             EvListFiles "octo" "app" 7; Spec.foundLog Examples.codeChange]
         ++ lintEv ++ aiEv ++ pubEv ++ logs
    /\ forallb Obs.isLintEvent lintEv = true
    /\ forallb Obs.isAiEvent aiEv = true
    /\ forallb Obs.isPublishEvent pubEv = true
    /\ forallb Obs.isLog logs = true.
Proof.
  apply run_phases.
  - repeat split; discriminate.
  - reflexivity.
Defined.

(** ** [main] *)

(** X7.  [main] returns normally in every world, and whatever fails a run
    asks for the listing at most once, for at most one batched review and
    for at most ten single comments. *)
Theorem main_request_bounds (w : World) (t : Trace) :
  exists new,
    Bot.main w t = (Ok tt, t ++ new)
    /\ (Obs.count Obs.isListFiles new <= 1)%nat
    /\ (Obs.count Spec.isCreateReview new <= 1)%nat
    /\ (Obs.count Spec.isCreateComment new <= 10)%nat
    /\ (Obs.count Obs.isExit new <= 1)%nat.
Proof.
  unfold Bot.main, tryCatch, bind, Bot.construct.
  destruct (negb (Js.truthy (env_GITHUB_TOKEN w))
            || negb (Js.truthy (env_OPENAI_API_KEY w))).
  - unfold throw, Bot.console_error, request. eexists [_; _].
    split; [now rewrite <- app_assoc|]. repeat split; cbn; lia.
  - unfold ret.
    destruct (reviewPullRequest_requests w t)
      as (res & new & E & X & CL & CR & CC).
    assert (X0 : Obs.count Obs.isExit new = 0%nat)
      by (unfold Obs.count; now rewrite X).
    rewrite E. destruct res as [[]|e].
    + exists new. repeat split; auto. lia.
    + unfold Bot.console_error, request.
      exists (new ++ [EvLog LogError "Review bot failed:" (Some e); EvExit 1]).
      split; [now rewrite <- !app_assoc|].
      rewrite !count_app, X0. cbn. repeat split; lia.
Qed.

(** X8.  The exit of [main]: when both credentials are set and the run
    returns, [main] adds nothing to the run, in particular no exit; when
    a credential is missing or the run throws, the trace ends with the
    one exit of code 1. *)
Theorem main_exit_code (w : World) (t : Trace) :
  (Js.truthy (env_GITHUB_TOKEN w) = true ->
   Js.truthy (env_OPENAI_API_KEY w) = true ->
   forall t',
     Bot.reviewPullRequest w t = (Ok tt, t') ->
     Bot.main w t = (Ok tt, t') /\ filter Obs.isExit t' = filter Obs.isExit t)
  /\ (Js.truthy (env_GITHUB_TOKEN w) = false
      \/ Js.truthy (env_OPENAI_API_KEY w) = false
      \/ (exists e, fst (Bot.reviewPullRequest w t) = Throw e) ->
      exists new,
        Bot.main w t = (Ok tt, t ++ new ++ [EvExit 1])
        /\ filter Obs.isExit new = []).
Proof.
  split.
  - intros T K t' R. unfold Bot.main, tryCatch, bind, Bot.construct.
    rewrite T, K. cbn [negb orb]. unfold ret. rewrite R.
    split; [reflexivity|].
    destruct (reviewPullRequest_requests w t) as (res & new & E & X & _).
    rewrite E in R. injection R as _ <-. rewrite filter_app, X.
    now rewrite app_nil_r.
  - intros H. unfold Bot.main, tryCatch, bind, Bot.construct.
    destruct (negb (Js.truthy (env_GITHUB_TOKEN w))
              || negb (Js.truthy (env_OPENAI_API_KEY w))) eqn:G.
    + unfold throw, Bot.console_error, request. eexists [_].
      split; [now rewrite <- app_assoc | reflexivity].
    + apply orb_false_iff in G. destruct G as [G1 G2].
      apply negb_false_iff in G1, G2.
      destruct H as [H | [H | (e & H)]]; try congruence.
      unfold ret.
      destruct (reviewPullRequest_requests w t) as (res & new & E & X & _).
      rewrite E in H |- *. cbn [fst] in H. subst res.
      unfold Bot.console_error, request.
      exists (new ++ [EvLog LogError "Review bot failed:" (Some e)]).
      split; [now rewrite <- !app_assoc|].
      now rewrite filter_app, X.
Qed.

Lemma main_exit_code_witness :
  (let w := Examples.ciWorld (Some "7") Examples.docsChange in
   Bot.main w [] = Bot.reviewPullRequest w [])
  /\ exists new,
       Bot.main (Outages.world (Some "t") (Some "octo/app")
                   (Throw Outages.SERVER_ERROR) (Ok tt)) []
       = (Ok tt, [] ++ new ++ [EvExit 1])
       /\ filter Obs.isExit new = [].
Proof.
  split.
  - intros w.
    destruct (proj1 (main_exit_code w []) eq_refl eq_refl
                (snd (Bot.reviewPullRequest w [])) eq_refl) as [E _].
    exact E.
  - apply (proj2 (main_exit_code
                    (Outages.world (Some "t") (Some "octo/app")
                       (Throw Outages.SERVER_ERROR) (Ok tt)) [])).
    right. right. exists Outages.SERVER_ERROR. reflexivity.
Defined.

(** ** The publisher *)

(** X9.  On a list with an element the publisher never throws.  It asks for
    the batched review once; when that succeeds it posts nothing else, and
    when that fails it posts the first ten comments one by one, all of
    them when there are no more than ten. *)
Theorem publisher_outcomes
    (w : World) (owner repo : jsstring) (prNumber : Z)
    (c : ReviewComment) (cs : list ReviewComment) (t : Trace) :
  let comments := c :: cs in
  exists new,
    Bot.postReviewComments w owner repo prNumber comments t
    = (Ok tt,
       t ++ EvCreateReview owner repo prNumber "COMMENT"
              (Bot.reviewBody comments) comments :: new)
    /\ filter Spec.isCreateReview new = []
    /\ match octokit_createReview w t owner repo prNumber "COMMENT"
               (Bot.reviewBody comments) comments with
       | Ok _ => new = []
       | Throw _ =>
           filter Spec.isCreateComment new
           = map (Spec.fallbackPost owner repo prNumber) (firstn 10 comments)
           /\ Obs.count Spec.isCreateComment new
              = Nat.min 10 (List.length comments)
           /\ ((List.length comments <= 10)%nat ->
               filter Spec.isCreateComment new
               = map (Spec.fallbackPost owner repo prNumber) comments)
       end.
Proof.
  intros comments.
  destruct (postReviewComments_cons w owner repo prNumber c cs t)
    as (new & E & _ & R & C).
  fold comments in E, C.
  pose proof (postReviewComments_batch w owner repo prNumber c cs t) as B.
  cbv zeta in B. fold comments in B.
  destruct (octokit_createReview w t owner repo prNumber "COMMENT"
              (Bot.reviewBody comments) comments) as [[]|e].
  - exists []. rewrite B. repeat split; reflexivity.
  - exists new. split; [exact E|]. split; [exact R|].
    split; [exact C|]. split.
    + unfold Obs.count. now rewrite C, length_map, length_firstn.
    + intros L. rewrite C, firstn_all2; [reflexivity | exact L].
Qed.

(** ** The analyzer *)

(** X10.  When the file system and the analyzer answer the same whenever
    they are asked, [runESLint] returns the results of the present paths
    in order, each linted on its own: a missing file is skipped without
    a lint call, and a failing file is logged and adds nothing. *)
Theorem runESLint_lints_each_present_file
    (w : World) (present : jsstring -> bool)
    (lint : list jsstring -> Result (list ESLintResult))
    (paths : list jsstring) (t : Trace) :
  (forall t' p, fs_existsSync w t' p = present p) ->
  (forall t' ps, eslint_lintFiles w t' ps = lint ps) ->
  Bot.runESLint w paths t
  = (Ok (Obs.lintEach present lint paths),
     t ++ Obs.lintEachTrace present lint paths).
Proof.
  intros X L. unfold Bot.runESLint.
  enough (G : forall acc t,
             forOf (Bot.runESLint_body w) paths acc t
             = (Ok (acc ++ Obs.lintEach present lint paths),
                t ++ Obs.lintEachTrace present lint paths))
    by apply (G [] t).
  clear t. induction paths as [|p ps IH]; intros acc t.
  - simpl. unfold ret. now rewrite !app_nil_r.
  - cbn [forOf Obs.lintEach Obs.lintEachTrace flat_map]. unfold bind.
    rewrite runESLint_body_eq, X, L.
    destruct (present p).
    + destruct (lint [p]) as [found|e]; rewrite IH;
        now rewrite <- !app_assoc.
    + rewrite IH. now rewrite <- !app_assoc.
Qed.

Lemma runESLint_lints_each_present_file_witness :
  Bot.runESLint
    (Outages.world (Some "t") (Some "octo/app") (Ok Outages.change)
       (Ok tt))
    ["src/a.ts"; "src/gone.ts"; "src/locked.ts"] []
  = (Ok [Outages.cleanResult "src/a.ts"; Outages.cleanResult "src/locked.ts"],
     [] ++ [EvExistsSync "src/a.ts"; EvLintFiles ["src/a.ts"];
            EvExistsSync "src/gone.ts";
            EvExistsSync "src/locked.ts";
            EvLintFiles ["src/locked.ts"]]).
Proof.
  apply (runESLint_lints_each_present_file
           (Outages.world (Some "t") (Some "octo/app") (Ok Outages.change)
              (Ok tt))
           (fun p => negb (Js.eqb p "src/gone.ts"))
           (fun ps => Ok (map Outages.cleanResult ps))
           ["src/a.ts"; "src/gone.ts"; "src/locked.ts"] []);
    reflexivity.
Defined.

(** ** The AI phase *)

(** X11.  A file that cannot be read is given up: the failure is logged as
    a warning, no request goes to the completion service and no comment
    is added for the file. *)
Theorem unreadable_file_is_skipped
    (w : World) (acc : list ReviewComment) (f : ChangedFile) (t : Trace)
    (e : JsError) :
  Regex.testCodeFile (filename f) = true ->
  fs_readFileSync w t (filename f) = Throw e ->
  Bot.generateAIReview_body w acc f t
  = (Ok acc,
     t ++ [EvReadFileSync (filename f);
           EvLog LogWarn
             ("Failed to generate AI review for " ++ filename f ++ ":")
             (Some e)]).
Proof.
  intros C R. now rewrite generateAIReview_body_eq, C, R.
Qed.

Lemma unreadable_file_is_skipped_witness :
  Bot.generateAIReview_body
    (Outages.world (Some "t") (Some "octo/app") (Ok Outages.change)
       (Ok tt)) [] Outages.locked []
  = (Ok [],
     [] ++ [EvReadFileSync "src/locked.ts";
            EvLog LogWarn "Failed to generate AI review for src/locked.ts:"
              (Some (Error "EACCES"))]).
Proof.
  apply (unreadable_file_is_skipped
           (Outages.world (Some "t") (Some "octo/app") (Ok Outages.change)
              (Ok tt)) [] Outages.locked [] (Error "EACCES"));
    reflexivity.
Defined.

(** X12.  On the files kept by the filter of line 64 the test of line 133
    never skips: every kept file is read, once, in the order of the
    listing. *)
Theorem kept_files_are_each_read_once
    (w : World) (files : list ChangedFile) (results : list ESLintResult)
    (t : Trace) :
  let kept := filter Bot.isCodeFile files in
  exists comments new,
    Bot.generateAIReview w kept results t = (Ok comments, t ++ new)
    /\ filter Spec.isReadFileSync new
       = map EvReadFileSync (map filename kept).
Proof.
  intros kept. unfold Bot.generateAIReview.
  destruct (generateAIReview_loop w kept (Bot.lintPhase results []) t)
    as (ai & new & E & _ & R).
  exists (Bot.lintPhase results [] ++ ai), new. split; [exact E|].
  rewrite R. f_equal. unfold kept. clear.
  induction files as [|f fs IH]; [reflexivity|]. simpl.
  destruct (Bot.isCodeFile f) eqn:C; [|exact IH]. simpl.
  unfold Bot.isCodeFile in C. apply andb_true_iff in C.
  destruct C as [C _]. now rewrite C, IH.
Qed.

(** X13.  The cost of the AI phase: at most one read per file, a request
    to the completion service only after a read, and an AI comment only
    after a request; so never more requests, nor more AI comments, than
    files. *)
Theorem completion_requests_are_bounded
    (w : World) (files : list ChangedFile) (results : list ESLintResult)
    (t : Trace) :
  exists ai new,
    Bot.generateAIReview w files results t
    = (Ok (Spec.lintErrorComments results ++ ai), t ++ new)
    /\ (List.length ai <= Obs.count Obs.isChatCompletion new)%nat
    /\ (Obs.count Obs.isChatCompletion new
        <= Obs.count Spec.isReadFileSync new)%nat
    /\ (Obs.count Spec.isReadFileSync new <= List.length files)%nat
    /\ forallb Obs.isAiEvent new = true.
Proof.
  unfold Bot.generateAIReview.
  destruct (generateAIReview_inv w files (Bot.lintPhase results []) t)
    as (ai & new & E & F & _ & L & C & R).
  exists ai, new. rewrite E, lintPhase_spec. cbn [app].
  repeat split; auto. rewrite R.
  etransitivity; [apply filter_length_le|]. now rewrite length_map.
Qed.

(** X14.  Every AI comment of the assembled list has the marker, two line
    feeds and a text that neither begins nor ends with white space, is
    longer than 50 characters and does not contain "looks good" in any
    case of letters. *)
Theorem ai_comments_are_marked_advice
    (w : World) (files : list ChangedFile) (results : list ESLintResult)
    (t : Trace) :
  exists ai new,
    Bot.generateAIReview w files results t
    = (Ok (Spec.lintErrorComments results ++ ai), t ++ new)
    /\ Forall Obs.MarkedAdvice ai.
Proof.
  unfold Bot.generateAIReview.
  destruct (generateAIReview_inv w files (Bot.lintPhase results []) t)
    as (ai & new & E & _ & M & _).
  exists ai, new. rewrite E, lintPhase_spec. cbn [app]. auto.
Qed.

(** ** The test of the answer *)

(** X21.  The suggestion of line 193 is the text of the first choice of
    the response without the white space, in the sense of ECMAScript, at
    its two ends; there is none when the response has no choice, or the
    first choice no message or no text. *)
Theorem suggestion_is_trimmed_answer (response : ChatResponse) (u : jsstring) :
  Bot.firstContent response = Some u <->
  exists s, Spec.responseText response = Some s /\ Spec.TrimOf s u.
Proof.
  rewrite firstContent_text.
  destruct (Spec.responseText response) as [s|]; cbn [option_map].
  - split.
    + intros E. injection E as <-. exists s. split; [reflexivity|].
      now apply trim_spec.
    + intros (s' & E & T). injection E as <-. apply trim_spec in T.
      now subst u.
  - split; [discriminate|]. intros (s & E & _). discriminate.
Qed.

Lemma suggestion_is_trimmed_answer_witness :
  Bot.firstContent
    (Examples.respond ([12288%N] ++ "Looks good! " ++ [10%N]))
  = Some "Looks good!".
Proof.
  apply suggestion_is_trimmed_answer.
  exists ([12288%N] ++ "Looks good! " ++ [10%N]). split; [reflexivity|].
  exists [12288%N], [32; 10]%N. split; [reflexivity|].
  split; [repeat constructor; unfold Spec.WhiteSpace; cbn [In]; lia|].
  split; [repeat constructor; unfold Spec.WhiteSpace; cbn [In]; lia|].
  split; intros c E; injection E as <-; unfold Spec.WhiteSpace; cbn [In]; lia.
Defined.

(** X22.  The test of line 196 passes exactly the texts of more than 50
    code units that do not contain "looks good" in any letter case,
    whatever characters the text is made of. *)
Theorem answer_test_ignores_letter_case (s : jsstring) :
  Bot.worthPosting (Some s) = true <->
  (50 < List.length s)%nat /\ ~ Spec.ContainsIgnoringCase "looks good" s.
Proof.
  assert (P : Forall Letters.Plain "looks good")
    by (repeat (constructor; [unfold Letters.Plain; lia|]); constructor).
  assert (I : Js.includes "looks good" (Js.toLowerCase s) = true <->
              Spec.ContainsIgnoringCase "looks good" s).
  { rewrite includes_toLowerCase by (discriminate || exact P).
    now rewrite includes_spec, (containsIgnoringCase_fold _ _ P). }
  unfold Bot.worthPosting, Js.length.
  rewrite !andb_true_iff, !negb_true_iff, Z.gtb_ltb, Z.ltb_lt.
  rewrite <- I. split.
  - intros [[_ N] L]. split; [lia | congruence].
  - intros [L N]. split; [split|]; [| |lia].
    + destruct s; [simpl in L; lia | reflexivity].
    + now destruct (Js.includes "looks good" (Js.toLowerCase s)).
Qed.

Lemma answer_test_ignores_letter_case_witness :
  Bot.worthPosting (Some Examples.advice) = true
  /\ Bot.worthPosting (Some Examples.kelvin) = false.
Proof.
  split.
  - apply answer_test_ignores_letter_case. split; [simpl; lia|].
    intros C. apply looks_good_trim in C. vm_compute in C. discriminate.
  - destruct (Bot.worthPosting (Some Examples.kelvin)) eqn:W; [|reflexivity].
    apply answer_test_ignores_letter_case in W. destruct W as [_ N].
    exfalso. apply N.
    exists "The naming is clear and the error handling ",
      ("loo" ++ [8490%N] ++ "s good"), " to me, nothing to change here.".
    split; [reflexivity|].
    repeat (constructor; [unfold Spec.SameLetter; lia|]). constructor.
Defined.

(** ** The prompt *)

Lemma slice0_short (n : nat) (s : jsstring) :
  (List.length s <= n)%nat -> Js.slice0 n s = s.
Proof.
  revert n. induction s as [|c s IH]; intros n L; [now destruct n|].
  destruct n as [|n]; simpl in *; [lia|]. rewrite IH; [reflexivity | lia].
Qed.

Lemma occurs_skip (a w s : jsstring) :
  Spec.Occurs w s -> Spec.Occurs w (a ++ s).
Proof.
  intros (pre & post & ->). exists (a ++ pre), post.
  now rewrite sapp_assoc.
Qed.

(** X15.  Of a file longer than 3000 characters the prompt holds the first
    3000 followed by " ...", and what comes after them changes neither
    the prompt nor the outcome of [getAISuggestions]; a file of at most
    3000 characters is in the prompt whole, without the mark. *)
Theorem prompt_truncates_file_content
    (w : World) (fileName : jsstring) (patch : option jsstring) :
  (forall head tail,
     List.length head = 3000%nat -> tail <> "" ->
     Spec.Occurs (head ++ " ..." ++ Bot.LF ++ Bot.BACKTICKS)
       (Bot.buildPrompt w fileName (head ++ tail) patch)
     /\ forall tail' t,
          tail' <> "" ->
          Bot.buildPrompt w fileName (head ++ tail) patch
          = Bot.buildPrompt w fileName (head ++ tail') patch
          /\ Bot.getAISuggestions w fileName (head ++ tail) patch t
             = Bot.getAISuggestions w fileName (head ++ tail') patch t)
  /\ (forall fileContent,
        (List.length fileContent <= 3000)%nat ->
        Spec.Occurs (fileContent ++ " " ++ Bot.LF ++ Bot.BACKTICKS)
          (Bot.buildPrompt w fileName fileContent patch)).
Proof.
  assert (Long : forall head tail,
             List.length head = 3000%nat -> tail <> "" ->
             Js.slice0 3000 (head ++ tail) = head
             /\ (Js.length (head ++ tail) >? 3000) = true).
  { intros head tail H N. split.
    - rewrite <- H. apply slice0_app.
    - rewrite Z.gtb_ltb. apply Z.ltb_lt. unfold Js.length.
      rewrite slength_app, H. destruct tail; [congruence|].
      cbn [List.length]. lia. }
  assert (Same : forall head tail tail',
             List.length head = 3000%nat ->
             tail <> "" -> tail' <> "" ->
             Bot.buildPrompt w fileName (head ++ tail) patch
             = Bot.buildPrompt w fileName (head ++ tail') patch).
  { intros head tail tail' H N N'. unfold Bot.buildPrompt.
    destruct (Long head tail H N) as [-> ->].
    destruct (Long head tail' H N') as [-> ->]. reflexivity. }
  split.
  - intros head tail H N. split.
    + unfold Bot.buildPrompt. destruct (Long head tail H N) as [-> ->].
      do 25 apply occurs_skip.
      exists "",
        (Bot.LF ++ Bot.LF
         ++ "Please provide specific, actionable feedback. If the code looks good, just say so briefly.").
      rewrite !sapp_assoc. reflexivity.
    + intros tail' t N'. split; [now apply Same|].
      rewrite !getAISuggestions_eq. cbv zeta.
      now rewrite (Same head tail tail' H N N').
  - intros fileContent L. unfold Bot.buildPrompt.
    rewrite (slice0_short 3000 fileContent L).
    replace (Js.length fileContent >? 3000) with false.
    + do 25 apply occurs_skip.
      exists "",
        (Bot.LF ++ Bot.LF
         ++ "Please provide specific, actionable feedback. If the code looks good, just say so briefly.").
      rewrite !sapp_assoc. reflexivity.
    + symmetry. rewrite Z.gtb_ltb. apply Z.ltb_ge. unfold Js.length. lia.
Qed.

Lemma filler_length (n : nat) : List.length (Obs.filler n) = n.
Proof. induction n as [|n IH]; simpl; [reflexivity | now rewrite IH]. Qed.

Lemma prompt_truncates_file_content_witness :
  let w := Examples.ciWorld (Some "7") Examples.codeChange in
  Bot.getAISuggestions w "src/a.ts"
    (Obs.filler 3000 ++ "let secret = 1;") None []
  = Bot.getAISuggestions w "src/a.ts"
      (Obs.filler 3000 ++ "let other = 2;") None []
  /\ Spec.Occurs ("const x = 1;" ++ " " ++ Bot.LF ++ Bot.BACKTICKS)
       (Bot.buildPrompt w "src/a.ts" "const x = 1;" None).
Proof.
  intros w.
  pose proof (prompt_truncates_file_content w "src/a.ts" None)
    as [Long Short].
  split.
  - apply (proj2 (Long (Obs.filler 3000) "let secret = 1;"
                    (filler_length 3000) ltac:(discriminate))
             "let other = 2;" []).
    discriminate.
  - apply Short. cbn [List.length]. lia.
Defined.

(** ** The start line *)

Lemma decimalValueFrom_nonneg (s : jsstring) (acc : Z) :
  Spec.Digits s -> 0 <= acc -> 0 <= Spec.decimalValueFrom acc s.
Proof.
  revert acc. induction s as [|c s IH]; intros acc D A; [exact A|].
  unfold Spec.Digits in D. simpl in D. apply andb_true_iff in D.
  destruct D as [C D]. destruct (digitValue_digit c C) as [_ R].
  cbn [Spec.decimalValueFrom]. apply IH; [exact D | lia].
Qed.

(** X16.  The start line of a comment is never negative, but it is 0, not
    a line of the file, when the first hunk header has new-file start 0,
    as the patch of a file emptied by the change has. *)
Theorem start_line_is_not_negative :
  (forall patch, 0 <= Bot.startLine patch)
  /\ (forall a b d rest,
        Spec.Digits1 a -> Spec.Digits1 b -> Spec.Digits1 d ->
        Bot.startLine
          (Some ("@@ -" ++ a ++ "," ++ b ++ " +0," ++ d ++ " @@" ++ rest))
        = 0).
Proof.
  split.
  - intros [p|]; [|unfold Bot.startLine; lia].
    destruct (Regex.matchHunkHeader p) as [c|] eqn:M.
    + apply matchHunkHeader_first in M.
      rewrite (startLine_first p c M).
      destruct M as (_ & s & _ & (a & sep & rest & _ & _ & _ & [_ D] & _) & _).
      apply decimalValueFrom_nonneg; [exact D | lia].
    + apply matchHunkHeader_none in M. rewrite (startLine_none p M). lia.
  - intros a b d rest Da Db Dd.
    change 0 with (Spec.decimalValue "0").
    apply startLine_first.
    exists "",
      ("@@ -" ++ a ++ "," ++ b ++ " +0," ++ d ++ " @@" ++ rest).
    split; [reflexivity|]. split.
    + apply full_header. exists a, b, d, rest.
      split; [reflexivity|]. repeat split; auto; try apply Da; try apply Db;
        try apply Dd; discriminate.
    + intros pre s c _ L. simpl in L. lia.
Qed.

Lemma start_line_is_not_negative_witness :
  Bot.startLine (Some "@@ -1,3 +0,0 @@") = 0.
Proof.
  apply (proj2 start_line_is_not_negative "1" "3" "0" "");
    split; (discriminate || reflexivity).
Defined.

(** X17.  The pattern of line 141 finds a match exactly when the patch
    holds a hunk header of the grammar [@@ -a[,b] +c], anywhere in the
    text and not only at the start of a line; the group it captures is
    the new-file start of the first one. *)
Theorem hunk_pattern_matches_grammar (p : jsstring) :
  (forall c, Regex.matchHunkHeader p = Some c <-> Spec.FirstHunkHeader p c)
  /\ (Regex.matchHunkHeader p = None <-> Spec.NoHunkHeader p)
  /\ (forall c, Spec.FirstHunkHeader p c -> Spec.Digits1 c).
Proof.
  split; [intros c; apply matchHunkHeader_first|].
  split; [apply matchHunkHeader_none|].
  intros c (_ & s & _ & (a & sep & rest & _ & _ & _ & D & _) & _). exact D.
Qed.

(** ** The filter *)

(** X18.  The filter of line 64 keeps, in the order of the listing,
    exactly the files whose name ends in .ts, .js, .tsx or .jsx, in these
    letters, and whose status is not the text "removed". *)
Theorem filter_keeps_code_files (files : list ChangedFile) :
  (forall f,
     In f (filter Bot.isCodeFile files) <-> In f files /\ Spec.KeptByFilter f)
  /\ Spec.Subseq (filter Bot.isCodeFile files) files
  /\ (forall f,
        Spec.KeptByFilter f ->
        exists stem ext,
          filename f = (stem ++ "." ++ ext)
          /\ In ext ["ts"; "js"; "tsx"; "jsx"]).
Proof.
  split; [|split].
  - intros f. rewrite filter_In, isCodeFile_spec. reflexivity.
  - induction files as [|f fs IH]; [constructor|]. simpl.
    destruct (Bot.isCodeFile f); now constructor.
  - intros f [[(pre & E) | [(pre & E) | [(pre & E) | (pre & E)]]] _];
      exists pre; eexists; (split; [exact E|]); simpl; auto.
Qed.

(** ** The pull request number *)

Lemma parseDigits_stops (rest : jsstring) (acc : option Z) :
  Spec.NoLeadingDigit rest -> Js.parseDigits 10 rest acc = acc.
Proof.
  destruct rest as [|c rest]; [reflexivity|]. cbn [Spec.NoLeadingDigit
    Spec.noLeading Js.parseDigits]. intros D.
  unfold Js.isDigit in D. unfold Js.digitValue. rewrite D.
  destruct ((97 <=? c) && (c <=? 122))%N eqn:A.
  - replace (Z.of_N c - 87 <? 10) with false; [reflexivity|].
    symmetry. apply Z.ltb_ge. revert A. unit_lia.
  - destruct ((65 <=? c) && (c <=? 90))%N eqn:B; [|reflexivity].
    replace (Z.of_N c - 55 <? 10) with false; [reflexivity|].
    symmetry. apply Z.ltb_ge. revert B. unit_lia.
Qed.

Lemma parseDigits_run (d rest : jsstring) (acc : Z) :
  Spec.Digits d -> Spec.NoLeadingDigit rest ->
  Js.parseDigits 10 (d ++ rest) (Some acc)
  = Some (Spec.decimalValueFrom acc d).
Proof.
  revert acc. induction d as [|c d IH]; intros acc D N.
  - now apply parseDigits_stops.
  - unfold Spec.Digits in D. simpl in D. apply andb_true_iff in D.
    destruct D as [C D]. destruct (digitValue_digit c C) as [E R].
    cbn [app Js.parseDigits Spec.decimalValueFrom]. rewrite E.
    replace (Z.of_N c - 48 <? 10) with true
      by (symmetry; apply Z.ltb_lt; lia).
    now apply IH.
Qed.

Lemma decimalValueFrom_grows (s : jsstring) (acc : Z) :
  Spec.Digits s -> 0 <= acc -> acc <= Spec.decimalValueFrom acc s.
Proof.
  revert acc. induction s as [|c s IH]; intros acc D A;
    [cbn; lia|].
  unfold Spec.Digits in D. simpl in D. apply andb_true_iff in D.
  destruct D as [C D]. destruct (digitValue_digit c C) as [_ R].
  cbn [Spec.decimalValueFrom].
  specialize (IH (acc * 10 + (Z.of_N c - 48)) D ltac:(lia)). lia.
Qed.

Lemma nonzero_digit (c : N) :
  Js.isDigit c = true -> N.eqb c "0"%unit = false ->
  1 <= Z.of_N c - 48.
Proof. unfold Js.isDigit. unit_lia. Qed.

Lemma readRadix_nonzero (c : N) (s : jsstring) :
  N.eqb c "0"%unit = false -> Js.readRadix (c :: s) = (10, c :: s).
Proof. intros Z0. destruct s; [reflexivity|]. simpl. now rewrite Z0. Qed.

(** X19.  GITHUB_PR_NUMBER is read leniently: of a text that starts with a
    decimal number below 2^53 without a leading zero, the number is taken
    and what follows it is ignored, so "12abc" and "12.5" name pull
    request 12. *)
Theorem pr_number_is_read_leniently (w : World) (d rest : jsstring) :
  Spec.Digits1 d ->
  Spec.noLeading (fun c => N.eqb c "0"%unit) d ->
  Spec.decimalValue d < 2 ^ 53 ->
  Spec.NoLeadingDigit rest ->
  env_GITHUB_PR_NUMBER w = Some (d ++ rest) ->
  Bot.envPrNumber w = Some (Spec.decimalValue d)
  /\ 0 < Spec.decimalValue d.
Proof.
  intros [NE D] Z0 _ N E. destruct d as [|c d]; [congruence|].
  unfold Spec.Digits in D. simpl in D. apply andb_true_iff in D.
  destruct D as [C D]. cbn [Spec.noLeading] in Z0.
  destruct (digitValue_digit c C) as [V R].
  assert (P : Js.parseDigits 10 (c :: d ++ rest) None
              = Some (Spec.decimalValue (c :: d))).
  { unfold Spec.decimalValue. cbn [Js.parseDigits Spec.decimalValueFrom].
    rewrite V.
    replace (Z.of_N c - 48 <? 10) with true
      by (symmetry; apply Z.ltb_lt; lia).
    now rewrite (parseDigits_run d rest _ D N). }
  split.
  - unfold Bot.envPrNumber. rewrite E. cbn [app Js.truthy Js.isEmpty negb
      Js.toStr]. unfold Js.parseInt. cbn [Js.trimStart].
    rewrite (digit_not_space c C), (readSign_digit c _ C),
      (readRadix_nonzero c _ Z0), P.
    f_equal. lia.
  - unfold Spec.decimalValue. cbn [Spec.decimalValueFrom].
    pose proof (nonzero_digit c C Z0) as L.
    pose proof (decimalValueFrom_grows d (0 * 10 + (Z.of_N c - 48))
                  D ltac:(lia)). lia.
Qed.

Lemma pr_number_is_read_leniently_witness :
  Bot.envPrNumber (Examples.ciWorld (Some "12.5") Examples.codeChange)
  = Some (Spec.decimalValue "12")
  /\ 0 < Spec.decimalValue "12".
Proof.
  apply (pr_number_is_read_leniently
           (Examples.ciWorld (Some "12.5") Examples.codeChange)
           "12" ".5"); try reflexivity.
  split; [discriminate | reflexivity].
Defined.

(** ** The closing log line *)

(** X20.  The line "Review completed! Posted N comments" that closes a run
    gives the number of assembled comments, not of posts: with nothing
    assembled it says 0 after the general comment was posted, and after a
    failed batched review it still says N though at most ten single
    comments were asked for, some of which may have failed. *)
Theorem closing_log_counts_assembled_comments
    (w : World) (owner repo : jsstring) (prNumber : Z)
    (files : list ChangedFile) (t : Trace) :
  Spec.ValidContext w owner repo prNumber ->
  octokit_listFiles w (t ++ [Spec.startLog owner repo prNumber])
    owner repo prNumber = Ok files ->
  filter Bot.isCodeFile files <> [] ->
  fst (Bot.reviewPullRequest w t) = Ok tt ->
  exists comments before pubEv,
    snd (Bot.reviewPullRequest w t)
    = t ++ before ++ pubEv
        ++ [Obs.completedLog (List.length comments)]
    /\ ((comments = []
         /\ pubEv = [EvCreateComment owner repo prNumber Bot.NO_ISSUES_BODY])
        \/ exists rest,
             pubEv
             = EvCreateReview owner repo prNumber "COMMENT"
                 (Bot.reviewBody comments) comments :: rest
             /\ filter Spec.isCreateReview rest = []
             /\ (Obs.count Spec.isCreateComment rest <= 10)%nat).
Proof.
  intros V L K.
  destruct (Bot.reviewPullRequest w t) as [res tr] eqn:Run.
  cbn [fst snd]. intros ->.
  rewrite (reviewPullRequest_valid w owner repo prNumber t V) in Run.
  set (t0 := t ++ [Spec.startLog owner repo prNumber]) in *.
  set (t1 := t0 ++ [EvListFiles owner repo prNumber; Spec.foundLog files]).
  assert (T : (t0 ++ [EvListFiles owner repo prNumber])
              ++ [EvLog LogInfo
                    ("Found "
                     ++ Js.numberToString (Z.of_nat (List.length files))
                     ++ " changed files") None] = t1)
    by (unfold t1, Spec.foundLog; now rewrite <- app_assoc).
  unfold tryCatch, Bot.reviewSteps, Bot.getChangedFiles in Run.
  unfold bind at 1 in Run. unfold Bot.pullsListFiles, request in Run.
  rewrite L in Run.
  unfold bind at 1 in Run. unfold Bot.console_log at 1 in Run.
  unfold request at 1 in Run. rewrite T in Run.
  destruct (filter Bot.isCodeFile files) as [|f kept]; [congruence|].
  replace (Z.of_nat (List.length (f :: kept)) =? 0) with false in Run
    by (symmetry; apply Z.eqb_neq; simpl; lia).
  destruct (runESLint_class w (map filename (f :: kept)) t1)
    as (found & n1 & E1 & _).
  unfold bind at 1 in Run. rewrite E1 in Run.
  unfold Bot.generateAIReview in Run.
  destruct (generateAIReview_inv w (f :: kept) (Bot.lintPhase found [])
              (t1 ++ n1)) as (ai & n2 & E2 & _).
  unfold bind at 1 in Run. rewrite E2 in Run.
  set (comments := Bot.lintPhase found [] ++ ai) in *.
  set (t2 := (t1 ++ n1) ++ n2) in *.
  assert (B : t2 = t ++ ([Spec.startLog owner repo prNumber;
                          EvListFiles owner repo prNumber;
                          Spec.foundLog files] ++ n1 ++ n2))
    by (unfold t2, t1, t0; now rewrite <- !app_assoc).
  clearbody t2 comments. unfold bind in Run.
  exists comments,
    ([Spec.startLog owner repo prNumber;
      EvListFiles owner repo prNumber; Spec.foundLog files] ++ n1 ++ n2).
  destruct comments as [|c cs].
  - rewrite postReviewComments_empty in Run.
    destruct (octokit_createComment w t2 owner repo prNumber
                Bot.NO_ISSUES_BODY) as [[]|e].
    + unfold Bot.console_log, request in Run. injection Run as <-.
      exists [EvCreateComment owner repo prNumber Bot.NO_ISSUES_BODY].
      split; [|left; split; reflexivity].
      rewrite B, <- !app_assoc. reflexivity.
    + unfold Bot.console_error, request, throw in Run. discriminate.
  - destruct (postReviewComments_cons w owner repo prNumber c cs t2)
      as (new & E3 & _ & R & Cc).
    rewrite E3 in Run. unfold Bot.console_log, request in Run.
    injection Run as <-.
    exists (EvCreateReview owner repo prNumber "COMMENT"
              (Bot.reviewBody (c :: cs)) (c :: cs) :: new).
    split.
    + rewrite B, <- !app_assoc. reflexivity.
    + right. exists new. split; [reflexivity|]. split; [exact R|].
      unfold Obs.count. rewrite Cc.
      destruct (octokit_createReview w t2 owner repo prNumber "COMMENT"
                  (Bot.reviewBody (c :: cs)) (c :: cs)); [simpl; lia|].
      rewrite length_map, length_firstn. lia.
Qed.

Lemma closing_log_counts_assembled_comments_witness :
  exists comments before pubEv,
    snd (Bot.reviewPullRequest
           (Outages.world (Some "t") (Some "octo/app") (Ok Outages.change)
              (Ok tt)) [])
    = [] ++ before ++ pubEv ++ [Obs.completedLog (List.length comments)]
    /\ ((comments = []
         /\ pubEv = [EvCreateComment "octo" "app" 12 Bot.NO_ISSUES_BODY])
        \/ exists rest,
             pubEv
             = EvCreateReview "octo" "app" 12 "COMMENT"
                 (Bot.reviewBody comments) comments :: rest
             /\ filter Spec.isCreateReview rest = []
             /\ (Obs.count Spec.isCreateComment rest <= 10)%nat).
Proof.
  apply (closing_log_counts_assembled_comments
           (Outages.world (Some "t") (Some "octo/app") (Ok Outages.change)
              (Ok tt)) "octo" "app" 12 Outages.change []).
  - repeat split; discriminate.
  - reflexivity.
  - vm_compute. discriminate.
  - vm_compute. reflexivity.
Defined.

(** ** Instances *)

Lemma publisher_outcomes_witness :
  let w := Examples.ciWorld (Some "7") Examples.codeChange in
  let three := [Examples.note 1; Examples.note 2; Examples.note 3] in
  exists new,
    Bot.postReviewComments w "octo" "app" 7 three []
    = (Ok tt,
       [] ++ EvCreateReview "octo" "app" 7 "COMMENT" (Bot.reviewBody three)
               three :: new)
    /\ filter Spec.isCreateComment new
       = map (Spec.fallbackPost "octo" "app" 7) three.
Proof.
  intros w three.
  destruct (publisher_outcomes w "octo" "app" 7 (Examples.note 1)
              [Examples.note 2; Examples.note 3] [])
    as (new & E & _ & H).
  exists new. split; [exact E|].
  cbn [octokit_createReview w Examples.ciWorld] in H.
  destruct H as (_ & _ & All). apply All. simpl. lia.
Defined.

Lemma hunk_pattern_matches_grammar_witness :
  Spec.FirstHunkHeader "+++ b/src/a.ts @@ -10,5 +20,6 @@" "20"
  /\ Spec.Digits1 "20".
Proof.
  pose proof (hunk_pattern_matches_grammar "+++ b/src/a.ts @@ -10,5 +20,6 @@")
    as (M & _ & D).
  assert (F : Spec.FirstHunkHeader "+++ b/src/a.ts @@ -10,5 +20,6 @@" "20")
    by (apply M; reflexivity).
  split; [exact F | exact (D "20" F)].
Defined.

Lemma filter_keeps_code_files_witness :
  In Examples.file_c (filter Bot.isCodeFile Examples.codeChange)
  /\ exists stem ext,
       filename Examples.file_c = (stem ++ "." ++ ext)
       /\ In ext ["ts"; "js"; "tsx"; "jsx"].
Proof.
  pose proof (filter_keeps_code_files Examples.codeChange) as (I & _ & K).
  assert (H : Spec.KeptByFilter Examples.file_c)
    by (apply isCodeFile_spec; reflexivity).
  split.
  - apply I. split; [|exact H]. simpl. auto.
  - apply K. exact H.
Defined.
